(** * ClawBeam: classifier, timed state machine, actuator client, log tailer

    A shallow embedding of the Python sources of ClawBeam and the
    properties its specification states about them.

    The repository carries two implementations of the classifier, the
    state machine and the tailer: the modules at the top of the source
    tree ([parser.py], [state_machine.py], [session_watcher.py]) and the
    modules of the [clawbeam] package ([clawbeam/parser.py],
    [clawbeam/state_machine.py], [clawbeam/session_watcher.py]).  They are
    embedded side by side, in [Module Root] and [Module Clawbeam]; the
    actuator client exists once ([clawbeam/wled_client.py]).

    Conventions of the embedding:
    - monotonic clock readings and durations are integers ([Z]) in one
      fixed unit; every [time.monotonic()] call of an entry point is an
      explicit argument of its model;
    - a Python [str] is a [string] whose characters are code points
      below 256;
    - a coroutine is modelled by its sequential effect; a Python
      exception leaving a function is the [Raise] outcome. *)

From stdpp Require Import gmap strings list.
From Stdlib Require Import ZArith Lia Ascii String.
From Equations Require Import Equations.

Open Scope Z_scope.

(** ** Python values and exceptions *)

Module Py.

(** The exception classes that occur in the modelled code.
    [CancelledError] derives from [BaseException] only, the others from
    [Exception]. *)
Inductive exc :=
| AttributeError
| TypeError
| RuntimeError
| CancelledError.

Definition is_Exception (e : exc) : bool :=
  match e with
  | CancelledError => false
  | _ => true
  end.

(** Result of running a piece of Python code. *)
Inductive outcome (A : Type) :=
| Ret (a : A)
| Raise (e : exc).
Arguments Ret {A} a.
Arguments Raise {A} e.

Definition bind {A B} (x : outcome A) (k : A -> outcome B) : outcome B :=
  match x with
  | Ret a => k a
  | Raise e => Raise e
  end.

(** A binary64 float: [Finite m e] is [m * 2^e]. *)
Inductive float :=
| Finite (m e : Z)
| Inf (negative : bool)
| NaN.

(** What [json.loads] builds: [None], [bool], [int], [float], [str],
    [list] and [dict] with [str] keys. *)
#[warnings="-register-all"] Inductive value :=
| JNull
| JBool (b : bool)
| JInt (n : Z)
| JFloat (f : float)
| JStr (s : string)
| JList (l : list value)
| JDict (d : gmap string value).

(** Truth value of an object, as [if x], [x or y] and [x and y] test it. *)
Definition truthy (v : value) : bool :=
  match v with
  | JNull => false
  | JBool b => b
  | JInt n => negb (n =? 0)
  | JFloat (Finite m _) => negb (m =? 0)
  | JFloat _ => true
  | JStr s => negb (String.eqb s EmptyString)
  | JList l => match l with [] => false | _ => true end
  | JDict d => match map_to_list d with [] => false | _ => true end
  end.

(** [x or y] *)
Definition or_ (x y : value) : value := if truthy x then x else y.

(** [d.get(key)] and [d.get(key, default)] on a [dict];
    [None] is [JNull]. *)
Definition dict_get (d : gmap string value) (key : string) (default : value) : value :=
  match d !! key with
  | Some v => v
  | None => default
  end.

(** [obj.get(key, default)] on any object: only a [dict] has [get]. *)
Definition get (obj : value) (key : string) (default : value) : outcome value :=
  match obj with
  | JDict d => Ret (dict_get d key default)
  | _ => Raise AttributeError
  end.

(** [x >= n] for an integer constant [n]. *)
Definition float_ge (f : float) (n : Z) : bool :=
  match f with
  | Finite m e => if 0 <=? e then n <=? m * 2 ^ e else n * 2 ^ (- e) <=? m
  | Inf negative => negb negative
  | NaN => false
  end.

Definition ge_int (v : value) (n : Z) : outcome bool :=
  match v with
  | JInt k => Ret (n <=? k)
  | JBool b => Ret (n <=? (if b then 1 else 0))
  | JFloat f => Ret (float_ge f n)
  | _ => Raise TypeError
  end.

End Py.

#[global] Instance outcome_ret : MRet Py.outcome := @Py.Ret.
#[global] Instance outcome_bind : MBind Py.outcome :=
fun A B k x => Py.bind x k.

(** ** Enumerations shared by both implementations *)

Module LampState.

Inductive t :=
| IDLE
| USER_INPUT
| THINKING
| TOOL_CALL
| TOOL_SUCCESS
| TOOL_ERROR
| NETWORK_ERROR
| HIGH_TOKENS.

#[global] Instance eq_dec : EqDecision t.
Proof. solve_decision. Defined.

Definition to_nat (s : t) : nat :=
  match s with
  | IDLE => 0 | USER_INPUT => 1 | THINKING => 2 | TOOL_CALL => 3
  | TOOL_SUCCESS => 4 | TOOL_ERROR => 5 | NETWORK_ERROR => 6
  | HIGH_TOKENS => 7
  end%nat.

Definition of_nat (n : nat) : option t :=
  match n with
  | 0 => Some IDLE | 1 => Some USER_INPUT | 2 => Some THINKING
  | 3 => Some TOOL_CALL | 4 => Some TOOL_SUCCESS | 5 => Some TOOL_ERROR
  | 6 => Some NETWORK_ERROR | 7 => Some HIGH_TOKENS | _ => None
  end%nat.

#[global] Instance countable : Countable t.
Proof.
  apply (inj_countable to_nat of_nat).
  intros []; reflexivity.
Defined.

(** The member's value, which is also its name. *)
Definition value (s : t) : string :=
  match s with
  | IDLE => "IDLE" | USER_INPUT => "USER_INPUT" | THINKING => "THINKING"
  | TOOL_CALL => "TOOL_CALL" | TOOL_SUCCESS => "TOOL_SUCCESS"
  | TOOL_ERROR => "TOOL_ERROR" | NETWORK_ERROR => "NETWORK_ERROR"
  | HIGH_TOKENS => "HIGH_TOKENS"
  end.

End LampState.

Module EventType.

Inductive t :=
| USER_INPUT
| ASSISTANT
| TOOL_CALL
| TOOL_RESULT_SUCCESS
| TOOL_RESULT_ERROR
| UNKNOWN.

#[global] Instance eq_dec : EqDecision t.
Proof. solve_decision. Defined.

End EventType.

(** [config.py]: the timing the state machine reads. *)
Record StateMachineConfig := {
min_state_duration : Z;
idle_timeout : Z;
debounce_window : Z
}.

(** [datetime.datetime]: calendar fields and the offset of an aware value. *)
Record datetime := {
year : Z; month : Z; day : Z;
hour : Z; minute : Z; second : Z; microsecond : Z;
utcoffset : option Z
}.

(** The transition observer: called with [(old, new)], it returns or
  raises. *)
Inductive callback_result :=
| Returns
| Raises (e : Py.exc).

Definition observer := LampState.t -> LampState.t -> callback_result.

(** An [asyncio] task held in [_idle_task]. *)
Inductive task :=
| Sleeping
| Finished
| Cancelled.

(** [task and not task.done()] *)
Definition pending (tk : option task) : bool :=
match tk with
| Some Sleeping => true
| _ => false
end.

(** ** Python [str] methods used by the classifier *)

Module Str.

(** [c.isspace()] for a code point below 256. *)
Definition isspace (c : ascii) : bool :=
  let n := Z.of_nat (nat_of_ascii c) in
  ((9 <=? n) && (n <=? 13)) || ((28 <=? n) && (n <=? 32))
  || (n =? 133) || (n =? 160).

Fixpoint lstrip (s : string) : string :=
  match s with
  | EmptyString => EmptyString
  | String c s' => if isspace c then lstrip s' else s
  end.

Definition rstrip (s : string) : string :=
  String.rev (lstrip (String.rev s)).

(** [s.strip()] *)
Definition strip (s : string) : string := rstrip (lstrip s).

Definition lower_char (c : ascii) : ascii :=
  let n := Z.of_nat (nat_of_ascii c) in
  if ((65 <=? n) && (n <=? 90))
     || ((192 <=? n) && (n <=? 222) && negb (n =? 215))
  then ascii_of_nat (nat_of_ascii c + 32)
  else c.

(** [s.lower()] *)
Fixpoint lower (s : string) : string :=
  match s with
  | EmptyString => EmptyString
  | String c s' => String (lower_char c) (lower s')
  end.

(** [s.startswith(p)] *)
Definition startswith (s p : string) : bool := String.prefix p s.

(** [needle in s] *)
Fixpoint contains (s needle : string) : bool :=
  String.prefix needle s
  || match s with
     | EmptyString => false
     | String _ s' => contains s' needle
     end.

(** [not s] *)
Definition is_empty (s : string) : bool :=
  match s with
  | EmptyString => true
  | String _ _ => false
  end.

(** [v.lower()] on an object: only a [str] has [lower]. *)
Definition lower_of (v : Py.value) : Py.outcome string :=
  match v with
  | Py.JStr s => Py.Ret (lower s)
  | _ => Py.Raise Py.AttributeError
  end.

(** [v == s] for a [str] literal [s]. *)
Definition eq_lit (v : Py.value) (s : string) : bool :=
  match v with
  | Py.JStr s' => String.eqb s' s
  | _ => false
  end.

End Str.

(** ** Text files as the tailer reads them *)

Module File.

(** An open file: what was written to it so far and the read cursor of
    the handle.  Used as it is, the characters are the text the reads
    return, which is the file's own text when that holds ASCII without
    carriage returns; [Module TextIO] below reads the characters as bytes
    and decodes them. *)
Record handle := {
  written : string;
  cursor : nat
}.

(** [open(path, "r")] on a file holding [contents]. *)
Definition open (contents : string) : handle :=
  {| written := contents; cursor := 0 |}.

(** [fh.seek(0, os.SEEK_END)] *)
Definition seek_end (fh : handle) : handle :=
  {| written := written fh; cursor := String.length (written fh) |}.

(** [fh.read()]: everything from the cursor on; the cursor moves to the
    end. *)
Definition read (fh : handle) : string * handle :=
  (substring (cursor fh) (String.length (written fh) - cursor fh) (written fh),
   seek_end fh).

(** The writer appends [data]. *)
Definition append (data : string) (fh : handle) : handle :=
  {| written := written fh +:+ data; cursor := cursor fh |}.

End File.

(** ** The same files read in text mode

    [open(path, "r", encoding="utf-8")] wraps the file in a decoder: the
    handle of [Module File] is then the underlying byte buffer, one
    character per byte, and every [fh.read()] decodes the bytes it gets as
    one complete UTF-8 text and translates the line ends. *)

Module TextIO.

Definition carriage_return : ascii := ascii_of_nat 13.

Definition line_feed : ascii := ascii_of_nat 10.

(** Universal newlines ([newline=None]): in what a read returns, a
    carriage return followed by a line feed, and a carriage return alone,
    are one line feed. *)
Fixpoint translate_newlines (text : string) : string :=
  match text with
  | EmptyString => EmptyString
  | String c rest =>
      if Ascii.eqb c carriage_return then
        String line_feed
          match rest with
          | String c' rest' =>
              if Ascii.eqb c' line_feed then translate_newlines rest'
              else translate_newlines rest
          | EmptyString => EmptyString
          end
      else String c (translate_newlines rest)
  end.

(** How [tail_file] ends: [stop_event] was set while [buffer] held the
    unfinished line, or [fh.read()] raised [UnicodeDecodeError]. *)
Inductive ending :=
| Stopped (buffer : string)
| UnicodeDecodeError.

Section Decoder.

(** The UTF-8 decoder on the bytes of one read, taken as a complete
    text: [None] when it raises [UnicodeDecodeError] (bytes that are no
    UTF-8, or that end inside a character). *)
Variable decode : string -> option string.

(** The inner loop of the tailer: [drain] of [session_watcher.py] or of
    [clawbeam/session_watcher.py]. *)
Variable drain : string -> list string * string.

(** [fh.read()] in text mode. *)
Definition read (fh : File.handle) : option string * File.handle :=
  let (data, fh) := File.read fh in
  (translate_newlines <$> decode data, fh).

(** The polling loop.  Each element of [polls] is one iteration: the
    bytes the writer appended since the previous read; after the last
    element [stop_event] is set.  The result is the lines yielded, in
    order, and how the generator ends. *)
Fixpoint tail_loop (fh : File.handle) (buffer : string) (polls : list string)
  : list string * ending :=
  match polls with
  | [] => ([], Stopped buffer)
  | appended :: polls =>
      match read (File.append appended fh) with
      | (None, _) => ([], UnicodeDecodeError)
      | (Some chunk, fh) =>
          if Str.is_empty chunk then tail_loop fh buffer polls
          else
            let (lines, buffer) := drain (buffer +:+ chunk) in
            let (more, ending) := tail_loop fh buffer polls in
            (lines ++ more, ending)
      end
  end.

(** [tail_file(path)] on a file that holds the bytes [existing] when it
    is opened. *)
Definition tail_file (existing : string) (polls : list string)
  : list string * ending :=
  tail_loop (File.seek_end (File.open existing)) EmptyString polls.

End Decoder.

End TextIO.

(** ** Paths as the session finder sees them *)

Module Path.

(** A path yielded by [sessions_dir.glob("*.jsonl")]: its final component
    and the modification time its [stat()] reports. *)
Record t := {
  name : string;
  st_mtime : Z
}.

(** [name.rfind(".")]; [None] is [-1]. *)
Fixpoint rfind_dot (s : string) : option nat :=
  match s with
  | EmptyString => None
  | String c rest =>
      match rfind_dot rest with
      | Some i => Some (S i)
      | None => if Ascii.eqb c "."%char then Some 0%nat else None
      end
  end.

(** [p.stem]: the name without its last suffix; a dot that starts or ends
    the name begins no suffix. *)
Definition stem (p : t) : string :=
  match rfind_dot (name p) with
  | Some i =>
      if (0 <? i)%nat && (i <? String.length (name p) - 1)%nat
      then substring 0 i (name p)
      else name p
  | None => name p
  end.

(** [max(items, key=key)] on a non-empty list given as its first item
    and the rest: the first item whose key is largest. *)
Fixpoint max_by {A} (key : A -> Z) (best : A) (items : list A) : A :=
  match items with
  | [] => best
  | item :: items =>
      max_by key (if key best <? key item then item else best) items
  end.

(** [items.sort(key=key)]: ascending, items of equal key in their
    original order. *)
Fixpoint insert_by {A} (key : A -> Z) (item : A) (sorted : list A) : list A :=
  match sorted with
  | [] => [item]
  | other :: sorted' =>
      if key item <=? key other then item :: sorted
      else other :: insert_by key item sorted'
  end.

Definition sort_by {A} (key : A -> Z) (items : list A) : list A :=
  foldr (insert_by key) [] items.

End Path.

Definition newline : ascii := ascii_of_nat 10.

Definition inspect {A} (a : A) : {b | a = b} := exist _ a eq_refl.

(** ** The classifier *)

Module Root.

(** *** [parser.py] *)
Module parser.

Module Severity.
Inductive t := INFO | WARNING | ERROR.
End Severity.

Record Event := {
  id : string;
  event_type : EventType.t;
  severity : Severity.t;
  timestamp : datetime;
  raw_payload : Py.value;
  token_count : Py.value
}.

Definition _detect_error (payload : Py.value) : Py.outcome bool :=
  msg ← Py.get payload "message" (Py.JDict ∅);
  content ← Py.get msg "content" (Py.JStr EmptyString);
  match content with
  | Py.JStr s =>
      let lowered := Str.lower s in
      mret (existsb (Str.contains lowered)
              ["error"; "exception"; "traceback"; "failed"]%string)
  | _ => mret false
  end.

Section ParseLine.

(** [json.loads]: [None] when it raises [JSONDecodeError]. *)
Variable json_loads : string -> option Py.value.
(** [datetime.fromisoformat]: [None] when it raises [ValueError]. *)
Variable fromisoformat : string -> option datetime.
(** [str(x)] of an object that is not a [str]. *)
Variable str_of : Py.value -> string.

Definition str (v : Py.value) : string :=
  match v with
  | Py.JStr s => s
  | _ => str_of v
  end.

Definition classify (data : Py.value) (role record_type : string)
  : Py.outcome (EventType.t * Severity.t) :=
  if String.eqb role "user" || String.eqb record_type "user" then
    mret (EventType.USER_INPUT, Severity.INFO)
  else if String.eqb record_type "tool_call"
          || String.eqb record_type "toolcall"
          || String.eqb role "toolcall" then
    mret (EventType.TOOL_CALL, Severity.INFO)
  else if String.eqb record_type "tool_result"
          || String.eqb record_type "toolresult"
          || String.eqb role "toolresult" then
    err ← _detect_error data;
    mret (if err : bool
          then (EventType.TOOL_RESULT_ERROR, Severity.ERROR)
          else (EventType.TOOL_RESULT_SUCCESS, Severity.INFO))
  else if String.eqb role "assistant" || String.eqb record_type "assistant" then
    mret (EventType.ASSISTANT, Severity.INFO)
  else
    mret (EventType.UNKNOWN, Severity.INFO).

(** [parse_line(line)].  [uuid4_hex] is the value of [uuid.uuid4().hex]
    drawn by the [id] default factory and [now] the value of
    [datetime.now(timezone.utc)]. *)
Definition parse_line (uuid4_hex : string) (now : datetime) (line : string)
  : Py.outcome (option Event) :=
  let line := Str.strip line in
  if Str.is_empty line then mret None else
  match json_loads line with
  | None => mret None
  | Some data =>
      msg ← Py.get data "message" (Py.JDict ∅);
      role ← Py.get msg "role" (Py.JStr EmptyString) ≫= Str.lower_of;
      record_type ← Py.get data "type" (Py.JStr EmptyString) ≫= Str.lower_of;
      kind ← classify data role record_type;
      usage ← Py.get data "usage" (Py.JDict ∅);
      let token_count :=
        match usage with
        | Py.JDict u =>
            Py.or_ (Py.dict_get u "total_tokens" Py.JNull)
                   (Py.dict_get u "totalTokens" Py.JNull)
        | _ => Py.JNull
        end in
      ts0 ← Py.get data "timestamp" Py.JNull;
      ts1 ← Py.get data "ts" Py.JNull;
      let ts_str := Py.or_ ts0 ts1 in
      let ts :=
        if Py.truthy ts_str then
          match fromisoformat (str ts_str) with
          | Some d => d
          | None => now
          end
        else now in
      mret (Some {| id := substring 0 12 uuid4_hex;
                    event_type := fst kind;
                    severity := snd kind;
                    timestamp := ts;
                    raw_payload := data;
                    token_count := token_count |})
  end.

End ParseLine.

End parser.

(** *** [state_machine.py] *)
Module state_machine.

Import parser.

Definition _EVENT_TO_STATE (k : EventType.t) : option LampState.t :=
  match k with
  | EventType.USER_INPUT => Some LampState.USER_INPUT
  | EventType.ASSISTANT => Some LampState.THINKING
  | EventType.TOOL_CALL => Some LampState.TOOL_CALL
  | EventType.TOOL_RESULT_SUCCESS => Some LampState.TOOL_SUCCESS
  | EventType.TOOL_RESULT_ERROR => Some LampState.TOOL_ERROR
  | EventType.UNKNOWN => None
  end.

Definition HIGH_TOKEN_THRESHOLD : Z := 4000.

Inductive log_record :=
| LogTransition (old new : LampState.t)
| LogCallbackFailed.

(** The attributes of a [StateMachine] object; [notified] (the calls made
    to the observer, oldest first) and [logged] (the records written to
    the logger) are kept beside them. *)
Record StateMachine := {
  _state : LampState.t;
  _state_entered_at : Z;
  _last_activity : Z;
  _last_transition_key : option string;
  _last_transition_time : Z;
  _idle_task : option task;
  notified : list (LampState.t * LampState.t);
  logged : list log_record
}.

(** [StateMachine(config, on_transition)]; [t0] and [t1] are the two
    clock readings of the constructor. *)
Definition __init__ (t0 t1 : Z) : StateMachine :=
  {| _state := LampState.IDLE;
     _state_entered_at := t0;
     _last_activity := t1;
     _last_transition_key := None;
     _last_transition_time := 0;
     _idle_task := None;
     notified := [];
     logged := [] |}.

(** The f-string [f"{self._state}->{target}"]. *)
Definition transition_key (from target : LampState.t) : string :=
  LampState.value from +:+ "->" +:+ LampState.value target.

Section Machine.

Variable cfg : StateMachineConfig.
Variable on_transition : option observer.

Definition commit (now : Z) (key : string) (target : LampState.t)
    (m : StateMachine) : StateMachine :=
  {| _state := target;
     _state_entered_at := now;
     _last_activity := _last_activity m;
     _last_transition_key := Some key;
     _last_transition_time := now;
     _idle_task := _idle_task m;
     notified := notified m;
     logged := logged m ++ [LogTransition (_state m) target] |}.

Definition record_call (old new : LampState.t) (m : StateMachine)
  : StateMachine :=
  {| _state := _state m;
     _state_entered_at := _state_entered_at m;
     _last_activity := _last_activity m;
     _last_transition_key := _last_transition_key m;
     _last_transition_time := _last_transition_time m;
     _idle_task := _idle_task m;
     notified := notified m ++ [(old, new)];
     logged := logged m |}.

Definition record_log (r : log_record) (m : StateMachine) : StateMachine :=
  {| _state := _state m;
     _state_entered_at := _state_entered_at m;
     _last_activity := _last_activity m;
     _last_transition_key := _last_transition_key m;
     _last_transition_time := _last_transition_time m;
     _idle_task := _idle_task m;
     notified := notified m;
     logged := logged m ++ [r] |}.

Definition _try_transition (now : Z) (target : LampState.t)
    (m : StateMachine) : StateMachine * Py.outcome unit :=
  if now - _state_entered_at m <? min_state_duration cfg then (m, mret tt)
  else
    let key := transition_key (_state m) target in
    if bool_decide (Some key = _last_transition_key m)
       && (now - _last_transition_time m <? debounce_window cfg)
    then (m, mret tt)
    else if bool_decide (target = _state m) then (m, mret tt)
    else
      let old := _state m in
      let m := commit now key target m in
      match on_transition with
      | None => (m, mret tt)
      | Some callback =>
          let m := record_call old target m in
          match callback old target with
          | Returns => (m, mret tt)
          | Raises e =>
              if Py.is_Exception e
              then (record_log LogCallbackFailed m, mret tt)
              else (m, Py.Raise e)
          end
      end.

Definition set_idle_task (tk : option task) (m : StateMachine)
  : StateMachine :=
  {| _state := _state m;
     _state_entered_at := _state_entered_at m;
     _last_activity := _last_activity m;
     _last_transition_key := _last_transition_key m;
     _last_transition_time := _last_transition_time m;
     _idle_task := tk;
     notified := notified m;
     logged := logged m |}.

Definition set_last_activity (t : Z) (m : StateMachine) : StateMachine :=
  {| _state := _state m;
     _state_entered_at := _state_entered_at m;
     _last_activity := t;
     _last_transition_key := _last_transition_key m;
     _last_transition_time := _last_transition_time m;
     _idle_task := _idle_task m;
     notified := notified m;
     logged := logged m |}.

(** A pending watcher is cancelled and a new one scheduled. *)
Definition _restart_idle_timer (m : StateMachine) : StateMachine :=
  set_idle_task (Some Sleeping) m.

(** [event.token_count and event.token_count >= HIGH_TOKEN_THRESHOLD] *)
Definition high_tokens (tc : Py.value) : Py.outcome bool :=
  if Py.truthy tc then Py.ge_int tc HIGH_TOKEN_THRESHOLD else mret false.

(** [handle_event(event)]; [t_activity] and [now] are its two clock
    readings. *)
Definition handle_event (t_activity now : Z) (event : Event)
    (m : StateMachine) : StateMachine * Py.outcome unit :=
  let m := _restart_idle_timer (set_last_activity t_activity m) in
  let target := _EVENT_TO_STATE (event_type event) in
  match high_tokens (token_count event) with
  | Py.Raise e => (m, Py.Raise e)
  | Py.Ret override =>
      let target := if override then Some LampState.HIGH_TOKENS else target in
      match target with
      | None => (m, mret tt)
      | Some target => _try_transition now target m
      end
  end.

Definition set_network_error (now : Z) (m : StateMachine)
  : StateMachine * Py.outcome unit :=
  _try_transition now LampState.NETWORK_ERROR m.

Definition clear_network_error (now : Z) (m : StateMachine)
  : StateMachine * Py.outcome unit :=
  if bool_decide (_state m = LampState.NETWORK_ERROR)
  then _try_transition now LampState.IDLE m
  else (m, mret tt).

(** The body of [_idle_watcher] after its sleep, run when the task was
    not cancelled meanwhile. *)
Definition _idle_watcher (t_check now : Z) (m : StateMachine)
  : StateMachine * Py.outcome unit :=
  if pending (_idle_task m) then
    let m := set_idle_task (Some Finished) m in
    if idle_timeout cfg <=? t_check - _last_activity m
    then
      match _try_transition now LampState.IDLE m with
      | (m, Py.Raise Py.CancelledError) => (m, mret tt)
      | r => r
      end
    else (m, mret tt)
  else (m, mret tt).

Definition stop (m : StateMachine) : StateMachine :=
  if pending (_idle_task m) then set_idle_task (Some Cancelled) m else m.

End Machine.

End state_machine.

(** *** [session_watcher.py] *)
Module session_watcher.

(** ["reset" not in p.stem.lower()] *)
Definition is_candidate (p : Path.t) : bool :=
  negb (Str.contains (Str.lower (Path.stem p)) "reset").

(** [_latest_session(sessions_dir)] on the paths the glob yields, in the
    order it yields them. *)
Definition _latest_session (globbed : list Path.t) : option Path.t :=
  match List.filter is_candidate globbed with
  | [] => None
  | first :: others => Some (Path.max_by Path.st_mtime first others)
  end.

(** [buffer.split("\n", 1)] when the buffer holds a newline: the text
    before the first newline and the text after it.  [None] when there
    is no newline, the case the loop condition excludes. *)
Fixpoint split_newline (buffer : string) : option (string * string) :=
  match buffer with
  | EmptyString => None
  | String c rest =>
      if Ascii.eqb c newline then Some (EmptyString, rest)
      else
        match split_newline rest with
        | Some (line, rest') => Some (String c line, rest')
        | None => None
        end
  end.

(** The inner loop [while "\n" in buffer: line, buffer = ...; yield line]:
    the lines yielded and the buffer left. *)
Equations? drain (buffer : string) : list string * string
  by wf (String.length buffer) lt :=
  drain buffer with inspect (split_newline buffer) => {
    | exist _ (Some (line, rest)) _ =>
        let r := drain rest in (line :: fst r, snd r);
    | exist _ None _ => ([], buffer) }.
Proof.
  clear drain.
  revert line rest e.
  induction buffer as [|c s IH]; intros line rest; simpl; [discriminate|].
  destruct (Ascii.eqb c newline).
  - intros [= <- <-]. lia.
  - destruct (split_newline s) as [[l r]|]; [|discriminate].
    intros [= <- <-]. specialize (IH _ _ eq_refl). lia.
Qed.

(** The polling loop.  Each element of [polls] is one iteration: the text
    the writer appended since the previous read; after the last element
    [stop_event] is set.  The result is the lines yielded, in order, and
    the buffer held at the end. *)
Fixpoint tail_loop (fh : File.handle) (buffer : string) (polls : list string)
  : list string * string :=
  match polls with
  | [] => ([], buffer)
  | appended :: polls =>
      let (chunk, fh) := File.read (File.append appended fh) in
      if Str.is_empty chunk then tail_loop fh buffer polls
      else
        let (lines, buffer) := drain (buffer +:+ chunk) in
        let (more, buffer) := tail_loop fh buffer polls in
        (lines ++ more, buffer)
  end.

(** [tail_file(path)] on a file that holds [existing] when it is opened. *)
Definition tail_file (existing : string) (polls : list string)
  : list string * string :=
  tail_loop (File.seek_end (File.open existing)) EmptyString polls.

End session_watcher.

End Root.

Module Clawbeam.

(** *** [clawbeam/parser.py] *)
Module parser.

Module Severity.
Inductive t := INFO | ERROR.
End Severity.

(** [id] is declared [str | None] and holds what the record holds;
    [None] is [JNull]. *)
Record Event := {
  id : Py.value;
  event_type : EventType.t;
  message : Py.value;
  severity : Severity.t;
  token_count : option Z;
  timestamp : option datetime
}.

Definition _map_type (type_str message : Py.value)
  : Py.outcome (EventType.t * Severity.t) :=
  if negb (Py.truthy type_str) then mret (EventType.UNKNOWN, Severity.INFO)
  else if Str.eq_lit type_str "user" then
    mret (EventType.USER_INPUT, Severity.INFO)
  else if Str.eq_lit type_str "assistant" then
    mret (EventType.ASSISTANT, Severity.INFO)
  else if Str.eq_lit type_str "tool_call" then
    mret (EventType.TOOL_CALL, Severity.INFO)
  else if Str.eq_lit type_str "tool_result" then
    content ← Py.get (Py.or_ message (Py.JDict ∅)) "content"
                     (Py.JStr EmptyString);
    match content with
    | Py.JStr s =>
        if Str.startswith (Str.lower s) "error"
        then mret (EventType.TOOL_RESULT_ERROR, Severity.ERROR)
        else mret (EventType.TOOL_RESULT_SUCCESS, Severity.INFO)
    | _ => mret (EventType.TOOL_RESULT_SUCCESS, Severity.INFO)
    end
  else mret (EventType.UNKNOWN, Severity.INFO).

Section ParseLine.

(** [json.loads]: [None] when it raises [JSONDecodeError]. *)
Variable json_loads : string -> option Py.value.
(** [datetime.fromisoformat]: [None] when it raises. *)
Variable fromisoformat : string -> option datetime.
(** [int(s)] of a [str]: [None] when it raises [ValueError]. *)
Variable int_of_str : string -> option Z.

(** [int(x)]; [None] when it raises. *)
Definition int (v : Py.value) : option Z :=
  match v with
  | Py.JInt n => Some n
  | Py.JBool b => Some (if b then 1 else 0)
  | Py.JFloat (Py.Finite m e) =>
      Some (if 0 <=? e then m * 2 ^ e else Z.quot m (2 ^ (- e)))
  | Py.JStr s => int_of_str s
  | _ => None
  end.

(** [parse_line(line)]; [now] is the value of
    [datetime.now(timezone.utc)]. *)
Definition parse_line (now : datetime) (line : string)
  : Py.outcome (option Event) :=
  if Str.is_empty line || Str.is_empty (Str.strip line) then mret None else
  match json_loads line with
  | None => mret None
  | Some obj =>
      type_str ← Py.get obj "type" Py.JNull;
      message ← Py.get obj "message" (Py.JDict ∅);
      let message := Py.or_ message (Py.JDict ∅) in
      usage ← Py.get obj "usage" Py.JNull;
      let usage := Py.or_ usage (Py.JDict ∅) in
      kind ← _map_type type_str message;
      ts ← Py.get obj "timestamp" Py.JNull;
      let timestamp :=
        if Py.truthy ts then
          match ts with
          | Py.JStr s =>
              match fromisoformat s with
              | Some d => d
              | None => now
              end
          | _ => now
          end
        else now in
      let token_count :=
        match usage with
        | Py.JDict u =>
            match u !! "total_tokens" with
            | Some v => int v
            | None => None
            end
        | _ => None
        end in
      evt_id0 ← Py.get obj "id" Py.JNull;
      evt_id1 ← Py.get obj "timestamp" Py.JNull;
      let evt_id := Py.or_ (Py.or_ evt_id0 evt_id1) Py.JNull in
      mret (Some {| id := evt_id;
                    event_type := fst kind;
                    message := message;
                    severity := snd kind;
                    token_count := token_count;
                    timestamp := Some timestamp |})
  end.

End ParseLine.

End parser.

(** *** [clawbeam/state_machine.py] *)
Module state_machine.

Import parser.

(** The attributes of a [StateMachine] object; [notified] holds the calls
    made to the observer, oldest first.  The watcher task in [_idle_task]
    is recorded with the state it watches. *)
Record StateMachine := {
  _state : LampState.t;
  _state_entered_at : Z;
  _last_transition_times : gmap (LampState.t * LampState.t) Z;
  _idle_task : option (task * LampState.t);
  notified : list (LampState.t * LampState.t)
}.

Definition __init__ (t0 : Z) : StateMachine :=
  {| _state := LampState.IDLE;
     _state_entered_at := t0;
     _last_transition_times := ∅;
     _idle_task := None;
     notified := [] |}.

Definition mapping (k : EventType.t) : option LampState.t :=
  match k with
  | EventType.USER_INPUT => Some LampState.USER_INPUT
  | EventType.ASSISTANT => Some LampState.THINKING
  | EventType.TOOL_CALL => Some LampState.TOOL_CALL
  | EventType.TOOL_RESULT_SUCCESS => Some LampState.TOOL_SUCCESS
  | EventType.TOOL_RESULT_ERROR => Some LampState.TOOL_ERROR
  | EventType.UNKNOWN => None
  end.

Section Machine.

Variable cfg : StateMachineConfig.
Variable on_transition : option observer.

Definition idle_pending (tk : option (task * LampState.t)) : bool :=
  pending (fst <$> tk).

Definition _do_transition (now : Z) (new : LampState.t) (m : StateMachine)
  : StateMachine * Py.outcome unit :=
  let old := _state m in
  if bool_decide (old = new) then (m, mret tt)
  else if now - _state_entered_at m <? min_state_duration cfg then (m, mret tt)
  else
    let key := (old, new) in
    let last := _last_transition_times m !! key in
    if match last with
       | Some last => now - last <? debounce_window cfg
       | None => false
       end
    then (m, mret tt)
    else
      let idle_task :=
        if idle_pending (_idle_task m) then None else _idle_task m in
      let idle_task :=
        if bool_decide (new <> LampState.IDLE) && negb (idle_timeout cfg =? 0)
        then Some (Sleeping, new)
        else idle_task in
      let m :=
        {| _state := new;
           _state_entered_at := now;
           _last_transition_times := <[key := now]> (_last_transition_times m);
           _idle_task := idle_task;
           notified := notified m |} in
      match on_transition with
      | None => (m, mret tt)
      | Some callback =>
          let m :=
            {| _state := _state m;
               _state_entered_at := _state_entered_at m;
               _last_transition_times := _last_transition_times m;
               _idle_task := _idle_task m;
               notified := notified m ++ [(old, new)] |} in
          match callback old new with
          | Returns => (m, mret tt)
          | Raises e => (m, Py.Raise e)
          end
      end.

(** [mapping.get(event.event_type, LampState.IDLE)] *)
Definition handle_event (now : Z) (event : Event) (m : StateMachine)
  : StateMachine * Py.outcome unit :=
  let new := default LampState.IDLE (mapping (event_type event)) in
  _do_transition now new m.

Definition set_network_error (now : Z) (m : StateMachine)
  : StateMachine * Py.outcome unit :=
  _do_transition now LampState.NETWORK_ERROR m.

Definition clear_network_error (now : Z) (m : StateMachine)
  : StateMachine * Py.outcome unit :=
  _do_transition now LampState.IDLE m.

(** The body of [_idle_watcher(watched_state)] after its sleep, run when
    the task was not cancelled meanwhile. *)
Definition _idle_watcher (now : Z) (m : StateMachine)
  : StateMachine * Py.outcome unit :=
  match _idle_task m with
  | Some (Sleeping, watched_state) =>
      let m :=
        {| _state := _state m;
           _state_entered_at := _state_entered_at m;
           _last_transition_times := _last_transition_times m;
           _idle_task := Some (Finished, watched_state);
           notified := notified m |} in
      if bool_decide (_state m = watched_state)
      then
        match _do_transition now LampState.IDLE m with
        | (m, Py.Raise Py.CancelledError) => (m, mret tt)
        | r => r
        end
      else (m, mret tt)
  | _ => (m, mret tt)
  end.

Definition stop (m : StateMachine) : StateMachine :=
  match _idle_task m with
  | Some (Sleeping, watched_state) =>
      {| _state := _state m;
         _state_entered_at := _state_entered_at m;
         _last_transition_times := _last_transition_times m;
         _idle_task := Some (Cancelled, watched_state);
         notified := notified m |}
  | _ => m
  end.

End Machine.

End state_machine.

(** *** [clawbeam/session_watcher.py] *)
Module session_watcher.

(** ["-reset" not in p.name] *)
Definition is_candidate (p : Path.t) : bool :=
  negb (Str.contains (Path.name p) "-reset").

(** [_latest_session(sessions_dir)] on the paths the glob yields, in the
    order it yields them: the last of the sorted files. *)
Definition _latest_session (globbed : list Path.t) : option Path.t :=
  match List.filter is_candidate globbed with
  | [] => None
  | files => last (Path.sort_by Path.st_mtime files)
  end.

(** [buffer.find("\n")]; [None] is [-1]. *)
Fixpoint find_newline (buffer : string) : option nat :=
  match buffer with
  | EmptyString => None
  | String c rest =>
      if Ascii.eqb c newline then Some 0%nat
      else S <$> find_newline rest
  end.

(** [buffer[:idx]] and [buffer[idx + 1:]] *)
Definition before (idx : nat) (buffer : string) : string :=
  substring 0 idx buffer.

Definition after (idx : nat) (buffer : string) : string :=
  substring (idx + 1) (String.length buffer - (idx + 1)) buffer.

(** The inner [while True] loop: the lines yielded and the buffer left. *)
Equations? drain (buffer : string) : list string * string
  by wf (String.length buffer) lt :=
  drain buffer with inspect (find_newline buffer) => {
    | exist _ (Some idx) _ =>
        let r := drain (after idx buffer) in (before idx buffer :: fst r, snd r);
    | exist _ None _ => ([], buffer) }.
Proof.
  clear drain. unfold after.
  assert (Hlt : (idx < String.length buffer)%nat).
  { revert idx e. induction buffer as [|c s IH]; intros idx; simpl; [discriminate|].
    destruct (Ascii.eqb c newline); [intros [= <-]; lia|].
    destruct (find_newline s) as [k|]; simpl; [|discriminate].
    intros [= <-]. specialize (IH _ eq_refl). lia. }
  assert (Hsub : forall (t : string) (n m : nat),
             (String.length (substring n m t) <= m)%nat).
  { induction t as [|c t IHt]; intros [|n] [|m]; simpl; try lia.
    - specialize (IHt 0%nat m). lia.
    - specialize (IHt n 0%nat). lia.
    - specialize (IHt n (S m)). lia. }
  specialize (Hsub buffer (idx + 1)%nat (String.length buffer - (idx + 1))%nat).
  lia.
Qed.

(** The polling loop, as in [Root.session_watcher.tail_loop]. *)
Fixpoint tail_loop (fh : File.handle) (buffer : string) (polls : list string)
  : list string * string :=
  match polls with
  | [] => ([], buffer)
  | appended :: polls =>
      let (chunk, fh) := File.read (File.append appended fh) in
      if Str.is_empty chunk then tail_loop fh buffer polls
      else
        let (lines, buffer) := drain (buffer +:+ chunk) in
        let (more, buffer) := tail_loop fh buffer polls in
        (lines ++ more, buffer)
  end.

(** [tail_file(path)] on a file that holds [existing] when it is opened
    (the empty text when [touch] has just created it). *)
Definition tail_file (existing : string) (polls : list string)
  : list string * string :=
  tail_loop (File.seek_end (File.open existing)) EmptyString polls.

End session_watcher.

(** *** [clawbeam/wled_client.py] *)
Module wled_client.

(** The two URLs the constructor builds. *)
Inductive url :=
| _state_url
| _info_url.

Inductive request :=
| POST (u : url) (json : Py.value)
| GET (u : url).

(** What the HTTP client does with a request: a response with a status
    code, or [httpx.HTTPError] / [OSError] raised. *)
Inductive response :=
| Status (status_code : Z)
| TransportError.

(** What the client does to the world, in order. *)
Inductive effect :=
| RateLimitSleep (delay : Z)
| Request (r : request)
| BackoffSleep (delay : Z).

(** The attributes of a [WledClient] object, with the clock
    ([time.monotonic()]) and the effects so far, oldest first. *)
Record WledClient := {
  BACKOFF_BASE : Z;
  _min_interval : Z;
  _last_request_time : Z;
  _healthy : bool;
  clock : Z;
  effects : list effect
}.

Definition MAX_RETRIES : Z := 3.

Definition is_request (e : effect) : bool :=
  match e with
  | Request _ => true
  | _ => false
  end.

(** The requests handed to the HTTP client so far. *)
Definition requests (c : WledClient) : list effect :=
  filter (fun e => is_request e = true) (effects c).

Definition backoff_of (e : effect) : option Z :=
  match e with
  | BackoffSleep d => Some d
  | _ => None
  end.

(** The back-off delays slept so far. *)
Definition backoffs (c : WledClient) : list Z :=
  omap backoff_of (effects c).

(** [asyncio.sleep(delay)]: the clock moves on by [delay]. *)
Definition sleep (e : effect) (delay : Z) (c : WledClient) : WledClient :=
  {| BACKOFF_BASE := BACKOFF_BASE c;
     _min_interval := _min_interval c;
     _last_request_time := _last_request_time c;
     _healthy := _healthy c;
     clock := clock c + Z.max 0 delay;
     effects := effects c ++ [e] |}.

Definition set_last_request_time (t : Z) (c : WledClient) : WledClient :=
  {| BACKOFF_BASE := BACKOFF_BASE c;
     _min_interval := _min_interval c;
     _last_request_time := t;
     _healthy := _healthy c;
     clock := clock c;
     effects := effects c |}.

Definition set_healthy (b : bool) (c : WledClient) : WledClient :=
  {| BACKOFF_BASE := BACKOFF_BASE c;
     _min_interval := _min_interval c;
     _last_request_time := _last_request_time c;
     _healthy := b;
     clock := clock c;
     effects := effects c |}.

Definition _rate_limit (c : WledClient) : WledClient :=
  let now := clock c in
  let elapsed := now - _last_request_time c in
  let c :=
    if elapsed <? _min_interval c
    then sleep (RateLimitSleep (_min_interval c - elapsed))
               (_min_interval c - elapsed) c
    else c in
  set_last_request_time (clock c) c.

(** [range(a, b)] *)
Definition range (a b : Z) : list Z := seqZ a (b - a).

(** The test [resp.status_code == 200] of an attempt; a request that
    raised has no response to test. *)
Definition succeeded (resp : response) : bool :=
  match resp with
  | Status status_code => status_code =? 200
  | TransportError => false
  end.

Section Device.

(** The device and the network: the answer to the [n]-th request
    (counting from 0) of the client. *)
Variable device : nat -> request -> response.

(** [self._client.post(...)] / [self._client.get(...)] *)
Definition send (r : request) (c : WledClient) : response * WledClient :=
  (device (List.length (requests c)) r,
   {| BACKOFF_BASE := BACKOFF_BASE c;
      _min_interval := _min_interval c;
      _last_request_time := _last_request_time c;
      _healthy := _healthy c;
      clock := clock c;
      effects := effects c ++ [Request r] |}).

(** The [for attempt in range(1, MAX_RETRIES + 1)] loop of [_post] over
    the attempts still to make, and the code after it. *)
Fixpoint _post_loop (attempts : list Z) (u : url) (payload : Py.value)
    (c : WledClient) : bool * WledClient :=
  match attempts with
  | [] => (false, set_healthy false c)
  | attempt :: attempts =>
      let c := _rate_limit c in
      let (resp, c) := send (POST u payload) c in
      if succeeded resp then (true, set_healthy true c)
      else
        let c :=
          if attempt <? MAX_RETRIES
          then
            let delay := BACKOFF_BASE c * 2 ^ (attempt - 1) in
            sleep (BackoffSleep delay) delay c
          else c in
        _post_loop attempts u payload c
  end.

Definition _post (u : url) (payload : Py.value) (c : WledClient)
  : bool * WledClient :=
  _post_loop (range 1 (MAX_RETRIES + 1)) u payload c.

Definition apply_state (payload : Py.value) (c : WledClient)
  : bool * WledClient :=
  _post _state_url payload c.

Definition apply_preset (preset_id : Z) (c : WledClient)
  : bool * WledClient :=
  apply_state (Py.JDict {[ "ps"%string := Py.JInt preset_id ]}) c.

Definition ping (c : WledClient) : bool * WledClient :=
  let c := _rate_limit c in
  let (resp, c) := send (GET _info_url) c in
  match resp with
  | Status status_code =>
      let ok := status_code =? 200 in
      (ok, set_healthy ok c)
  | TransportError => (false, set_healthy false c)
  end.

End Device.

End wled_client.

End Clawbeam.

(** ** The two tailers on a file read in text mode *)

Module text_mode.

(** [tail_file] of [session_watcher.py]. *)
Definition root_tail_file (decode : string -> option string)
    (existing : string) (polls : list string) : list string * TextIO.ending :=
  TextIO.tail_file decode Root.session_watcher.drain existing polls.

(** [tail_file] of [clawbeam/session_watcher.py]. *)
Definition clawbeam_tail_file (decode : string -> option string)
    (existing : string) (polls : list string) : list string * TextIO.ending :=
  TextIO.tail_file decode Clawbeam.session_watcher.drain existing polls.

End text_mode.

(** ** [config.py]: the table of effects and its overrides *)

Module config.

(** The segment list [[{"col": [[r, g, b]], "fx": fx, "sx": sx, "ix": ix}]]. *)
Definition segment (r g b fx sx ix : Z) : Py.value :=
  Py.JList
    [Py.JDict
       (<[ "col"%string
           := Py.JList [Py.JList [Py.JInt r; Py.JInt g; Py.JInt b]] ]>
          (<[ "fx"%string := Py.JInt fx ]>
             (<[ "sx"%string := Py.JInt sx ]>
                {[ "ix"%string := Py.JInt ix ]})))].

(** A payload [{"on": True, "bri": bri, "seg": seg}], with ["tt"] when
    the table gives one. *)
Definition effect (bri : Z) (seg : Py.value) (tt : option Z)
  : gmap string Py.value :=
  let payload : gmap string Py.value :=
    <[ "on"%string := Py.JBool true ]>
      (<[ "bri"%string := Py.JInt bri ]> {[ "seg"%string := seg ]}) in
  match tt with
  | Some t => <[ "tt"%string := Py.JInt t ]> payload
  | None => payload
  end.

Definition _default_state_effects : gmap string Py.value :=
  Py.JDict <$>
    (<[ "IDLE"%string := effect 80 (segment 0 60 180 2 80 128) None ]>
    (<[ "USER_INPUT"%string
        := effect 255 (segment 255 255 255 0 0 255) (Some 3) ]>
    (<[ "THINKING"%string := effect 140 (segment 130 0 200 2 40 200) None ]>
    (<[ "TOOL_CALL"%string := effect 180 (segment 0 200 200 9 120 180) None ]>
    (<[ "TOOL_SUCCESS"%string
        := effect 220 (segment 0 220 40 0 0 255) (Some 3) ]>
    (<[ "TOOL_ERROR"%string := effect 255 (segment 255 0 0 1 200 255) None ]>
    (<[ "NETWORK_ERROR"%string
        := effect 200 (segment 200 0 180 1 160 200) None ]>
    {[ "HIGH_TOKENS"%string
       := effect 160 (segment 220 160 0 2 60 180) None ]}))))))).

(** [_merge(base, override)] for an [override] that is a [dict]; the
    value is the [base] the loop has mutated.  An entry of [override]
    that is an object is merged into the entry of [base] when that is an
    object too; every other entry replaces the entry of [base]. *)
Fixpoint merge_into (base : gmap string Py.value) (override : Py.value)
    {struct override} : gmap string Py.value :=
  match override with
  | Py.JDict items =>
      map_fold
        (fun key val base =>
           match val, base !! key with
           | Py.JDict _, Some (Py.JDict nested) =>
               <[ key := Py.JDict (merge_into nested val) ]> base
           | _, _ => <[ key := val ]> base
           end)
        base items
  | _ => base
  end.

Definition _merge (base override : gmap string Py.value)
  : gmap string Py.value :=
  merge_into base (Py.JDict override).

(** [AppConfig.__post_init__]: an empty table is replaced by the
    defaults. *)
Definition __post_init__ (state_effects : gmap string Py.value)
  : gmap string Py.value :=
  if Py.truthy (Py.JDict state_effects) then state_effects
  else _default_state_effects.

(** The [state_effects] of the configuration [load_config] returns for
    the YAML mapping [raw]: [AppConfig] is built without a table, and
    the [state_effects] of [raw], if any, are merged into it;
    [override.items()] raises on anything but a mapping. *)
Definition load_state_effects (raw : gmap string Py.value)
  : Py.outcome (gmap string Py.value) :=
  let state_effects := __post_init__ ∅ in
  match raw !! "state_effects"%string with
  | None => mret state_effects
  | Some (Py.JDict override) => mret (_merge state_effects override)
  | Some _ => Py.Raise Py.AttributeError
  end.

End config.

(** ** [clawbeam/main.py]: the effect of a state *)

Module main.

Import Clawbeam.wled_client.

Section Device.

Variable device : nat -> request -> response.

(** [Orchestrator._apply_effect(state)], with the table of effects
    [self._cfg.state_effects] and the client [self._wled]. *)
Definition _apply_effect (state_effects : gmap string Py.value)
    (_wled : option WledClient) (state : LampState.t)
  : bool * option WledClient :=
  let payload := Py.dict_get state_effects (LampState.value state) Py.JNull in
  if negb (Py.truthy payload) then (true, _wled)
  else
    match _wled with
    | None => (false, None)
    | Some c =>
        let (ok, c) := apply_state device payload c in (ok, Some c)
    end.

End Device.

End main.

(** ** Inputs used by the examples *)

Module Sample.

Definition now : datetime :=
  {| year := 2025; month := 6; day := 1;
     hour := 12; minute := 0; second := 0; microsecond := 0;
     utcoffset := Some 0 |}.

(** [Event(event_type=kind, token_count=tokens)] of [parser.py]. *)
Definition root_event (kind : EventType.t) (tokens : Py.value)
  : Root.parser.Event :=
  {| Root.parser.id := "0123456789ab";
     Root.parser.event_type := kind;
     Root.parser.severity := Root.parser.Severity.INFO;
     Root.parser.timestamp := now;
     Root.parser.raw_payload := Py.JDict ∅;
     Root.parser.token_count := tokens |}.

(** [Event(event_type=kind, token_count=tokens)] of [clawbeam/parser.py]. *)
Definition clawbeam_event (kind : EventType.t) (tokens : option Z)
  : Clawbeam.parser.Event :=
  {| Clawbeam.parser.id := Py.JNull;
     Clawbeam.parser.event_type := kind;
     Clawbeam.parser.message := Py.JNull;
     Clawbeam.parser.severity := Clawbeam.parser.Severity.INFO;
     Clawbeam.parser.token_count := tokens;
     Clawbeam.parser.timestamp := None |}.

(** Timing with no anti-flicker guard and no debounce. *)
Definition no_guards : StateMachineConfig :=
  {| min_state_duration := 0; idle_timeout := 30; debounce_window := 0 |}.

(** Timing with a debounce window of 10 and no anti-flicker guard. *)
Definition debounce_only : StateMachineConfig :=
  {| min_state_duration := 0; idle_timeout := 30; debounce_window := 10 |}.

(** A client as the constructor leaves it, times in milliseconds:
    back-off base 1 s, 5 requests per second at most. *)
Definition client : Clawbeam.wled_client.WledClient :=
  {| Clawbeam.wled_client.BACKOFF_BASE := 1000;
     Clawbeam.wled_client._min_interval := 200;
     Clawbeam.wled_client._last_request_time := 0;
     Clawbeam.wled_client._healthy := true;
     Clawbeam.wled_client.clock := 5000;
     Clawbeam.wled_client.effects := [] |}.

(** The payload [{"on": True}]. *)
Definition payload : Py.value :=
  Py.JDict {[ "on"%string := Py.JBool true ]}.

(** A device that answers every request with the given status. *)
Definition answering (status_code : Z)
  : nat -> Clawbeam.wled_client.request -> Clawbeam.wled_client.response :=
  fun _ _ => Clawbeam.wled_client.Status status_code.

(** A device that fails the first [fail_count] requests at the transport
    level and answers the others with status 200. *)
Definition failing_first (fail_count : nat)
  : nat -> Clawbeam.wled_client.request -> Clawbeam.wled_client.response :=
  fun n _ =>
    if (n <? fail_count)%nat
    then Clawbeam.wled_client.TransportError
    else Clawbeam.wled_client.Status 200.

(** The double quote, and a text between double quotes. *)
Definition dquote : string := String (ascii_of_nat 34) EmptyString.

Definition quoted (text : string) : string := dquote +:+ text +:+ dquote.

(** The line [{"type": "user"}]. *)
Definition user_line : string :=
  "{" +:+ quoted "type" +:+ ": " +:+ quoted "user" +:+ "}".

(** The line
    [{"id": "evt-1", "type": "user", "timestamp": "2025-06-01T12:00:00+00:00"}]. *)
Definition identified_line : string :=
  "{" +:+ quoted "id" +:+ ": " +:+ quoted "evt-1" +:+ ", "
  +:+ quoted "type" +:+ ": " +:+ quoted "user" +:+ ", "
  +:+ quoted "timestamp" +:+ ": " +:+ quoted "2025-06-01T12:00:00+00:00"
  +:+ "}".

(** A line that is no JSON text, and a line that is JSON but no object. *)
Definition garbage_line : string := "not json at all".
Definition number_line : string := "42".

(** [json.loads] on the lines above: the two records and the number are
    decoded, and no other text is (the answer of [json.loads] for
    [garbage_line]). *)
Definition json_loads (text : string) : option Py.value :=
  if String.eqb text number_line then Some (Py.JInt 42)
  else if String.eqb text user_line then
    Some (Py.JDict {[ "type"%string := Py.JStr "user" ]})
  else if String.eqb text identified_line then
    Some (Py.JDict
            (<[ "id"%string := Py.JStr "evt-1" ]>
               (<[ "type"%string := Py.JStr "user" ]>
                  {[ "timestamp"%string
                     := Py.JStr "2025-06-01T12:00:00+00:00" ]})))
  else None.

(** [datetime.fromisoformat] on the one timestamp above. *)
Definition fromisoformat (text : string) : option datetime :=
  if String.eqb text "2025-06-01T12:00:00+00:00" then Some now else None.

(** [str] of an object that is no [str], and [int] of a [str]: neither is
    reached on the lines above. *)
Definition str_of (v : Py.value) : string := "?".
Definition int_of_str (text : string) : option Z := None.

(** A value of [uuid.uuid4().hex]. *)
Definition uuid4_hex : string := "0123456789abcdef0123456789abcdef".

(** A complete line as a writer appends it: the text and a newline. *)
Definition written_line (text : string) : string :=
  text +:+ String newline EmptyString.

(** An observer that returns, and one that raises. *)
Definition quiet : observer := fun _ _ => Returns.
Definition failing : observer := fun _ _ => Raises Py.RuntimeError.

(** Session files as the glob yields them: two sessions and the reset
    copy of the first, which is the newest file of the three. *)
Definition session_a : Path.t :=
  {| Path.name := "a.jsonl"; Path.st_mtime := 10 |}.
Definition session_a_reset : Path.t :=
  {| Path.name := "a-reset.jsonl"; Path.st_mtime := 30 |}.
Definition session_b : Path.t :=
  {| Path.name := "b.jsonl"; Path.st_mtime := 20 |}.

Definition sessions : list Path.t := [session_a; session_a_reset; session_b].

(** The line
    [{"type": "assistant", "usage": {"total_tokens": "5000"}}], whose
    token count is a text, and [json.loads] on it. *)
Definition text_tokens_line : string :=
  "{" +:+ quoted "type" +:+ ": " +:+ quoted "assistant" +:+ ", "
  +:+ quoted "usage" +:+ ": {" +:+ quoted "total_tokens" +:+ ": "
  +:+ quoted "5000" +:+ "}}".

Definition text_tokens_usage : gmap string Py.value :=
  {[ "total_tokens"%string := Py.JStr "5000" ]}.

Definition text_tokens_record : gmap string Py.value :=
  <[ "type"%string := Py.JStr "assistant" ]>
    {[ "usage"%string := Py.JDict text_tokens_usage ]}.

Definition json_loads_tokens (text : string) : option Py.value :=
  if String.eqb text text_tokens_line then Some (Py.JDict text_tokens_record)
  else None.

(** The lines [[1]] and [null], which are JSON and no object, and
    [json.loads] on them. *)
Definition array_line : string := "[1]".
Definition null_line : string := "null".

Definition json_loads_values (text : string) : option Py.value :=
  if String.eqb text array_line then Some (Py.JList [Py.JInt 1])
  else if String.eqb text null_line then Some Py.JNull
  else None.

(** The UTF-8 decoder on texts whose code points are below 256, the
    texts of this embedding: a byte below 128 is its character, and the
    lead bytes C2 and C3 with one continuation byte give the characters
    128 to 255.  [None] is [UnicodeDecodeError]: a lead byte with nothing
    after it, a continuation byte out of place.  Byte sequences of higher
    code points do not occur in the samples. *)
Fixpoint utf8_decode (data : string) : option string :=
  match data with
  | EmptyString => Some EmptyString
  | String b rest =>
      let n := nat_of_ascii b in
      if (n <? 128)%nat then String b <$> utf8_decode rest
      else if (n =? 194)%nat || (n =? 195)%nat then
        match rest with
        | String c rest' =>
            let m := nat_of_ascii c in
            if (128 <=? m)%nat && (m <? 192)%nat
            then String (ascii_of_nat ((n - 192) * 64 + (m - 128)))
                   <$> utf8_decode rest'
            else None
        | EmptyString => None
        end
      else None
  end.

(** The record [{"text": "café"}] as the writer encodes it: the
    character U+00E9 is the two bytes C3 A9.  [cafe_head] ends with the
    first of them, [cafe_tail] starts with the second and ends the
    line. *)
Definition cafe_head : string :=
  "{" +:+ quoted "text" +:+ ": " +:+ dquote +:+ "caf"
  +:+ String (ascii_of_nat 195) EmptyString.

Definition cafe_tail : string :=
  String (ascii_of_nat 169) (dquote +:+ "}" +:+ String newline EmptyString).

(** The line as it is read when it decodes. *)
Definition cafe_text : string :=
  "{" +:+ quoted "text" +:+ ": " +:+ dquote +:+ "caf"
  +:+ String (ascii_of_nat 233) (dquote +:+ "}").

(** Two YAML configurations: [state_effects: {IDLE: {bri: 10}}] and
    [state_effects: {IDLE: null}]. *)
Definition dim_idle : gmap string Py.value :=
  {[ "IDLE"%string := Py.JDict {[ "bri"%string := Py.JInt 10 ]} ]}.

Definition dim_idle_raw : gmap string Py.value :=
  {[ "state_effects"%string := Py.JDict dim_idle ]}.

Definition null_idle : gmap string Py.value :=
  {[ "IDLE"%string := Py.JNull ]}.

Definition null_idle_raw : gmap string Py.value :=
  {[ "state_effects"%string := Py.JDict null_idle ]}.

End Sample.

(** ** Vocabulary of the statements *)

Module Spec.

(** The three guards of [Root.state_machine._try_transition] taken
    together: the request is committed exactly when this holds. *)
Definition root_accepts (cfg : StateMachineConfig) (now : Z)
    (target : LampState.t) (m : Root.state_machine.StateMachine) : bool :=
  negb (now - Root.state_machine._state_entered_at m
        <? min_state_duration cfg)
  && negb (bool_decide
             (Some (Root.state_machine.transition_key
                      (Root.state_machine._state m) target)
              = Root.state_machine._last_transition_key m)
           && (now - Root.state_machine._last_transition_time m
               <? debounce_window cfg))
  && negb (bool_decide (target = Root.state_machine._state m)).

(** The bookkeeping of a committed transition of the root machine. *)
Definition root_committed (now : Z) (old target : LampState.t)
    (m : Root.state_machine.StateMachine) : Prop :=
  Root.state_machine._state m = target
  /\ Root.state_machine._state_entered_at m = now
  /\ Root.state_machine._last_transition_key m
     = Some (Root.state_machine.transition_key old target)
  /\ Root.state_machine._last_transition_time m = now.

(** A call of a public entry point of the root machine, or a wake-up of
    its idle watcher, with the clock readings of the call. *)
Inductive root_call :=
| RootHandleEvent (t_activity now : Z) (event : Root.parser.Event)
| RootSetNetworkError (now : Z)
| RootClearNetworkError (now : Z)
| RootIdleWatcher (t_check now : Z)
| RootStop.

Definition root_step (cfg : StateMachineConfig) (obs : option observer)
    (m : Root.state_machine.StateMachine) (c : root_call)
  : Root.state_machine.StateMachine :=
  match c with
  | RootHandleEvent t_activity now event =>
      (Root.state_machine.handle_event cfg obs t_activity now event m).1
  | RootSetNetworkError now =>
      (Root.state_machine.set_network_error cfg obs now m).1
  | RootClearNetworkError now =>
      (Root.state_machine.clear_network_error cfg obs now m).1
  | RootIdleWatcher t_check now =>
      (Root.state_machine._idle_watcher cfg obs t_check now m).1
  | RootStop => Root.state_machine.stop m
  end.

(** The machine after a sequence of calls, whatever each call's outcome. *)
Definition root_run (cfg : StateMachineConfig) (obs : option observer)
    (calls : list root_call) (m : Root.state_machine.StateMachine)
  : Root.state_machine.StateMachine :=
  foldl (root_step cfg obs) m calls.

(** Every key the root machine remembers is the key of the transition
    that led into its current state, from a different state. *)
Definition root_key_invariant (m : Root.state_machine.StateMachine) : Prop :=
  match Root.state_machine._last_transition_key m with
  | None => True
  | Some key =>
      exists from,
        from <> Root.state_machine._state m
        /\ key = Root.state_machine.transition_key
                   from (Root.state_machine._state m)
  end.

(** The guards of [Clawbeam.state_machine._do_transition] taken
    together. *)
Definition clawbeam_accepts (cfg : StateMachineConfig) (now : Z)
    (new : LampState.t) (m : Clawbeam.state_machine.StateMachine) : bool :=
  negb (bool_decide (Clawbeam.state_machine._state m = new))
  && negb (now - Clawbeam.state_machine._state_entered_at m
           <? min_state_duration cfg)
  && negb match Clawbeam.state_machine._last_transition_times m
                !! (Clawbeam.state_machine._state m, new) with
          | Some last => now - last <? debounce_window cfg
          | None => false
          end.

(** The pair [(from, to)] has a recorded firing time, not before [t]. *)
Definition fired_since (t : Z) (from to : LampState.t)
    (m : Clawbeam.state_machine.StateMachine) : Prop :=
  exists last,
    Clawbeam.state_machine._last_transition_times m !! (from, to) = Some last
    /\ t <= last.

(** The same for the machine of the [clawbeam] package. *)
Inductive clawbeam_call :=
| ClawbeamHandleEvent (now : Z) (event : Clawbeam.parser.Event)
| ClawbeamSetNetworkError (now : Z)
| ClawbeamClearNetworkError (now : Z)
| ClawbeamIdleWatcher (now : Z)
| ClawbeamStop.

Definition clawbeam_step (cfg : StateMachineConfig) (obs : option observer)
    (m : Clawbeam.state_machine.StateMachine) (c : clawbeam_call)
  : Clawbeam.state_machine.StateMachine :=
  match c with
  | ClawbeamHandleEvent now event =>
      (Clawbeam.state_machine.handle_event cfg obs now event m).1
  | ClawbeamSetNetworkError now =>
      (Clawbeam.state_machine.set_network_error cfg obs now m).1
  | ClawbeamClearNetworkError now =>
      (Clawbeam.state_machine.clear_network_error cfg obs now m).1
  | ClawbeamIdleWatcher now =>
      (Clawbeam.state_machine._idle_watcher cfg obs now m).1
  | ClawbeamStop => Clawbeam.state_machine.stop m
  end.

Definition clawbeam_run (cfg : StateMachineConfig) (obs : option observer)
    (calls : list clawbeam_call) (m : Clawbeam.state_machine.StateMachine)
  : Clawbeam.state_machine.StateMachine :=
  foldl (clawbeam_step cfg obs) m calls.

(** The clock reading of a call, when it reads the clock. *)
Definition clawbeam_call_time (c : clawbeam_call) : option Z :=
  match c with
  | ClawbeamHandleEvent now _ => Some now
  | ClawbeamSetNetworkError now => Some now
  | ClawbeamClearNetworkError now => Some now
  | ClawbeamIdleWatcher now => Some now
  | ClawbeamStop => None
  end.

(** No call of [calls] reads the clock before [t]. *)
Definition not_before (t : Z) (calls : list clawbeam_call) : Prop :=
  Forall (fun c => match clawbeam_call_time c with
                   | Some now => t <= now
                   | None => True
                   end) calls.

(** Every character of [line] is white space (none, if it is empty). *)
Fixpoint whitespace_only (line : string) : bool :=
  match line with
  | EmptyString => true
  | String c line => Str.isspace c && whitespace_only line
  end.

(** [lines] written out, each followed by a newline. *)
Fixpoint unlines (lines : list string) : string :=
  match lines with
  | [] => EmptyString
  | line :: lines => line +:+ String newline (unlines lines)
  end.

(** All the text of [chunks], in order. *)
Fixpoint joined (chunks : list string) : string :=
  match chunks with
  | [] => EmptyString
  | chunk :: chunks => chunk +:+ joined chunks
  end.

Fixpoint has_newline (s : string) : bool :=
  match s with
  | EmptyString => false
  | String c s => Ascii.eqb c newline || has_newline s
  end.

(** [lines] and [buffer] are the reading of [text] as complete lines
    followed by an unfinished one: the lines, each with its newline put
    back, and then the buffer, spell [text]; no line and not the buffer
    holds a newline. *)
Definition lines_of (text : string) (lines : list string) (buffer : string)
  : Prop :=
  unlines lines +:+ buffer = text
  /\ Forall (fun line => has_newline line = false) lines
  /\ has_newline buffer = false.

(** The effects of the actuator client other than the sleeps of its rate
    limiter, oldest first. *)
Definition is_visible (e : Clawbeam.wled_client.effect) : bool :=
  match e with
  | Clawbeam.wled_client.RateLimitSleep _ => false
  | _ => true
  end.

Definition visible (c : Clawbeam.wled_client.WledClient)
  : list Clawbeam.wled_client.effect :=
  filter (fun e => is_visible e = true) (Clawbeam.wled_client.effects c).

(** What [n] attempts numbered from [attempt] look like when all but the
    last one fail: each request but the last is followed by a back-off
    sleep of [base * 2^(attempt-1)]. *)
Fixpoint retry_script (base : Z) (req : Clawbeam.wled_client.request)
    (attempt : Z) (n : nat) : list Clawbeam.wled_client.effect :=
  match n with
  | O => []
  | S O => [Clawbeam.wled_client.Request req]
  | S n' =>
      Clawbeam.wled_client.Request req
      :: Clawbeam.wled_client.BackoffSleep (base * 2 ^ (attempt - 1))
      :: retry_script base req (attempt + 1) n'
  end.

(** The client after one attempt: the rate limiter, then the request. *)
Definition attempted (device : nat -> Clawbeam.wled_client.request
                               -> Clawbeam.wled_client.response)
    (req : Clawbeam.wled_client.request)
    (c : Clawbeam.wled_client.WledClient)
  : Clawbeam.wled_client.WledClient :=
  (Clawbeam.wled_client.send device req
     (Clawbeam.wled_client._rate_limit c)).2.

(** The number of requests a call added. *)
Definition requests_added (before after : Clawbeam.wled_client.WledClient)
  : nat :=
  (List.length (Clawbeam.wled_client.requests after)
   - List.length (Clawbeam.wled_client.requests before))%nat.

(** The clock reading a call of the root machine hands to
    [_try_transition], when it can reach it. *)
Definition root_call_time (c : root_call) : option Z :=
  match c with
  | RootHandleEvent _ now _ => Some now
  | RootSetNetworkError now => Some now
  | RootClearNetworkError now => Some now
  | RootIdleWatcher _ now => Some now
  | RootStop => None
  end.

(** [steps] is a path of state changes from [from] to [to]: each step
    starts where the previous one ended and ends in a different state. *)
Fixpoint chain (from : LampState.t) (steps : list (LampState.t * LampState.t))
    (to : LampState.t) : Prop :=
  match steps with
  | [] => from = to
  | (old, new) :: steps => old = from /\ old <> new /\ chain new steps to
  end.

(** The transitions the root machine wrote to its log, oldest first. *)
Definition transition_of (r : Root.state_machine.log_record)
  : option (LampState.t * LampState.t) :=
  match r with
  | Root.state_machine.LogTransition old new => Some (old, new)
  | Root.state_machine.LogCallbackFailed => None
  end.

Definition logged_transitions (m : Root.state_machine.StateMachine)
  : list (LampState.t * LampState.t) :=
  omap transition_of (Root.state_machine.logged m).

(** The log of the root machine is a path from [IDLE] to the current
    state, and the observer, if there is one, was called for exactly the
    logged transitions, in order. *)
Definition root_log_invariant (obs : option observer)
    (m : Root.state_machine.StateMachine) : Prop :=
  chain LampState.IDLE (logged_transitions m) (Root.state_machine._state m)
  /\ Root.state_machine.notified m
     = match obs with
       | Some _ => logged_transitions m
       | None => []
       end.

(** The same for the machine of the [clawbeam] package, which keeps no
    log: the calls made to its observer are a path from [IDLE] to the
    current state. *)
Definition clawbeam_record_invariant (obs : option observer)
    (m : Clawbeam.state_machine.StateMachine) : Prop :=
  match obs with
  | Some _ =>
      chain LampState.IDLE (Clawbeam.state_machine.notified m)
        (Clawbeam.state_machine._state m)
  | None => Clawbeam.state_machine.notified m = []
  end.

(** [isinstance(v, (bool, int, float))]: the values [>=] compares with
    an [int]. *)
Definition is_number (v : Py.value) : bool :=
  match v with
  | Py.JInt _ | Py.JBool _ | Py.JFloat _ => true
  | _ => false
  end.

Definition is_dict (v : Py.value) : bool :=
  match v with
  | Py.JDict _ => true
  | _ => false
  end.

Definition is_str (v : Py.value) : bool :=
  match v with
  | Py.JStr _ => true
  | _ => false
  end.

(** The object records [parser.py] cannot classify: the [message] is
    present and no object, or its [role] is present and no text, or the
    [type] is present and no text. *)
Definition root_malformed (d : gmap string Py.value) : bool :=
  match Py.dict_get d "message" (Py.JDict ∅) with
  | Py.JDict msg =>
      negb (is_str (Py.dict_get msg "role" (Py.JStr EmptyString)))
      || negb (is_str (Py.dict_get d "type" (Py.JStr EmptyString)))
  | _ => true
  end.

(** The object records [clawbeam/parser.py] cannot classify: the [type]
    is ["tool_result"] and the [message] is truthy and no object. *)
Definition clawbeam_malformed (d : gmap string Py.value) : bool :=
  Str.eq_lit (Py.dict_get d "type" Py.JNull) "tool_result"
  && Py.truthy (Py.dict_get d "message" (Py.JDict ∅))
  && negb (is_dict (Py.dict_get d "message" (Py.JDict ∅))).

(** A call of a public method of the actuator client. *)
Inductive wled_call :=
| WledApplyState (payload : Py.value)
| WledApplyPreset (preset_id : Z)
| WledPing.

Definition wled_step (device : nat -> Clawbeam.wled_client.request
                               -> Clawbeam.wled_client.response)
    (c : Clawbeam.wled_client.WledClient) (call : wled_call)
  : Clawbeam.wled_client.WledClient :=
  match call with
  | WledApplyState payload =>
      (Clawbeam.wled_client.apply_state device payload c).2
  | WledApplyPreset preset_id =>
      (Clawbeam.wled_client.apply_preset device preset_id c).2
  | WledPing => (Clawbeam.wled_client.ping device c).2
  end.

Definition wled_run (device : nat -> Clawbeam.wled_client.request
                              -> Clawbeam.wled_client.response)
    (calls : list wled_call) (c : Clawbeam.wled_client.WledClient)
  : Clawbeam.wled_client.WledClient :=
  foldl (wled_step device) c calls.

(** The time an effect takes on the client's clock. *)
Definition duration (e : Clawbeam.wled_client.effect) : Z :=
  match e with
  | Clawbeam.wled_client.RateLimitSleep delay => Z.max 0 delay
  | Clawbeam.wled_client.BackoffSleep delay => Z.max 0 delay
  | Clawbeam.wled_client.Request _ => 0
  end.

(** The clock after [effects], started at [t]. *)
Definition clock_after (t : Z) (effects : list Clawbeam.wled_client.effect)
  : Z :=
  foldl (fun t e => t + duration e) t effects.

(** The clock readings at which the requests of [effects] are handed to
    the HTTP client, when the first effect starts at [t]. *)
Fixpoint request_times (t : Z) (effects : list Clawbeam.wled_client.effect)
  : list Z :=
  match effects with
  | [] => []
  | Clawbeam.wled_client.Request r :: effects =>
      t :: request_times t effects
  | e :: effects => request_times (t + duration e) effects
  end.

(** Each time of [times] is at least [gap] after the one before it, the
    first one at least [gap] after [previous]. *)
Fixpoint spaced (gap previous : Z) (times : list Z) : Prop :=
  match times with
  | [] => True
  | t :: times => previous + gap <= t /\ spaced gap t times
  end.

(** The state of a client that started as [c0] with no effect on record:
    its clock is the clock of [c0] moved on by its sleeps, its requests so
    far are spaced, and [_last_request_time] is the time of the last
    one. *)
Definition rate_invariant (c0 c : Clawbeam.wled_client.WledClient) : Prop :=
  let times :=
    request_times (Clawbeam.wled_client.clock c0)
      (Clawbeam.wled_client.effects c) in
  Clawbeam.wled_client._min_interval c = Clawbeam.wled_client._min_interval c0
  /\ Clawbeam.wled_client.clock c
     = clock_after (Clawbeam.wled_client.clock c0)
         (Clawbeam.wled_client.effects c)
  /\ spaced (Clawbeam.wled_client._min_interval c0)
       (Clawbeam.wled_client._last_request_time c0) times
  /\ Clawbeam.wled_client._last_request_time c
     = default (Clawbeam.wled_client._last_request_time c0) (last times).

(** A read of the bytes [data] returns [text]. *)
Definition reads_as (decode : string -> option string) (data text : string)
  : Prop :=
  TextIO.translate_newlines <$> decode data = Some text.

(** The call is [handle_event] of an event that asks for [state]. *)
Definition asks_for (state : LampState.t) (c : clawbeam_call) : Prop :=
  match c with
  | ClawbeamHandleEvent _ event =>
      default LampState.IDLE
        (Clawbeam.state_machine.mapping (Clawbeam.parser.event_type event))
      = state
  | _ => False
  end.

End Spec.

(** * Properties *)

(** ** The state machine of [state_machine.py] *)

Module RootMachine.

Import Root.parser Root.state_machine.

(** The key of a transition names its pair of states. *)
Lemma transition_key_inj a b c d :
  transition_key a b = transition_key c d -> a = c /\ b = d.
Proof.
  destruct a, c; try (destruct b, d; discriminate);
    destruct b, d; first [discriminate | done].
Qed.

Section Facts.

Variable cfg : StateMachineConfig.
Variable on_transition : option observer.

(** A request the guards turn down changes nothing and calls nobody. *)
Lemma try_transition_rejected now target m :
  Spec.root_accepts cfg now target m = false ->
  _try_transition cfg on_transition now target m = (m, Py.Ret tt).
Proof.
  unfold Spec.root_accepts, _try_transition. intros H.
  destruct (now - _state_entered_at m <? min_state_duration cfg); [done|].
  destruct (bool_decide (Some (transition_key (_state m) target)
                         = _last_transition_key m)
            && (now - _last_transition_time m <? debounce_window cfg));
    [done|].
  destruct (bool_decide (target = _state m)); [done|].
  discriminate H.
Qed.

(** A request the guards let through is committed first; the observer, if
    any, is called afterwards, and what it does decides the outcome
    only. *)
Lemma try_transition_accepted now target m :
  Spec.root_accepts cfg now target m = true ->
  let key := transition_key (_state m) target in
  let committed := commit now key target m in
  _try_transition cfg on_transition now target m =
  match on_transition with
  | None => (committed, Py.Ret tt)
  | Some callback =>
      let called := record_call (_state m) target committed in
      match callback (_state m) target with
      | Returns => (called, Py.Ret tt)
      | Raises e =>
          if Py.is_Exception e
          then (record_log LogCallbackFailed called, Py.Ret tt)
          else (called, Py.Raise e)
      end
  end.
Proof.
  unfold Spec.root_accepts, _try_transition. intros H.
  destruct (now - _state_entered_at m <? min_state_duration cfg);
    [discriminate H|].
  destruct (bool_decide (Some (transition_key (_state m) target)
                         = _last_transition_key m)
            && (now - _last_transition_time m <? debounce_window cfg));
    [discriminate H|].
  destruct (bool_decide (target = _state m)); [discriminate H|].
  reflexivity.
Qed.

(** Whatever the observer does, an accepted request leaves the machine
    with the bookkeeping of the commit. *)
Lemma try_transition_commits now target m :
  Spec.root_accepts cfg now target m = true ->
  Spec.root_committed now (_state m) target
    (_try_transition cfg on_transition now target m).1.
Proof.
  intros H. rewrite (try_transition_accepted _ _ _ H). cbv zeta.
  destruct on_transition as [f|]; [|by repeat split].
  destruct (f (_state m) target) as [|e]; [by repeat split|].
  destruct (Py.is_Exception e); by repeat split.
Qed.

(** [handle_event] of an [UNKNOWN] event whose token count does not
    trigger the override: no transition is attempted.  The state, the
    transition bookkeeping and the observer's record are untouched; only
    the activity time and the idle watcher change. *)
Lemma root_unknown_event_is_ignored t_activity now event m :
  event_type event = EventType.UNKNOWN ->
  high_tokens (token_count event) <> Py.Ret true ->
  let m' := (handle_event cfg on_transition t_activity now event m).1 in
  m' = _restart_idle_timer (set_last_activity t_activity m)
  /\ _state m' = _state m
  /\ _state_entered_at m' = _state_entered_at m
  /\ _last_transition_key m' = _last_transition_key m
  /\ _last_transition_time m' = _last_transition_time m
  /\ notified m' = notified m
  /\ logged m' = logged m.
Proof.
  intros Hk Htok. unfold handle_event. rewrite Hk. simpl.
  destruct (high_tokens (token_count event)) as [[]|e]; [done| |]; done.
Qed.

(** A token count at or over the threshold forces the target
    [HIGH_TOKENS], whatever the kind of the event. *)
Lemma root_high_tokens_forces_target t_activity now event n m :
  token_count event = Py.JInt n ->
  HIGH_TOKEN_THRESHOLD <= n ->
  handle_event cfg on_transition t_activity now event m
  = _try_transition cfg on_transition now LampState.HIGH_TOKENS
      (_restart_idle_timer (set_last_activity t_activity m)).
Proof.
  intros Htok Hn. unfold handle_event, high_tokens. rewrite Htok.
  unfold HIGH_TOKEN_THRESHOLD in *. simpl.
  destruct (n =? 0) eqn:E0; [lia|]. simpl.
  destruct (4000 <=? n) eqn:E; [done | lia].
Qed.

(** [clear_network_error] from a state other than [NETWORK_ERROR] does
    nothing at all; from [NETWORK_ERROR] it is a request for [IDLE]. *)
Lemma root_clear_network_error_guarded now m :
  (_state m <> LampState.NETWORK_ERROR ->
   clear_network_error cfg on_transition now m = (m, Py.Ret tt))
  /\ (_state m = LampState.NETWORK_ERROR ->
      clear_network_error cfg on_transition now m
      = _try_transition cfg on_transition now LampState.IDLE m).
Proof.
  unfold clear_network_error. split; intros H.
  - by rewrite bool_decide_eq_false_2.
  - by rewrite bool_decide_eq_true_2.
Qed.

(** An observer that raises an [Exception]: the request returns normally,
    the commit stands, the call and the failure are on record. *)
Lemma root_observer_exception_is_contained callback now target m e :
  on_transition = Some callback ->
  Spec.root_accepts cfg now target m = true ->
  callback (_state m) target = Raises e ->
  Py.is_Exception e = true ->
  let r := _try_transition cfg on_transition now target m in
  r.2 = Py.Ret tt
  /\ Spec.root_committed now (_state m) target r.1
  /\ _last_activity r.1 = _last_activity m
  /\ _idle_task r.1 = _idle_task m
  /\ notified r.1 = notified m ++ [(_state m, target)]
  /\ logged r.1
     = logged m ++ [LogTransition (_state m) target; LogCallbackFailed].
Proof.
  intros Hobs Hacc Hcall Hexc.
  rewrite (try_transition_accepted _ _ _ Hacc), Hobs. cbv zeta.
  rewrite Hcall, Hexc. simpl.
  repeat split; by rewrite <- app_assoc.
Qed.

(** The invariant of the remembered key. *)
Lemma try_transition_key_invariant now target m :
  Spec.root_key_invariant m ->
  Spec.root_key_invariant (_try_transition cfg on_transition now target m).1.
Proof.
  intros Hinv.
  destruct (Spec.root_accepts cfg now target m) eqn:Hacc.
  - pose proof (try_transition_commits _ _ _ Hacc) as (Hs & _ & Hk & _).
    unfold Spec.root_key_invariant. rewrite Hk, Hs.
    exists (_state m). split; [|done].
    unfold Spec.root_accepts in Hacc.
    apply andb_prop in Hacc as [_ Hne].
    apply negb_true_iff, bool_decide_eq_false in Hne. congruence.
  - by rewrite try_transition_rejected.
Qed.

Lemma root_step_key_invariant m c :
  Spec.root_key_invariant m ->
  Spec.root_key_invariant (Spec.root_step cfg on_transition m c).
Proof.
  intros Hinv. destruct c as [ta now ev|now|now|tc now|]; simpl.
  - unfold handle_event.
    destruct (high_tokens (token_count ev)) as [b|e]; [|done].
    destruct (if b then _ else _) as [target|]; [|done].
    by apply try_transition_key_invariant.
  - by apply try_transition_key_invariant.
  - unfold clear_network_error. case_bool_decide; [|done].
    by apply try_transition_key_invariant.
  - unfold _idle_watcher. destruct (pending (_idle_task m)); [|done].
    destruct (idle_timeout cfg <=? _) eqn:E; [|done].
    pose proof (try_transition_key_invariant now LampState.IDLE
                  (set_idle_task (Some Finished) m) Hinv) as H.
    destruct (_try_transition _ _ _ _ _) as [m' [u|[]]]; exact H.
  - unfold stop. destruct (pending (_idle_task m)); done.
Qed.

Lemma root_run_key_invariant calls m :
  Spec.root_key_invariant m ->
  Spec.root_key_invariant (Spec.root_run cfg on_transition calls m).
Proof.
  revert m. induction calls as [|c calls IH]; intros m Hinv; [done|].
  simpl. apply IH. by apply root_step_key_invariant.
Qed.

(** In a state where the invariant holds, the remembered key differs from
    the key of every request, so the debounce guard turns nothing down. *)
Lemma root_debounce_guard_is_idle now target m :
  Spec.root_key_invariant m ->
  Spec.root_accepts cfg now target m
  = negb (now - _state_entered_at m <? min_state_duration cfg)
    && negb (bool_decide (target = _state m)).
Proof.
  intros Hinv. unfold Spec.root_accepts.
  assert (Hkey : bool_decide (Some (transition_key (_state m) target)
                              = _last_transition_key m) = false).
  { apply bool_decide_eq_false. intros Heq.
    unfold Spec.root_key_invariant in Hinv. rewrite <- Heq in Hinv.
    destruct Hinv as (from & Hne & Hk).
    apply transition_key_inj in Hk as [? ?]. congruence. }
  rewrite Hkey. simpl. by rewrite andb_true_r.
Qed.

(** Whatever calls the machine has served since its construction, a
    request is then decided by the anti-flicker guard and the state alone:
    the debounce window plays no part. *)
Lemma root_debounce_never_rejects calls t0 t1 now target :
  let m := Spec.root_run cfg on_transition calls (__init__ t0 t1) in
  Spec.root_accepts cfg now target m
  = negb (now - _state_entered_at m <? min_state_duration cfg)
    && negb (bool_decide (target = _state m)).
Proof.
  intros m. apply root_debounce_guard_is_idle.
  apply root_run_key_invariant. exact I.
Qed.

End Facts.

(** With no anti-flicker guard and no debounce, [USER_INPUT] followed by
    [ASSISTANT] with 5000 tokens: the transitions are
    [IDLE -> USER_INPUT] and [USER_INPUT -> HIGH_TOKENS], whatever the
    clock readings, as long as the clock does not run backwards. *)
Lemma root_high_tokens_scenario cfg callback t0 t1 a1 n1 a2 n2 :
  min_state_duration cfg = 0 ->
  debounce_window cfg = 0 ->
  (forall old new, callback old new = Returns) ->
  t0 <= n1 <= n2 ->
  let m :=
    Spec.root_run cfg (Some callback)
      [Spec.RootHandleEvent a1 n1
         (Sample.root_event EventType.USER_INPUT Py.JNull);
       Spec.RootHandleEvent a2 n2
         (Sample.root_event EventType.ASSISTANT (Py.JInt 5000))]
      (__init__ t0 t1) in
  _state m = LampState.HIGH_TOKENS
  /\ notified m = [(LampState.IDLE, LampState.USER_INPUT);
                   (LampState.USER_INPUT, LampState.HIGH_TOKENS)].
Proof.
  intros Hmin Hdeb Hcb Ht.
  unfold Spec.root_run. cbn [foldl Spec.root_step].
  set (m0 := __init__ t0 t1).
  set (m1 := record_call LampState.IDLE LampState.USER_INPUT
               (commit n1 (transition_key LampState.IDLE LampState.USER_INPUT)
                  LampState.USER_INPUT
                  (_restart_idle_timer (set_last_activity a1 m0)))).
  assert (H1 : handle_event cfg (Some callback) a1 n1
                 (Sample.root_event EventType.USER_INPUT Py.JNull) m0
               = (m1, Py.Ret tt)).
  { unfold handle_event. cbn [Sample.root_event token_count event_type
      high_tokens Py.truthy _EVENT_TO_STATE mret outcome_ret].
    rewrite try_transition_accepted.
    - cbv zeta. cbn [_state _restart_idle_timer set_idle_task
        set_last_activity m0 __init__]. by rewrite Hcb.
    - unfold Spec.root_accepts. cbn. rewrite Hmin.
      destruct (n1 - t0 <? 0) eqn:E; [lia|done]. }
  rewrite H1. cbn [fst].
  set (m2 := record_call LampState.USER_INPUT LampState.HIGH_TOKENS
               (commit n2
                  (transition_key LampState.USER_INPUT LampState.HIGH_TOKENS)
                  LampState.HIGH_TOKENS
                  (_restart_idle_timer (set_last_activity a2 m1)))).
  assert (H2 : handle_event cfg (Some callback) a2 n2
                 (Sample.root_event EventType.ASSISTANT (Py.JInt 5000)) m1
               = (m2, Py.Ret tt)).
  { rewrite (root_high_tokens_forces_target _ _ _ _ _ 5000);
      [|done|unfold HIGH_TOKEN_THRESHOLD; lia].
    rewrite try_transition_accepted.
    - cbv zeta. cbn [_state _restart_idle_timer set_idle_task
        set_last_activity m1 record_call commit]. by rewrite Hcb.
    - unfold Spec.root_accepts. cbn. rewrite Hmin, Hdeb.
      destruct (n2 - n1 <? 0) eqn:E; [lia|done]. }
  rewrite H2. done.
Qed.

(** [root_unknown_event_is_ignored] on a fresh machine. *)
Lemma root_unknown_event_witness :
  let m := __init__ 0 0 in
  let m' := (handle_event Sample.no_guards (Some Sample.quiet) 1 1
               (Sample.root_event EventType.UNKNOWN Py.JNull) m).1 in
  _state m' = LampState.IDLE /\ notified m' = [].
Proof.
  pose proof (root_unknown_event_is_ignored Sample.no_guards
                (Some Sample.quiet) 1 1
                (Sample.root_event EventType.UNKNOWN Py.JNull)
                (__init__ 0 0) eq_refl) as H.
  destruct H as (_ & Hs & _ & _ & _ & Hn & _); [discriminate|].
  split; [exact Hs|exact Hn].
Defined.

(** [root_high_tokens_forces_target] on a [TOOL_CALL] event with 4000
    tokens: the machine ends in [HIGH_TOKENS]. *)
Lemma root_high_tokens_witness :
  _state (handle_event Sample.no_guards (Some Sample.quiet) 1 1
            (Sample.root_event EventType.TOOL_CALL (Py.JInt 4000))
            (__init__ 0 0)).1
  = LampState.HIGH_TOKENS.
Proof.
  rewrite (root_high_tokens_forces_target Sample.no_guards
             (Some Sample.quiet) 1 1
             (Sample.root_event EventType.TOOL_CALL (Py.JInt 4000))
             4000 (__init__ 0 0) eq_refl);
    [reflexivity|unfold HIGH_TOKEN_THRESHOLD; lia].
Defined.

(** [root_high_tokens_scenario] at the clock readings 0, 1, 2. *)
Lemma root_high_tokens_scenario_witness :
  notified
    (Spec.root_run Sample.no_guards (Some Sample.quiet)
       [Spec.RootHandleEvent 1 1
          (Sample.root_event EventType.USER_INPUT Py.JNull);
        Spec.RootHandleEvent 2 2
          (Sample.root_event EventType.ASSISTANT (Py.JInt 5000))]
       (__init__ 0 0))
  = [(LampState.IDLE, LampState.USER_INPUT);
     (LampState.USER_INPUT, LampState.HIGH_TOKENS)].
Proof.
  refine (proj2 (root_high_tokens_scenario Sample.no_guards Sample.quiet
                   0 0 1 1 2 2 eq_refl eq_refl (fun _ _ => eq_refl) _)).
  lia.
Defined.

(** [root_clear_network_error_guarded] in the initial state. *)
Lemma root_clear_network_error_witness :
  clear_network_error Sample.no_guards (Some Sample.quiet) 1 (__init__ 0 0)
  = (__init__ 0 0, Py.Ret tt).
Proof.
  apply (proj1 (root_clear_network_error_guarded Sample.no_guards
                  (Some Sample.quiet) 1 (__init__ 0 0))).
  discriminate.
Defined.

(** [root_observer_exception_is_contained] with an observer that raises
    [RuntimeError]. *)
Lemma root_observer_exception_witness :
  let r := _try_transition Sample.no_guards (Some Sample.failing) 1
             LampState.USER_INPUT (__init__ 0 0) in
  r.2 = Py.Ret tt /\ _state r.1 = LampState.USER_INPUT.
Proof.
  pose proof (root_observer_exception_is_contained Sample.no_guards
                (Some Sample.failing) Sample.failing 1 LampState.USER_INPUT
                (__init__ 0 0) Py.RuntimeError eq_refl eq_refl eq_refl
                eq_refl) as (Hret & (Hstate & _) & _).
  split; [exact Hret|exact Hstate].
Defined.

End RootMachine.

(** ** The state machine of [clawbeam/state_machine.py] *)

Module ClawbeamMachine.

Import Clawbeam.parser Clawbeam.state_machine.

Section Facts.

Variable cfg : StateMachineConfig.
Variable on_transition : option observer.

(** A request the guards turn down changes nothing and calls nobody. *)
Lemma do_transition_rejected now new m :
  Spec.clawbeam_accepts cfg now new m = false ->
  _do_transition cfg on_transition now new m = (m, Py.Ret tt).
Proof.
  unfold Spec.clawbeam_accepts, _do_transition. intros H.
  destruct (bool_decide (_state m = new)); [done|].
  destruct (now - _state_entered_at m <? min_state_duration cfg); [done|].
  destruct (_last_transition_times m !! (_state m, new)) as [last|];
    [|discriminate H].
  destruct (now - last <? debounce_window cfg); [done|discriminate H].
Qed.

(** A request the guards let through: the state, its entry time and the
    firing time of the pair are written, every other pair keeps its
    time. *)
Lemma do_transition_accepted now new m :
  Spec.clawbeam_accepts cfg now new m = true ->
  let m' := (_do_transition cfg on_transition now new m).1 in
  _state m' = new
  /\ _state_entered_at m' = now
  /\ _last_transition_times m'
     = <[(_state m, new) := now]> (_last_transition_times m).
Proof.
  unfold Spec.clawbeam_accepts, _do_transition. intros H.
  destruct (bool_decide (_state m = new)); [discriminate H|].
  destruct (now - _state_entered_at m <? min_state_duration cfg);
    [discriminate H|].
  assert (Hdeb : match _last_transition_times m !! (_state m, new) with
                 | Some last => now - last <? debounce_window cfg
                 | None => false
                 end = false).
  { destruct (_last_transition_times m !! (_state m, new)) as [last|];
      [|done].
    destruct (now - last <? debounce_window cfg); [discriminate H|done]. }
  rewrite Hdeb.
  destruct on_transition as [f|]; [|done].
  destruct (f (_state m) new); done.
Qed.

(** A firing time on record stays on record, and never moves back. *)
Lemma do_transition_fired_since t from to now new m :
  t <= now ->
  Spec.fired_since t from to m ->
  Spec.fired_since t from to (_do_transition cfg on_transition now new m).1.
Proof.
  intros Hnow (last & Hlast & Hle).
  destruct (Spec.clawbeam_accepts cfg now new m) eqn:Hacc.
  - pose proof (do_transition_accepted _ _ _ Hacc) as (_ & _ & Htimes).
    unfold Spec.fired_since. rewrite Htimes.
    destruct (decide ((_state m, new) = (from, to))) as [<-|Hne].
    + exists now. by rewrite lookup_insert_eq.
    + exists last. by rewrite lookup_insert_ne.
  - rewrite do_transition_rejected by done. by exists last.
Qed.

Lemma clawbeam_step_fired_since t from to m c :
  match Spec.clawbeam_call_time c with
  | Some now => t <= now
  | None => True
  end ->
  Spec.fired_since t from to m ->
  Spec.fired_since t from to (Spec.clawbeam_step cfg on_transition m c).
Proof.
  intros Ht Hf. destruct c as [now ev|now|now|now|]; simpl in *.
  - by apply do_transition_fired_since.
  - by apply do_transition_fired_since.
  - by apply do_transition_fired_since.
  - unfold _idle_watcher.
    destruct (_idle_task m) as [[[] watched]|]; try done.
    case_bool_decide; [|done].
    match goal with
    | |- context [_do_transition _ _ _ _ ?m0] =>
        pose proof (do_transition_fired_since t from to now LampState.IDLE
                      m0 Ht Hf) as H'
    end.
    destruct (_do_transition _ _ _ _ _) as [m' [u|[]]]; exact H'.
  - unfold stop. destruct (_idle_task m) as [[[] watched]|]; done.
Qed.

Lemma clawbeam_run_fired_since t from to calls m :
  Spec.not_before t calls ->
  Spec.fired_since t from to m ->
  Spec.fired_since t from to (Spec.clawbeam_run cfg on_transition calls m).
Proof.
  revert m. induction calls as [|c calls IH]; intros m Hnb Hf; [done|].
  apply Forall_cons in Hnb as [Hc Hnb].
  simpl. apply IH; [done|]. by apply clawbeam_step_fired_since.
Qed.

(** A request for a pair that fired less than the debounce window ago is
    turned down. *)
Lemma do_transition_debounced t now new m :
  Spec.fired_since t (_state m) new m ->
  now - t < debounce_window cfg ->
  _do_transition cfg on_transition now new m = (m, Py.Ret tt).
Proof.
  intros (last & Hlast & Hle) Hwin.
  apply do_transition_rejected. unfold Spec.clawbeam_accepts.
  rewrite Hlast.
  destruct (now - last <? debounce_window cfg) eqn:E; [|lia].
  by rewrite !andb_false_r.
Qed.

(** Debounce is per pair.  Once the transition [from -> to] has been
    committed at time [t], a later request for the same transition less
    than the debounce window after [t] is turned down: no state change,
    no notification, whatever the machine was asked in between and
    whichever other transitions it committed. *)
Lemma clawbeam_debounce_is_per_pair t now to calls m :
  Spec.clawbeam_accepts cfg t to m = true ->
  Spec.not_before t calls ->
  let m1 := (_do_transition cfg on_transition t to m).1 in
  let m2 := Spec.clawbeam_run cfg on_transition calls m1 in
  _state m2 = _state m ->
  now - t < debounce_window cfg ->
  _do_transition cfg on_transition now to m2 = (m2, Py.Ret tt).
Proof.
  intros Hacc Hnb m1 m2 Hback Hwin.
  apply (do_transition_debounced t); [|done].
  rewrite Hback. apply clawbeam_run_fired_since; [done|].
  pose proof (do_transition_accepted _ _ _ Hacc) as (_ & _ & Htimes).
  exists t. fold m1 in Htimes. rewrite Htimes.
  by rewrite lookup_insert_eq.
Qed.

(** [handle_event] never looks at the token count of the event. *)
Lemma clawbeam_handle_event_ignores_tokens now event event' m :
  event_type event = event_type event' ->
  handle_event cfg on_transition now event m
  = handle_event cfg on_transition now event' m.
Proof. unfold handle_event. by intros ->. Qed.

(** The target of [handle_event] is never [HIGH_TOKENS]. *)
Lemma clawbeam_no_high_tokens_target event :
  default LampState.IDLE (mapping (event_type event)) <> LampState.HIGH_TOKENS.
Proof. by destruct (event_type event). Qed.

End Facts.

(** [clawbeam_debounce_is_per_pair]: [IDLE -> USER_INPUT] is committed at
    time 1; the machine then goes through [NETWORK_ERROR] back to [IDLE];
    window 10: the request for [USER_INPUT] at time 4 is turned down. *)
Lemma clawbeam_debounce_witness :
  let m1 := (_do_transition Sample.debounce_only (Some Sample.quiet) 1
               LampState.USER_INPUT (__init__ 0)).1 in
  let m2 := Spec.clawbeam_run Sample.debounce_only (Some Sample.quiet)
              [Spec.ClawbeamSetNetworkError 2;
               Spec.ClawbeamClearNetworkError 3] m1 in
  _state m2 = LampState.IDLE
  /\ _do_transition Sample.debounce_only (Some Sample.quiet) 4
       LampState.USER_INPUT m2 = (m2, Py.Ret tt).
Proof.
  split; [reflexivity|].
  apply (clawbeam_debounce_is_per_pair Sample.debounce_only
           (Some Sample.quiet) 1 4 LampState.USER_INPUT
           [Spec.ClawbeamSetNetworkError 2; Spec.ClawbeamClearNetworkError 3]
           (__init__ 0)).
  - reflexivity.
  - repeat constructor; cbn; lia.
  - reflexivity.
  - cbn. lia.
Defined.

End ClawbeamMachine.

(** ** The two state machines on the same inputs *)

Module Divergence.

(** C1, on [clawbeam/state_machine.py].  After [USER_INPUT], an event of
    kind [UNKNOWN] (no token count) is mapped to [IDLE] by the default of
    [mapping.get]: the machine leaves [USER_INPUT] for [IDLE] and the
    observer is called with [(USER_INPUT, IDLE)]. *)
Theorem clawbeam_unknown_event_resets_to_idle :
  let m1 :=
    (Clawbeam.state_machine.handle_event Sample.no_guards (Some Sample.quiet)
       1 (Sample.clawbeam_event EventType.USER_INPUT None)
       (Clawbeam.state_machine.__init__ 0)).1 in
  let r :=
    Clawbeam.state_machine.handle_event Sample.no_guards (Some Sample.quiet)
      2 (Sample.clawbeam_event EventType.UNKNOWN None) m1 in
  Clawbeam.state_machine._state m1 = LampState.USER_INPUT
  /\ Clawbeam.state_machine._state r.1 = LampState.IDLE
  /\ Clawbeam.state_machine.notified r.1
     = [(LampState.IDLE, LampState.USER_INPUT);
        (LampState.USER_INPUT, LampState.IDLE)].
Proof. vm_compute. done. Qed.

(** C2, on [clawbeam/state_machine.py].  With no anti-flicker guard and no
    debounce, [USER_INPUT] followed by [ASSISTANT] with 5000 tokens ends
    in [THINKING]: the transitions are [IDLE -> USER_INPUT] and
    [USER_INPUT -> THINKING]. *)
Theorem clawbeam_high_token_event_reaches_thinking :
  let m :=
    Spec.clawbeam_run Sample.no_guards (Some Sample.quiet)
      [Spec.ClawbeamHandleEvent 1
         (Sample.clawbeam_event EventType.USER_INPUT None);
       Spec.ClawbeamHandleEvent 2
         (Sample.clawbeam_event EventType.ASSISTANT (Some 5000))]
      (Clawbeam.state_machine.__init__ 0) in
  Clawbeam.state_machine._state m = LampState.THINKING
  /\ Clawbeam.state_machine.notified m
     = [(LampState.IDLE, LampState.USER_INPUT);
        (LampState.USER_INPUT, LampState.THINKING)].
Proof. vm_compute. done. Qed.

(** C3, on [clawbeam/state_machine.py].  [clear_network_error] called in
    state [USER_INPUT] moves the machine to [IDLE] and calls the observer
    with [(USER_INPUT, IDLE)]. *)
Theorem clawbeam_clear_network_error_leaves_user_input :
  let m1 :=
    (Clawbeam.state_machine.handle_event Sample.no_guards (Some Sample.quiet)
       1 (Sample.clawbeam_event EventType.USER_INPUT None)
       (Clawbeam.state_machine.__init__ 0)).1 in
  let r :=
    Clawbeam.state_machine.clear_network_error Sample.no_guards
      (Some Sample.quiet) 2 m1 in
  Clawbeam.state_machine._state m1 = LampState.USER_INPUT
  /\ Clawbeam.state_machine._state r.1 = LampState.IDLE
  /\ Clawbeam.state_machine.notified r.1
     = [(LampState.IDLE, LampState.USER_INPUT);
        (LampState.USER_INPUT, LampState.IDLE)].
Proof. vm_compute. done. Qed.

(** C4, on [clawbeam/state_machine.py].  With an observer that raises
    [RuntimeError], [handle_event] of a [USER_INPUT] event commits the
    transition to [USER_INPUT] and then lets the exception out of the
    entry point. *)
Theorem clawbeam_observer_exception_propagates :
  let r :=
    Clawbeam.state_machine.handle_event Sample.no_guards
      (Some Sample.failing) 1
      (Sample.clawbeam_event EventType.USER_INPUT None)
      (Clawbeam.state_machine.__init__ 0) in
  r.2 = Py.Raise Py.RuntimeError
  /\ Clawbeam.state_machine._state r.1 = LampState.USER_INPUT
  /\ Clawbeam.state_machine._state_entered_at r.1 = 1
  /\ Clawbeam.state_machine.notified r.1
     = [(LampState.IDLE, LampState.USER_INPUT)].
Proof. vm_compute. done. Qed.

(** C7, on [state_machine.py].  Debounce window 10, no anti-flicker
    guard; the events [USER_INPUT], [ASSISTANT], [USER_INPUT],
    [ASSISTANT] arrive at times 1, 2, 3, 4.  [USER_INPUT -> THINKING]
    fired at time 2 and is requested again at time 4, inside the window:
    it is committed a second time. *)
Theorem root_debounce_forgets_earlier_pair :
  let m :=
    Spec.root_run Sample.debounce_only (Some Sample.quiet)
      [Spec.RootHandleEvent 1 1
         (Sample.root_event EventType.USER_INPUT Py.JNull);
       Spec.RootHandleEvent 2 2
         (Sample.root_event EventType.ASSISTANT Py.JNull);
       Spec.RootHandleEvent 3 3
         (Sample.root_event EventType.USER_INPUT Py.JNull);
       Spec.RootHandleEvent 4 4
         (Sample.root_event EventType.ASSISTANT Py.JNull)]
      (Root.state_machine.__init__ 0 0) in
  Root.state_machine._state m = LampState.THINKING
  /\ Root.state_machine.notified m
     = [(LampState.IDLE, LampState.USER_INPUT);
        (LampState.USER_INPUT, LampState.THINKING);
        (LampState.THINKING, LampState.USER_INPUT);
        (LampState.USER_INPUT, LampState.THINKING)].
Proof. vm_compute. done. Qed.

(** The same four events on [clawbeam/state_machine.py]: the fourth
    request is turned down. *)
Lemma clawbeam_debounce_remembers_earlier_pair :
  let m :=
    Spec.clawbeam_run Sample.debounce_only (Some Sample.quiet)
      [Spec.ClawbeamHandleEvent 1
         (Sample.clawbeam_event EventType.USER_INPUT None);
       Spec.ClawbeamHandleEvent 2
         (Sample.clawbeam_event EventType.ASSISTANT None);
       Spec.ClawbeamHandleEvent 3
         (Sample.clawbeam_event EventType.USER_INPUT None);
       Spec.ClawbeamHandleEvent 4
         (Sample.clawbeam_event EventType.ASSISTANT None)]
      (Clawbeam.state_machine.__init__ 0) in
  Clawbeam.state_machine._state m = LampState.USER_INPUT
  /\ Clawbeam.state_machine.notified m
     = [(LampState.IDLE, LampState.USER_INPUT);
        (LampState.USER_INPUT, LampState.THINKING);
        (LampState.THINKING, LampState.USER_INPUT)].
Proof. vm_compute. done. Qed.

End Divergence.

(** ** The actuator client of [clawbeam/wled_client.py] *)

Module WledFacts.

Import Clawbeam.wled_client.

(** What each primitive step shows of itself. *)
Lemma rate_limit_observed c :
  requests (_rate_limit c) = requests c
  /\ Spec.visible (_rate_limit c) = Spec.visible c
  /\ BACKOFF_BASE (_rate_limit c) = BACKOFF_BASE c
  /\ _healthy (_rate_limit c) = _healthy c.
Proof.
  unfold _rate_limit, requests, Spec.visible.
  destruct (clock c - _last_request_time c <? _min_interval c); simpl;
    [|done].
  rewrite !filter_app. simpl. rewrite !filter_cons_False, !filter_nil by done.
  by rewrite !app_nil_r.
Qed.

Lemma backoff_observed d c :
  requests (sleep (BackoffSleep d) d c) = requests c
  /\ Spec.visible (sleep (BackoffSleep d) d c)
     = Spec.visible c ++ [BackoffSleep d]
  /\ BACKOFF_BASE (sleep (BackoffSleep d) d c) = BACKOFF_BASE c
  /\ _healthy (sleep (BackoffSleep d) d c) = _healthy c.
Proof.
  unfold requests, Spec.visible. simpl. rewrite !filter_app. simpl.
  rewrite filter_cons_False, filter_cons_True, !filter_nil by done.
  by rewrite app_nil_r.
Qed.

Section Device.

Variable device : nat -> request -> response.

Lemma send_observed r c :
  (send device r c).1 = device (List.length (requests c)) r
  /\ requests (send device r c).2 = requests c ++ [Request r]
  /\ Spec.visible (send device r c).2 = Spec.visible c ++ [Request r]
  /\ BACKOFF_BASE (send device r c).2 = BACKOFF_BASE c
  /\ _healthy (send device r c).2 = _healthy c.
Proof.
  unfold requests, Spec.visible. simpl. rewrite !filter_app. simpl.
  by rewrite !filter_cons_True, !filter_nil by done.
Qed.

Lemma attempted_observed req c :
  requests (Spec.attempted device req c) = requests c ++ [Request req]
  /\ Spec.visible (Spec.attempted device req c)
     = Spec.visible c ++ [Request req]
  /\ BACKOFF_BASE (Spec.attempted device req c) = BACKOFF_BASE c
  /\ _healthy (Spec.attempted device req c) = _healthy c.
Proof.
  unfold Spec.attempted.
  destruct (send_observed req (_rate_limit c)) as (_ & -> & -> & -> & ->).
  by destruct (rate_limit_observed c) as (-> & -> & -> & ->).
Qed.

(** One turn of the retry loop. *)
Lemma post_loop_cons attempt attempts u payload c :
  _post_loop device (attempt :: attempts) u payload c =
  let req := POST u payload in
  let c1 := Spec.attempted device req c in
  if succeeded (device (List.length (requests c)) req)
  then (true, set_healthy true c1)
  else
    _post_loop device attempts u payload
      (if attempt <? MAX_RETRIES
       then sleep (BackoffSleep (BACKOFF_BASE c * 2 ^ (attempt - 1)))
                  (BACKOFF_BASE c * 2 ^ (attempt - 1)) c1
       else c1).
Proof.
  cbn [_post_loop]. unfold Spec.attempted, send. cbn [fst snd].
  destruct (rate_limit_observed c) as (-> & _ & Hbase & _).
  cbn [BACKOFF_BASE]. by rewrite Hbase.
Qed.

(** The attempts before the last one failed. *)
Local Ltac settle_earlier :=
  let k := fresh "k" in
  let Hk := fresh "Hk" in
  intros k Hk;
  repeat (destruct k as [|k]; [rewrite ?Nat.add_0_r; done|]);
  lia.

(** The scenario's three answers against the answers at hand. *)
Local Ltac settle_scenario :=
  let H1 := fresh in
  let H2 := fresh in
  let H3 := fresh in
  intros H1 H2 H3;
  repeat match goal with
         | E : succeeded (_ _ _) = _ |- _ =>
             rewrite ?H1, ?H2, ?H3 in E; cbn in E; try discriminate E;
             clear E
         end;
  done.

Lemma retry_attempts : range 1 (MAX_RETRIES + 1) = [1; 2; 3].
Proof. reflexivity. Qed.

(** C5.  [apply_state] makes between one and three requests.  The
    requests and the back-off sleeps follow the retry script: every
    request but the last one failed and is followed by a sleep of
    [BACKOFF_BASE * 2^(attempt-1)]; nothing follows the last request.
    The result is the success of the last request made, so a successful
    attempt ends the call at once with [True] and the client healthy;
    [False] comes only after three failed attempts and leaves the client
    unhealthy.  Two transport failures followed by status 200 give
    [True] after exactly three requests. *)
Theorem apply_state_retry_contract payload c :
  let req := POST _state_url payload in
  let first := List.length (requests c) in
  let r := apply_state device payload c in
  let n := Spec.requests_added c r.2 in
  (1 <= n <= 3)%nat
  /\ Spec.visible r.2
     = Spec.visible c ++ Spec.retry_script (BACKOFF_BASE c) req 1 n
  /\ (forall k, (k < n - 1)%nat ->
        succeeded (device (first + k)%nat req) = false)
  /\ r.1 = succeeded (device (first + (n - 1))%nat req)
  /\ (r.1 = true -> _healthy r.2 = true)
  /\ (r.1 = false -> n = 3%nat /\ _healthy r.2 = false)
  /\ (device first req = TransportError ->
      device (first + 1)%nat req = TransportError ->
      device (first + 2)%nat req = Status 200 ->
      r.1 = true /\ n = 3%nat).
Proof.
  intros req first r n. subst r n.
  unfold apply_state, _post, Spec.requests_added.
  rewrite retry_attempts. fold req first.
  rewrite post_loop_cons. cbv zeta. fold req first.
  set (c1 := Spec.attempted device req c).
  destruct (attempted_observed req c) as (Hr1 & Hv1 & Hb1 & Hh1).
  fold c1 in Hr1, Hv1, Hb1, Hh1.
  destruct (succeeded (device first req)) eqn:E1.
  { cbn [fst snd]. change (requests (set_healthy true c1)) with (requests c1).
    change (Spec.visible (set_healthy true c1)) with (Spec.visible c1).
    rewrite Hr1, Hv1, length_app. cbn [List.length].
    fold first. replace (first + 1 - first)%nat with 1%nat by lia.
    replace (first + (1 - 1))%nat with first by lia.
    split_and!; [lia|lia|done|settle_earlier|done|done|done|settle_scenario]. }
  change (1 <? MAX_RETRIES) with true. cbv iota.
  set (d1 := BACKOFF_BASE c * 2 ^ (1 - 1)).
  set (s1 := sleep (BackoffSleep d1) d1 c1).
  destruct (backoff_observed d1 c1) as (Hrs1 & Hvs1 & Hbs1 & Hhs1).
  fold s1 in Hrs1, Hvs1, Hbs1, Hhs1.
  rewrite post_loop_cons. cbv zeta. fold req.
  set (c2 := Spec.attempted device req s1).
  destruct (attempted_observed req s1) as (Hr2 & Hv2 & Hb2 & Hh2).
  fold c2 in Hr2, Hv2, Hb2, Hh2.
  assert (Hlen1 : List.length (requests s1) = (first + 1)%nat).
  { rewrite Hrs1, Hr1, length_app. cbn. by fold first. }
  rewrite Hlen1.
  destruct (succeeded (device (first + 1)%nat req)) eqn:E2.
  { cbn [fst snd]. change (requests (set_healthy true c2)) with (requests c2).
    change (Spec.visible (set_healthy true c2)) with (Spec.visible c2).
    rewrite Hr2, Hv2, Hvs1, Hv1, length_app, Hlen1. cbn [List.length].
    replace (first + 1 + 1 - first)%nat with 2%nat by lia.
    replace (first + (2 - 1))%nat with (first + 1)%nat by lia.
    split_and!;
      [lia|lia|by rewrite <- !app_assoc|settle_earlier|done|done|done
      |settle_scenario]. }
  change (2 <? MAX_RETRIES) with true. cbv iota.
  rewrite Hbs1, Hb1.
  set (d2 := BACKOFF_BASE c * 2 ^ (2 - 1)).
  set (s2 := sleep (BackoffSleep d2) d2 c2).
  destruct (backoff_observed d2 c2) as (Hrs2 & Hvs2 & Hbs2 & Hhs2).
  fold s2 in Hrs2, Hvs2, Hbs2, Hhs2.
  rewrite post_loop_cons. cbv zeta. fold req.
  set (c3 := Spec.attempted device req s2).
  destruct (attempted_observed req s2) as (Hr3 & Hv3 & Hb3 & Hh3).
  fold c3 in Hr3, Hv3, Hb3, Hh3.
  assert (Hlen2 : List.length (requests s2) = (first + 2)%nat).
  { rewrite Hrs2, Hr2, length_app, Hlen1. cbn. lia. }
  rewrite Hlen2.
  assert (Hvis : Spec.visible c3
                 = Spec.visible c ++ Spec.retry_script (BACKOFF_BASE c) req 1 3).
  { rewrite Hv3, Hvs2, Hv2, Hvs1, Hv1. cbn [Spec.retry_script].
    by rewrite <- !app_assoc. }
  assert (Hlen3 : List.length (requests c3) = (first + 3)%nat).
  { rewrite Hr3, length_app, Hlen2. cbn. lia. }
  destruct (succeeded (device (first + 2)%nat req)) eqn:E3.
  { cbn [fst snd]. change (requests (set_healthy true c3)) with (requests c3).
    change (Spec.visible (set_healthy true c3)) with (Spec.visible c3).
    rewrite Hlen3, Hvis.
    replace (first + 3 - first)%nat with 3%nat by lia.
    replace (first + (3 - 1))%nat with (first + 2)%nat by lia.
    split_and!; [lia|lia|done|settle_earlier|done|done|done|settle_scenario]. }
  change (3 <? MAX_RETRIES) with false. cbv iota.
  cbn [_post_loop fst snd].
  change (requests (set_healthy false c3)) with (requests c3).
  change (Spec.visible (set_healthy false c3)) with (Spec.visible c3).
  rewrite Hlen3, Hvis.
  replace (first + 3 - first)%nat with 3%nat by lia.
  replace (first + (3 - 1))%nat with (first + 2)%nat by lia.
  split_and!; [lia|lia|done|settle_earlier|done|done|done|settle_scenario].
Qed.

(** The result of [apply_state] is the success of one of its three
    attempts. *)
Lemma apply_state_result payload c :
  let req := POST _state_url payload in
  let first := List.length (requests c) in
  (apply_state device payload c).1
  = succeeded (device first req)
    || succeeded (device (first + 1)%nat req)
    || succeeded (device (first + 2)%nat req).
Proof.
  intros req first. unfold apply_state, _post. rewrite retry_attempts.
  rewrite post_loop_cons. cbv zeta. fold req first.
  destruct (succeeded (device first req)); [done|].
  change (1 <? MAX_RETRIES) with true. cbv iota.
  rewrite post_loop_cons. cbv zeta. fold req.
  destruct (backoff_observed (BACKOFF_BASE c * 2 ^ (1 - 1))
              (Spec.attempted device req c)) as (Hrs1 & _ & Hbs1 & _).
  destruct (attempted_observed req c) as (Hr1 & _ & Hb1 & _).
  rewrite Hrs1, Hr1, length_app. cbn [List.length]. fold first.
  destruct (succeeded (device (first + 1)%nat req)); [done|].
  change (2 <? MAX_RETRIES) with true. cbv iota.
  rewrite post_loop_cons. cbv zeta. fold req.
  match goal with
  | |- context [Spec.attempted device req (sleep ?e ?d ?c0)] =>
      destruct (attempted_observed req (sleep e d c0)) as (Hr2 & _ & Hb2 & _)
  end.
  match goal with
  | |- context [List.length (requests (sleep ?e ?d ?c0))] =>
      destruct (backoff_observed d c0) as (Hrs2 & _ & _ & _);
      rewrite Hrs2
  end.
  rewrite Hr2, Hrs1, Hr1, !length_app. cbn [List.length]. fold first.
  replace (first + 1 + 1)%nat with (first + 2)%nat by lia.
  destruct (succeeded (device (first + 2)%nat req)); [done|].
  change (3 <? MAX_RETRIES) with false. done.
Qed.

Lemma succeeded_iff resp : succeeded resp = true <-> resp = Status 200.
Proof.
  destruct resp as [code|]; simpl; [|done].
  rewrite Z.eqb_eq. split; [by intros ->|by intros [= ->]].
Qed.

(** C6, as the code has it.  A POST of a command to the state endpoint
    succeeds exactly when one of its three attempts is answered with
    status 200, and a GET probe of the info endpoint exactly when it is
    answered with status 200: any other status, 2xx or not, counts as a
    failure. *)
Theorem success_is_status_200 payload c :
  let first := List.length (requests c) in
  ((apply_state device payload c).1 = true <->
   exists k, (k < 3)%nat
             /\ device (first + k)%nat (POST _state_url payload) = Status 200)
  /\ ((ping device c).1 = true <->
      device first (GET _info_url) = Status 200).
Proof.
  intros first. split.
  - rewrite apply_state_result. cbv zeta. fold first.
    rewrite !orb_true_iff, !succeeded_iff. split.
    + intros [[H|H]|H].
      * exists 0%nat. split; [lia|by rewrite Nat.add_0_r].
      * exists 1%nat. split; [lia|done].
      * exists 2%nat. split; [lia|done].
    + intros (k & Hk & H). destruct k as [|[|[|k]]]; [| | |lia].
      * rewrite Nat.add_0_r in H. by left; left.
      * by left; right.
      * by right.
  - unfold ping, send. cbn [fst snd].
    destruct (rate_limit_observed c) as (-> & _).
    fold first.
    destruct (device first (GET _info_url)) as [code|]; cbn [fst].
    + rewrite Z.eqb_eq. split; [by intros ->|by intros [= ->]].
    + done.
Qed.

End Device.

(** C6, as stated, fails.  Status 204 is a 2xx status, yet a device that
    answers 204 to everything makes [apply_state] report failure after
    three requests and leaves the client unhealthy, and makes [ping]
    report failure. *)
Lemma status_204_counts_as_failure :
  let r := apply_state (Sample.answering 204) Sample.payload Sample.client in
  let p := ping (Sample.answering 204) Sample.client in
  (200 <=? 204) && (204 <=? 299) = true
  /\ r.1 = false
  /\ List.length (requests r.2) = 3%nat
  /\ _healthy r.2 = false
  /\ p.1 = false
  /\ _healthy p.2 = false.
Proof. vm_compute. done. Qed.

(** The scenario of [apply_state_retry_contract] on a device that fails
    twice at the transport level and then answers 200: success after
    exactly three requests, with back-off sleeps of one and two
    seconds. *)
Lemma apply_state_retry_witness :
  let r := apply_state (Sample.failing_first 2) Sample.payload
             Sample.client in
  (r.1 = true /\ Spec.requests_added Sample.client r.2 = 3%nat)
  /\ backoffs r.2 = [1000; 2000].
Proof.
  split; [|vm_compute; reflexivity].
  apply (proj2 (proj2 (proj2 (proj2 (proj2 (proj2
           (apply_state_retry_contract (Sample.failing_first 2)
              Sample.payload Sample.client)))))));
    reflexivity.
Defined.

(** [success_is_status_200] on a device that answers 200: the command
    and the probe both succeed. *)
Lemma success_is_status_200_witness :
  (apply_state (Sample.answering 200) Sample.payload Sample.client).1 = true
  /\ (ping (Sample.answering 200) Sample.client).1 = true.
Proof.
  pose proof (success_is_status_200 (Sample.answering 200) Sample.payload
                Sample.client) as [Hpost Hping].
  split.
  - apply Hpost. exists 0%nat. split; [lia|reflexivity].
  - apply Hping. reflexivity.
Defined.

End WledFacts.

(** ** The tailers of [session_watcher.py] and [clawbeam/session_watcher.py] *)

Module TailFacts.

Lemma str_app_cons (x : ascii) (a b : string) :
  String x a +:+ b = String x (a +:+ b).
Proof. reflexivity. Qed.

Lemma str_app_assoc (a b c : string) : (a +:+ b) +:+ c = a +:+ (b +:+ c).
Proof.
  induction a as [|x a IH]; [done|]. by rewrite !str_app_cons, IH.
Qed.

Lemma str_app_nil_r (a : string) : a +:+ EmptyString = a.
Proof. induction a as [|x a IH]; [done|]. by rewrite str_app_cons, IH. Qed.

Lemma str_length_app (a b : string) :
  String.length (a +:+ b) = (String.length a + String.length b)%nat.
Proof.
  induction a as [|x a IH]; [done|]. rewrite str_app_cons. cbn. by rewrite IH.
Qed.

Lemma substring_all (a : string) : substring 0 (String.length a) a = a.
Proof. induction a as [|x a IH]; [done|]. cbn. by rewrite IH. Qed.

Lemma substring_skip (w a : string) (n : nat) :
  substring (String.length w) n (w +:+ a) = substring 0 n a.
Proof.
  induction w as [|x w IH]; [done|]. rewrite str_app_cons. cbn. by rewrite IH.
Qed.

Lemma has_newline_app (a b : string) :
  Spec.has_newline (a +:+ b) = Spec.has_newline a || Spec.has_newline b.
Proof.
  induction a as [|x a IH]; [done|]. rewrite str_app_cons. cbn.
  by rewrite IH, orb_assoc.
Qed.

Lemma unlines_app (l1 l2 : list string) :
  Spec.unlines (l1 ++ l2) = Spec.unlines l1 +:+ Spec.unlines l2.
Proof.
  induction l1 as [|x l1 IH]; [done|]. cbn [app Spec.unlines].
  by rewrite IH, str_app_assoc, str_app_cons.
Qed.

(** Reading after an append, with the cursor at the end of what was
    read: exactly the appended text comes back, and the cursor is at the
    end again. *)
Lemma read_appended appended fh :
  File.cursor fh = String.length (File.written fh) ->
  let r := File.read (File.append appended fh) in
  r.1 = appended
  /\ File.cursor r.2 = String.length (File.written r.2).
Proof.
  intros Hc. unfold File.read, File.append, File.seek_end. cbn.
  split; [|done].
  rewrite Hc, str_length_app, substring_skip.
  replace (String.length (File.written fh) + String.length appended
           - String.length (File.written fh))%nat
    with (String.length appended) by lia.
  apply substring_all.
Qed.

Lemma str_app_nil_l (a : string) : EmptyString +:+ a = a.
Proof. reflexivity. Qed.

Lemma has_newline_mid (u p : string) :
  Spec.has_newline (u +:+ String newline p) = true.
Proof.
  rewrite has_newline_app. cbn [Spec.has_newline].
  by rewrite Ascii.eqb_refl, orb_true_r.
Qed.

(** Two texts that agree up to their first newline. *)
Lemma first_line_unique (u v p q : string) :
  Spec.has_newline u = false -> Spec.has_newline v = false ->
  u +:+ String newline p = v +:+ String newline q ->
  u = v /\ p = q.
Proof.
  revert v. induction u as [|c u IHu]; intros [|d v] Hu Hv Heq;
    rewrite ?str_app_cons, ?str_app_nil_l in Heq; cbn in Hu, Hv.
  - by injection Heq as ->.
  - injection Heq as <- _. by rewrite Ascii.eqb_refl in Hv.
  - injection Heq as -> _. by rewrite Ascii.eqb_refl in Hu.
  - injection Heq as -> Heq.
    apply orb_false_elim in Hu as [_ Hu].
    apply orb_false_elim in Hv as [_ Hv].
    by destruct (IHu v Hu Hv Heq) as [-> ->].
Qed.

(** The reading of a text as lines is unique. *)
Lemma lines_of_unique text l1 b1 l2 b2 :
  Spec.lines_of text l1 b1 -> Spec.lines_of text l2 b2 ->
  l1 = l2 /\ b1 = b2.
Proof.
  intros (H1 & Hl1 & Hb1) (H2 & Hl2 & Hb2). subst text.
  revert l2 Hl2 H2. induction Hl1 as [|x l1 Hx Hl1 IH]; intros l2 Hl2 H2.
  - destruct Hl2 as [|y l2 Hy Hl2].
    + by rewrite !str_app_nil_l in H2.
    + cbn [Spec.unlines] in H2. rewrite str_app_nil_l in H2. subst b1.
      by rewrite str_app_assoc, str_app_cons, has_newline_mid in Hb1.
  - destruct Hl2 as [|y l2 Hy Hl2].
    + cbn [Spec.unlines] in H2. rewrite str_app_nil_l in H2. subst b2.
      by rewrite str_app_assoc, str_app_cons, has_newline_mid in Hb2.
    + cbn [Spec.unlines] in H2. rewrite !str_app_assoc, !str_app_cons in H2.
      destruct (first_line_unique y x _ _ Hy Hx H2) as [-> Hrest].
      by destruct (IH l2 Hl2 Hrest) as [-> ->].
Qed.

(** *** [session_watcher.py] *)

Lemma split_newline_some s line rest :
  Root.session_watcher.split_newline s = Some (line, rest) ->
  s = line +:+ String newline rest /\ Spec.has_newline line = false.
Proof.
  revert line rest. induction s as [|c s IH]; intros line rest; cbn;
    [discriminate|].
  destruct (Ascii.eqb c newline) eqn:E.
  - intros [= <- <-]. apply Ascii.eqb_eq in E as ->. done.
  - destruct (Root.session_watcher.split_newline s) as [[l r]|];
      [|discriminate].
    intros [= <- <-]. destruct (IH l r eq_refl) as [-> Hl].
    rewrite str_app_cons. cbn. by rewrite E, Hl.
Qed.

Lemma split_newline_none s :
  Root.session_watcher.split_newline s = None -> Spec.has_newline s = false.
Proof.
  induction s as [|c s IH]; cbn; [done|].
  destruct (Ascii.eqb c newline); [discriminate|].
  destruct (Root.session_watcher.split_newline s) as [[l r]|];
    [discriminate|].
  intros _. by apply IH.
Qed.

(** The inner loop reads its buffer as lines. *)
Lemma root_drain_lines buffer :
  Spec.lines_of buffer (Root.session_watcher.drain buffer).1
                       (Root.session_watcher.drain buffer).2.
Proof.
  funelim (Root.session_watcher.drain buffer).
  - match goal with
    | IH : Spec.lines_of _ _ _ |- _ =>
        unfold Spec.lines_of in IH; destruct IH as (Heq & Hls & Hb)
    end.
    match goal with
    | E : Root.session_watcher.split_newline _ = Some _ |- _ =>
        destruct (split_newline_some _ _ _ E) as [Hbuf Hline]
    end.
    cbn [fst snd]. split_and!.
    + cbn [Spec.unlines]. rewrite str_app_assoc, str_app_cons.
      by rewrite Heq.
    + by constructor.
    + done.
  - cbn [fst snd]. split_and!; [done|constructor|].
    by apply split_newline_none.
Qed.

(** The polling loop, started with the cursor at the end of the file and
    a buffer without a newline, reads the buffer followed by everything
    appended as lines. *)
Lemma root_tail_loop_lines polls fh buffer :
  File.cursor fh = String.length (File.written fh) ->
  Spec.has_newline buffer = false ->
  let r := Root.session_watcher.tail_loop fh buffer polls in
  Spec.lines_of (buffer +:+ Spec.joined polls) r.1 r.2.
Proof.
  revert fh buffer.
  induction polls as [|appended polls IH]; intros fh buffer Hc Hb.
  - cbn. unfold Spec.lines_of. cbn [Spec.unlines].
    by rewrite str_app_nil_l, str_app_nil_r.
  - cbn [Root.session_watcher.tail_loop Spec.joined].
    destruct (read_appended appended fh Hc) as [Hchunk Hc'].
    destruct (File.read (File.append appended fh)) as [chunk fh'].
    cbn [fst snd] in Hchunk, Hc'. subst chunk.
    destruct (Str.is_empty appended) eqn:Hempty.
    + destruct appended; [|discriminate Hempty].
      rewrite str_app_nil_l. by apply IH.
    + pose proof (root_drain_lines (buffer +:+ appended))
        as (Heq1 & Hl1 & Hb1).
      destruct (Root.session_watcher.drain (buffer +:+ appended))
        as [lines buffer1].
      cbn [fst snd] in Heq1, Hl1, Hb1.
      pose proof (IH fh' buffer1 Hc' Hb1) as (Heq2 & Hl2 & Hb2).
      destruct (Root.session_watcher.tail_loop fh' buffer1 polls)
        as [more buffer2].
      cbn [fst snd] in *. split_and!.
      * rewrite unlines_app, str_app_assoc, Heq2.
        by rewrite <- str_app_assoc, Heq1, str_app_assoc.
      * by apply Forall_app.
      * done.
Qed.

(** *** [clawbeam/session_watcher.py] *)

(** [find] with the two slices is the split at the first newline. *)
Lemma find_newline_split s :
  match Clawbeam.session_watcher.find_newline s with
  | Some idx =>
      Root.session_watcher.split_newline s
      = Some (Clawbeam.session_watcher.before idx s,
              Clawbeam.session_watcher.after idx s)
  | None => Root.session_watcher.split_newline s = None
  end.
Proof.
  unfold Clawbeam.session_watcher.before, Clawbeam.session_watcher.after.
  induction s as [|c s IH]; [done|].
  cbn [Clawbeam.session_watcher.find_newline
         Root.session_watcher.split_newline].
  destruct (Ascii.eqb c newline).
  - cbn. by rewrite Nat.sub_0_r, substring_all.
  - destruct (Clawbeam.session_watcher.find_newline s) as [k|]; cbn.
    + by rewrite IH.
    + by rewrite IH.
Qed.

Lemma clawbeam_drain_lines buffer :
  Spec.lines_of buffer (Clawbeam.session_watcher.drain buffer).1
                       (Clawbeam.session_watcher.drain buffer).2.
Proof.
  funelim (Clawbeam.session_watcher.drain buffer).
  - match goal with
    | IH : Spec.lines_of _ _ _ |- _ =>
        unfold Spec.lines_of in IH; destruct IH as (Heq & Hls & Hb)
    end.
    pose proof (find_newline_split buffer) as Hsplit.
    match goal with
    | E : Clawbeam.session_watcher.find_newline _ = Some _ |- _ =>
        rewrite E in Hsplit
    end.
    destruct (split_newline_some _ _ _ Hsplit) as [Hbuf Hline].
    cbn [fst snd]. split_and!.
    + cbn [Spec.unlines]. rewrite str_app_assoc, str_app_cons.
      by rewrite Heq.
    + by constructor.
    + done.
  - cbn [fst snd]. split_and!; [done|constructor|].
    apply split_newline_none.
    pose proof (find_newline_split buffer) as Hsplit.
    match goal with
    | E : Clawbeam.session_watcher.find_newline _ = None |- _ =>
        by rewrite E in Hsplit
    end.
Qed.

Lemma clawbeam_tail_loop_lines polls fh buffer :
  File.cursor fh = String.length (File.written fh) ->
  Spec.has_newline buffer = false ->
  let r := Clawbeam.session_watcher.tail_loop fh buffer polls in
  Spec.lines_of (buffer +:+ Spec.joined polls) r.1 r.2.
Proof.
  revert fh buffer.
  induction polls as [|appended polls IH]; intros fh buffer Hc Hb.
  - cbn. unfold Spec.lines_of. cbn [Spec.unlines].
    by rewrite str_app_nil_l, str_app_nil_r.
  - cbn [Clawbeam.session_watcher.tail_loop Spec.joined].
    destruct (read_appended appended fh Hc) as [Hchunk Hc'].
    destruct (File.read (File.append appended fh)) as [chunk fh'].
    cbn [fst snd] in Hchunk, Hc'. subst chunk.
    destruct (Str.is_empty appended) eqn:Hempty.
    + destruct appended; [|discriminate Hempty].
      rewrite str_app_nil_l. by apply IH.
    + pose proof (clawbeam_drain_lines (buffer +:+ appended))
        as (Heq1 & Hl1 & Hb1).
      destruct (Clawbeam.session_watcher.drain (buffer +:+ appended))
        as [lines buffer1].
      cbn [fst snd] in Heq1, Hl1, Hb1.
      pose proof (IH fh' buffer1 Hc' Hb1) as (Heq2 & Hl2 & Hb2).
      destruct (Clawbeam.session_watcher.tail_loop fh' buffer1 polls)
        as [more buffer2].
      cbn [fst snd] in *. split_and!.
      * rewrite unlines_app, str_app_assoc, Heq2.
        by rewrite <- str_app_assoc, Heq1, str_app_assoc.
      * by apply Forall_app.
      * done.
Qed.

Lemma tail_file_lines_shared existing polls :
  Spec.lines_of (Spec.joined polls)
    (Root.session_watcher.tail_file existing polls).1
    (Root.session_watcher.tail_file existing polls).2
  /\ Spec.lines_of (Spec.joined polls)
       (Clawbeam.session_watcher.tail_file existing polls).1
       (Clawbeam.session_watcher.tail_file existing polls).2.
Proof.
  split.
  - apply (root_tail_loop_lines polls _ EmptyString); done.
  - apply (clawbeam_tail_loop_lines polls _ EmptyString); done.
Qed.

(** The two tailers yield the same lines and hold the same buffer. *)
Lemma tail_file_implementations_agree existing polls :
  Root.session_watcher.tail_file existing polls
  = Clawbeam.session_watcher.tail_file existing polls.
Proof.
  destruct (tail_file_lines_shared existing polls) as [H1 H2].
  destruct (lines_of_unique _ _ _ _ _ H1 H2) as [Hl Hb].
  destruct (Root.session_watcher.tail_file existing polls),
    (Clawbeam.session_watcher.tail_file existing polls).
  cbn in *. by subst.
Qed.

End TailFacts.

(** ** The classifiers of [parser.py] and [clawbeam/parser.py] *)

Module ParserFacts.

Lemma lstrip_whitespace line :
  Spec.whitespace_only line = true -> Str.lstrip line = EmptyString.
Proof.
  induction line as [|c line IH]; [done|]. cbn.
  intros [Hc Hl]%andb_prop. rewrite Hc. by apply IH.
Qed.

(** A line of white space only strips to the empty text. *)
Lemma strip_whitespace line :
  Spec.whitespace_only line = true -> Str.strip line = EmptyString.
Proof.
  intros H. unfold Str.strip, Str.rstrip. by rewrite (lstrip_whitespace _ H).
Qed.

Lemma is_empty_true s : Str.is_empty s = true <-> s = EmptyString.
Proof. by destruct s. Qed.

Section Decoder.

Variable json_loads : string -> option Py.value.
Variable fromisoformat : string -> option datetime.
Variable str_of : Py.value -> string.
Variable int_of_str : string -> option Z.

(** A line that is empty or holds white space only, and a line on which
    [json.loads] raises [JSONDecodeError], give [None]; nothing is raised.
    [parser.py] decodes the stripped line, [clawbeam/parser.py] the line
    as it is. *)
Theorem parse_line_none_when_blank_or_undecodable uuid4_hex now line :
  (Spec.whitespace_only line = true \/ json_loads (Str.strip line) = None ->
   Root.parser.parse_line json_loads fromisoformat str_of uuid4_hex now line
   = Py.Ret None)
  /\ (Spec.whitespace_only line = true \/ json_loads line = None ->
      Clawbeam.parser.parse_line json_loads fromisoformat int_of_str now line
      = Py.Ret None).
Proof.
  split.
  - unfold Root.parser.parse_line. intros [Hblank|Hbad].
    + by rewrite (strip_whitespace _ Hblank).
    + rewrite Hbad. by destruct (Str.is_empty (Str.strip line)).
  - unfold Clawbeam.parser.parse_line. intros [Hblank|Hbad].
    + rewrite (strip_whitespace _ Hblank). cbn.
      by rewrite orb_true_r.
    + rewrite Hbad.
      by destruct (Str.is_empty line || Str.is_empty (Str.strip line)).
Qed.

(** A line that decodes to something other than an object: both
    classifiers call [get] on what was decoded and raise
    [AttributeError]. *)
Lemma parse_line_raises_on_non_object uuid4_hex now line v :
  (forall d, v <> Py.JDict d) ->
  Str.strip line <> EmptyString ->
  (json_loads (Str.strip line) = Some v ->
   Root.parser.parse_line json_loads fromisoformat str_of uuid4_hex now line
   = Py.Raise Py.AttributeError)
  /\ (json_loads line = Some v ->
      Clawbeam.parser.parse_line json_loads fromisoformat int_of_str now line
      = Py.Raise Py.AttributeError).
Proof.
  intros Hv Hne.
  assert (Hs : Str.is_empty (Str.strip line) = false).
  { destruct (Str.is_empty (Str.strip line)) eqn:E; [|done].
    by apply is_empty_true in E. }
  assert (Hl : Str.is_empty line = false).
  { destruct line; [|done]. by vm_compute in Hne. }
  split; intros Hdec.
  - unfold Root.parser.parse_line. rewrite Hs, Hdec.
    destruct v; try done. by destruct (Hv d).
  - unfold Clawbeam.parser.parse_line. rewrite Hs, Hl, Hdec.
    destruct v; try done. by destruct (Hv d).
Qed.

Lemma substring_prefix_length (n : nat) (s : string) :
  (n <= String.length s)%nat -> String.length (substring 0 n s) = n.
Proof.
  revert n. induction s as [|c s IH]; intros [|n] H; cbn in *.
  all: try reflexivity.
  - lia.
  - rewrite IH; lia.
Qed.

(** The identifier of an event of [parser.py] is the first twelve
    characters of the fresh [uuid4] hex text, whatever the line holds. *)
Lemma root_identifier_is_fresh uuid4_hex now line e :
  Root.parser.parse_line json_loads fromisoformat str_of uuid4_hex now line
  = Py.Ret (Some e) ->
  Root.parser.id e = substring 0 12 uuid4_hex.
Proof.
  unfold Root.parser.parse_line.
  destruct (Str.is_empty (Str.strip line)); [discriminate|].
  destruct (json_loads (Str.strip line)) as [data|]; [|discriminate].
  unfold mbind, outcome_bind, mret, outcome_ret.
  destruct (Py.get data "message" _) as [msg|]; [|discriminate]. cbn [Py.bind].
  destruct (Py.bind (Py.get msg "role" _) _) as [role|]; [|discriminate].
  cbn [Py.bind].
  destruct (Py.bind (Py.get data "type" _) _) as [rt|]; [|discriminate].
  cbn [Py.bind].
  destruct (Root.parser.classify data role rt) as [kind|]; [|discriminate].
  cbn [Py.bind].
  destruct (Py.get data "usage" _) as [usage|]; [|discriminate]. cbn [Py.bind].
  destruct (Py.get data "timestamp" _) as [ts0|]; [|discriminate].
  cbn [Py.bind].
  destruct (Py.get data "ts" _) as [ts1|]; [|discriminate]. cbn [Py.bind].
  by intros [= <-].
Qed.

(** The identifier of an event of [clawbeam/parser.py] is read off the
    decoded record: its [id] if that is truthy, else its [timestamp] if
    that is truthy, else [None]. *)
Lemma clawbeam_identifier_is_read now line e :
  Clawbeam.parser.parse_line json_loads fromisoformat int_of_str now line
  = Py.Ret (Some e) ->
  exists d,
    json_loads line = Some (Py.JDict d)
    /\ Clawbeam.parser.id e
       = Py.or_ (Py.or_ (Py.dict_get d "id" Py.JNull)
                        (Py.dict_get d "timestamp" Py.JNull))
                Py.JNull.
Proof.
  unfold Clawbeam.parser.parse_line.
  destruct (Str.is_empty line || Str.is_empty (Str.strip line));
    [discriminate|].
  destruct (json_loads line) as [obj|]; [|discriminate].
  destruct obj as [| | | | | |d]; try discriminate.
  unfold mbind, outcome_bind, mret, outcome_ret. cbn [Py.get Py.bind].
  destruct (Clawbeam.parser._map_type _ _) as [kind|]; [|discriminate].
  cbn [Py.bind]. intros [= <-]. by exists d.
Qed.

End Decoder.

(** The hypotheses of [parse_line_none_when_blank_or_undecodable] are met
    by a line of blanks and by a line that is no JSON text. *)
Lemma parse_line_none_witness :
  Root.parser.parse_line Sample.json_loads Sample.fromisoformat Sample.str_of
    Sample.uuid4_hex Sample.now "   " = Py.Ret None
  /\ Root.parser.parse_line Sample.json_loads Sample.fromisoformat
       Sample.str_of Sample.uuid4_hex Sample.now Sample.garbage_line
     = Py.Ret None
  /\ Clawbeam.parser.parse_line Sample.json_loads Sample.fromisoformat
       Sample.int_of_str Sample.now EmptyString = Py.Ret None
  /\ Clawbeam.parser.parse_line Sample.json_loads Sample.fromisoformat
       Sample.int_of_str Sample.now Sample.garbage_line = Py.Ret None.
Proof.
  split_and!.
  - apply (proj1 (parse_line_none_when_blank_or_undecodable
                    Sample.json_loads Sample.fromisoformat Sample.str_of
                    Sample.int_of_str Sample.uuid4_hex Sample.now "   ")).
    left. reflexivity.
  - apply (proj1 (parse_line_none_when_blank_or_undecodable
                    Sample.json_loads Sample.fromisoformat Sample.str_of
                    Sample.int_of_str Sample.uuid4_hex Sample.now
                    Sample.garbage_line)).
    right. reflexivity.
  - apply (proj2 (parse_line_none_when_blank_or_undecodable
                    Sample.json_loads Sample.fromisoformat Sample.str_of
                    Sample.int_of_str Sample.uuid4_hex Sample.now
                    EmptyString)).
    left. reflexivity.
  - apply (proj2 (parse_line_none_when_blank_or_undecodable
                    Sample.json_loads Sample.fromisoformat Sample.str_of
                    Sample.int_of_str Sample.uuid4_hex Sample.now
                    Sample.garbage_line)).
    right. reflexivity.
Defined.

(** [parse_line_raises_on_non_object] on the line [42]. *)
Lemma parse_line_non_object_witness :
  Root.parser.parse_line Sample.json_loads Sample.fromisoformat Sample.str_of
    Sample.uuid4_hex Sample.now Sample.number_line
  = Py.Raise Py.AttributeError
  /\ Clawbeam.parser.parse_line Sample.json_loads Sample.fromisoformat
       Sample.int_of_str Sample.now Sample.number_line
     = Py.Raise Py.AttributeError.
Proof.
  assert (Hobj : forall d, Py.JInt 42 <> Py.JDict d) by discriminate.
  assert (Hne : Str.strip Sample.number_line <> EmptyString)
    by (vm_compute; discriminate).
  pose proof (parse_line_raises_on_non_object Sample.json_loads
                Sample.fromisoformat Sample.str_of Sample.int_of_str
                Sample.uuid4_hex Sample.now Sample.number_line
                (Py.JInt 42) Hobj Hne) as [Hroot Hclawbeam].
  split; [apply Hroot|apply Hclawbeam]; reflexivity.
Defined.

End ParserFacts.

(** ** The session finders of [session_watcher.py] and [clawbeam/session_watcher.py] *)

Module SessionFacts.

Section Keyed.

Context {A : Type} (key : A -> Z).

(** [max_by] splits the list at the item it returns: everything before
    has a smaller key, nothing after has a larger one. *)
Lemma max_by_split (items : list A) (best : A) :
  exists earlier later,
    best :: items = earlier ++ Path.max_by key best items :: later
    /\ Forall (fun x => key x < key (Path.max_by key best items)) earlier
    /\ Forall (fun x => key x <= key (Path.max_by key best items)) later.
Proof.
  revert best. induction items as [|x items IH]; intros best.
  - exists [], []. by repeat split.
  - cbn [Path.max_by]. destruct (key best <? key x) eqn:E.
    + destruct (IH x) as (l1 & l2 & Heq & H1 & H2).
      exists (best :: l1), l2. rewrite Heq. split_and!; [done| |done].
      constructor; [|done].
      assert (key x <= key (Path.max_by key x items)).
      { assert (Hin : x ∈ l1 ++ Path.max_by key x items :: l2)
          by (rewrite <- Heq; left).
        apply elem_of_app in Hin as [Hin|Hin].
        - rewrite Forall_forall in H1. specialize (H1 _ Hin). lia.
        - apply elem_of_cons in Hin as [Hx|Hin]; [rewrite <- Hx; lia|].
          rewrite Forall_forall in H2. by apply H2. }
      lia.
    + destruct (IH best) as (l1 & l2 & Heq & H1 & H2).
      destruct l1 as [|b l1].
      * injection Heq as Hb Hl. exists [], (x :: l2).
        rewrite <- Hb at 1. rewrite Hl at 1. split_and!; [done|done|].
        constructor; [|done]. rewrite <- Hb. lia.
      * injection Heq as <- Hl. exists (best :: x :: l1), l2.
        rewrite Hl at 1. split_and!; [done| |done].
        apply Forall_cons in H1 as [Hb H1].
        repeat constructor; [done|lia|done].
Qed.

Lemma elem_of_insert_by (x y : A) (sorted : list A) :
  y ∈ Path.insert_by key x sorted <-> y = x \/ y ∈ sorted.
Proof.
  induction sorted as [|z sorted IH]; cbn [Path.insert_by].
  - rewrite list_elem_of_singleton, elem_of_nil. tauto.
  - destruct (key x <=? key z); [by rewrite elem_of_cons|].
    rewrite !elem_of_cons, IH. tauto.
Qed.

Lemma elem_of_sort_by (y : A) (items : list A) :
  y ∈ Path.sort_by key items <-> y ∈ items.
Proof.
  induction items as [|x items IH]; [done|].
  cbn [Path.sort_by foldr]. fold (Path.sort_by key items).
  rewrite elem_of_insert_by, elem_of_cons, IH. tauto.
Qed.

(** An item that is not larger than some item of the list does not become
    its last item. *)
Lemma insert_by_keeps_last (x : A) (sorted : list A) :
  (exists y, y ∈ sorted /\ key x <= key y) ->
  last (Path.insert_by key x sorted) = last sorted.
Proof.
  induction sorted as [|z sorted IH]; intros (y & Hy & Hle).
  - by apply elem_of_nil in Hy.
  - cbn [Path.insert_by]. destruct (key x <=? key z) eqn:E; [done|].
    apply elem_of_cons in Hy as [->|Hy]; [lia|].
    specialize (IH (ex_intro _ y (conj Hy Hle))).
    destruct sorted as [|w sorted]; [by apply elem_of_nil in Hy|].
    destruct (Path.insert_by key x (w :: sorted)) as [|u rest] eqn:Hins.
    + cbn [Path.insert_by] in Hins. by destruct (key x <=? key w).
    + exact IH.
Qed.

(** An item larger than every item of the list goes to its end. *)
Lemma insert_by_appends (x : A) (sorted : list A) :
  Forall (fun y => key y < key x) sorted ->
  Path.insert_by key x sorted = sorted ++ [x].
Proof.
  induction 1 as [|z sorted Hz Hs IH]; [done|].
  cbn [Path.insert_by]. destruct (key x <=? key z) eqn:E; [lia|].
  by rewrite IH.
Qed.

(** The last item of the sorted list splits the original list: nothing
    before it has a larger key, everything after has a smaller one. *)
Lemma last_sort_by_split (items : list A) :
  match last (Path.sort_by key items) with
  | None => items = []
  | Some best =>
      exists earlier later,
        items = earlier ++ best :: later
        /\ Forall (fun x => key x <= key best) earlier
        /\ Forall (fun x => key x < key best) later
  end.
Proof.
  induction items as [|x items IH]; [done|].
  cbn [Path.sort_by foldr]. fold (Path.sort_by key items).
  destruct (last (Path.sort_by key items)) as [best|] eqn:Hlast.
  - destruct IH as (l1 & l2 & Heq & H1 & H2).
    destruct (decide (key x <= key best)) as [Hle|Hgt].
    + rewrite insert_by_keeps_last, Hlast.
      * exists (x :: l1), l2. rewrite Heq. split_and!; [done| |done].
        by constructor.
      * exists best. split; [|done].
        apply last_Some_elem_of in Hlast. done.
    + assert (Hall : Forall (fun y => key y < key x) items).
      { rewrite Heq. apply Forall_app. split.
        - eapply Forall_impl; [exact H1|]. cbn. intros; lia.
        - constructor; [lia|].
          eapply Forall_impl; [exact H2|]. cbn. intros; lia. }
      rewrite insert_by_appends.
      * rewrite last_snoc. exists [], items. by split_and!.
      * rewrite Forall_forall in Hall |- *. intros y Hy.
        apply Hall. by apply elem_of_sort_by.
  - subst items. cbn. exists [], []. by split_and!.
Qed.

(** Two items of a list whose keys are pairwise distinct are the same
    item as soon as their keys are equal. *)
Lemma key_determines_item (items : list A) (x y : A) :
  NoDup (key <$> items) -> x ∈ items -> y ∈ items -> key x = key y -> x = y.
Proof.
  induction items as [|z items IH]; intros Hnd Hx Hy Hk.
  - by apply elem_of_nil in Hx.
  - rewrite fmap_cons in Hnd. apply NoDup_cons in Hnd as [Hz Hnd].
    apply elem_of_cons in Hx as [Hx|Hx], Hy as [Hy|Hy].
    + congruence.
    + subst x. exfalso. apply Hz. rewrite Hk.
      by apply list_elem_of_fmap_2.
    + subst y. exfalso. apply Hz. rewrite <- Hk.
      by apply list_elem_of_fmap_2.
    + by apply IH.
Qed.

End Keyed.

Lemma root_latest_session_newest_split (globbed : list Path.t) :
  match Root.session_watcher._latest_session globbed with
  | None => List.filter Root.session_watcher.is_candidate globbed = []
  | Some best =>
      exists earlier later,
        List.filter Root.session_watcher.is_candidate globbed
          = earlier ++ best :: later
        /\ Forall (fun p => Path.st_mtime p < Path.st_mtime best) earlier
        /\ Forall (fun p => Path.st_mtime p <= Path.st_mtime best) later
  end.
Proof.
  unfold Root.session_watcher._latest_session.
  destruct (List.filter Root.session_watcher.is_candidate globbed)
    as [|first others]; [done|].
  apply max_by_split.
Qed.

Lemma clawbeam_latest_session_newest_split (globbed : list Path.t) :
  match Clawbeam.session_watcher._latest_session globbed with
  | None => List.filter Clawbeam.session_watcher.is_candidate globbed = []
  | Some best =>
      exists earlier later,
        List.filter Clawbeam.session_watcher.is_candidate globbed
          = earlier ++ best :: later
        /\ Forall (fun p => Path.st_mtime p <= Path.st_mtime best) earlier
        /\ Forall (fun p => Path.st_mtime p < Path.st_mtime best) later
  end.
Proof.
  unfold Clawbeam.session_watcher._latest_session.
  destruct (List.filter Clawbeam.session_watcher.is_candidate globbed)
    as [|first others] eqn:Hfilter; [done|].
  apply (last_sort_by_split Path.st_mtime (first :: others)).
Qed.

(** [_latest_session] of [session_watcher.py] returns [None] exactly
    when the glob yields no candidate (no name whose lower-cased stem is
    free of [reset]).  Otherwise it returns a candidate whose modification
    time no candidate exceeds, and among the candidates that share that
    time the one the glob yielded first: every candidate yielded before
    the result is strictly older. *)
Theorem root_latest_session_is_newest (globbed : list Path.t) :
  match Root.session_watcher._latest_session globbed with
  | None => List.filter Root.session_watcher.is_candidate globbed = []
  | Some best =>
      exists earlier later,
        List.filter Root.session_watcher.is_candidate globbed
          = earlier ++ best :: later
        /\ Forall (fun p => Path.st_mtime p < Path.st_mtime best) earlier
        /\ Forall (fun p => Path.st_mtime p <= Path.st_mtime best) later
  end.
Proof. apply root_latest_session_newest_split. Qed.

(** [_latest_session] of [clawbeam/session_watcher.py] returns
    [None] exactly when the glob yields no candidate (no name free of
    [-reset]).  Otherwise it returns a candidate whose modification time
    no candidate exceeds, and among the candidates that share that time
    the one the glob yielded last: every candidate yielded after the
    result is strictly older. *)
Theorem clawbeam_latest_session_is_newest (globbed : list Path.t) :
  match Clawbeam.session_watcher._latest_session globbed with
  | None => List.filter Clawbeam.session_watcher.is_candidate globbed = []
  | Some best =>
      exists earlier later,
        List.filter Clawbeam.session_watcher.is_candidate globbed
          = earlier ++ best :: later
        /\ Forall (fun p => Path.st_mtime p <= Path.st_mtime best) earlier
        /\ Forall (fun p => Path.st_mtime p < Path.st_mtime best) later
  end.
Proof. apply clawbeam_latest_session_newest_split. Qed.

(** When both finders consider the same files and no two of them
    share a modification time, they return the same file. *)
Theorem latest_session_implementations_agree (globbed : list Path.t) :
  List.filter Root.session_watcher.is_candidate globbed
    = List.filter Clawbeam.session_watcher.is_candidate globbed ->
  NoDup (Path.st_mtime
           <$> List.filter Root.session_watcher.is_candidate globbed) ->
  Root.session_watcher._latest_session globbed
    = Clawbeam.session_watcher._latest_session globbed.
Proof.
  intros Hsame Hnd.
  pose proof (root_latest_session_newest_split globbed) as Hroot.
  pose proof (clawbeam_latest_session_newest_split globbed) as Hclaw.
  rewrite <- Hsame in Hclaw.
  destruct (Root.session_watcher._latest_session globbed) as [a|],
    (Clawbeam.session_watcher._latest_session globbed) as [b|].
  - destruct Hroot as (e1 & l1 & Eq1 & Hb1 & Ha1).
    destruct Hclaw as (e2 & l2 & Eq2 & Hb2 & Ha2).
    f_equal. eapply (key_determines_item Path.st_mtime); [exact Hnd| | |].
    + rewrite Eq1. apply elem_of_app; right; left.
    + rewrite Eq2. apply elem_of_app; right; left.
    + assert (Hab : a ∈ e2 ++ b :: l2)
        by (rewrite <- Eq2, Eq1; apply elem_of_app; right; left).
      assert (Hba : b ∈ e1 ++ a :: l1)
        by (rewrite <- Eq1, Eq2; apply elem_of_app; right; left).
      rewrite Forall_forall in Hb1, Ha1, Hb2, Ha2.
      apply elem_of_app in Hab as [Hab|Hab];
        [apply Hb2 in Hab|
         apply elem_of_cons in Hab as [Hab|Hab];
         [by rewrite Hab|apply Ha2 in Hab]];
      (apply elem_of_app in Hba as [Hba|Hba];
        [apply Hb1 in Hba|
         apply elem_of_cons in Hba as [Hba|Hba];
         [by rewrite Hba|apply Ha1 in Hba]]); lia.
  - destruct Hroot as (e1 & l1 & Eq1 & _). rewrite Eq1 in Hclaw.
    by destruct e1.
  - destruct Hclaw as (e2 & l2 & Eq2 & _). rewrite Eq2 in Hroot.
    by destruct e2.
  - done.
Qed.

Lemma latest_session_agree_witness :
  Root.session_watcher._latest_session Sample.sessions = Some Sample.session_b
  /\ Clawbeam.session_watcher._latest_session Sample.sessions
     = Some Sample.session_b.
Proof.
  assert (H : Root.session_watcher._latest_session Sample.sessions
              = Clawbeam.session_watcher._latest_session Sample.sessions).
  { apply (latest_session_implementations_agree Sample.sessions).
    - reflexivity.
    - apply (bool_decide_unpack _). reflexivity. }
  split; [reflexivity|]. rewrite <- H. reflexivity.
Defined.

(** *** The two candidate tests *)

Lemma prefix_before_dot (needle x t : string) :
  Str.contains needle "." = false ->
  String.prefix needle (x +:+ String "." t) = true ->
  String.prefix needle x = true.
Proof.
  revert x. induction needle as [|a needle IH]; intros x Hdot Hp.
  - by destruct x.
  - cbn [Str.contains String.prefix] in Hdot.
    apply orb_false_iff in Hdot as [Ha Hdot].
    destruct x as [|c x].
    + rewrite TailFacts.str_app_nil_l in Hp. cbn [String.prefix] in Hp.
      destruct (ascii_dec a ".") as [->|]; [|done].
      destruct (ascii_dec "." "."); [by destruct needle|done].
    + rewrite TailFacts.str_app_cons in Hp. cbn [String.prefix] in Hp |- *.
      destruct (ascii_dec a c); [|done]. by apply IH.
Qed.

Lemma contains_before_suffix (x : string) :
  Str.contains (x +:+ ".jsonl") "-reset" = true ->
  Str.contains x "-reset" = true.
Proof.
  induction x as [|c x IH]; intros H.
  - by vm_compute in H.
  - rewrite TailFacts.str_app_cons in H. cbn [Str.contains] in H |- *.
    apply orb_true_iff in H as [H|H]; apply orb_true_iff.
    + left. apply (prefix_before_dot "-reset" (String c x) "jsonl");
        [reflexivity|]. by rewrite TailFacts.str_app_cons.
    + right. by apply IH.
Qed.

Lemma contains_prefix (s needle : string) :
  String.prefix needle s = true -> Str.contains s needle = true.
Proof. intros H. destruct s; cbn [Str.contains]; by rewrite H. Qed.

Lemma contains_drop_dash (s : string) :
  Str.contains s "-reset" = true -> Str.contains s "reset" = true.
Proof.
  induction s as [|c s IH]; intros H; [by vm_compute in H|].
  cbn [Str.contains] in H |- *.
  apply orb_true_iff in H as [H|H]; apply orb_true_iff; right.
  - cbn [String.prefix] in H. destruct (ascii_dec "-" c); [|done].
    by apply contains_prefix.
  - by apply IH.
Qed.

Lemma prefix_lower (needle s : string) :
  String.prefix needle s = true ->
  String.prefix (Str.lower needle) (Str.lower s) = true.
Proof.
  revert s. induction needle as [|a needle IH]; intros s H.
  - by destruct s.
  - destruct s as [|c s]; [done|].
    cbn [String.prefix Str.lower] in H |- *.
    destruct (ascii_dec a c) as [->|]; [|done].
    destruct (ascii_dec (Str.lower_char c) (Str.lower_char c)); [|done].
    by apply IH.
Qed.

Lemma contains_lower (s needle : string) :
  Str.contains s needle = true ->
  Str.contains (Str.lower s) (Str.lower needle) = true.
Proof.
  induction s as [|c s IH]; intros H.
  - apply contains_prefix. apply (prefix_lower needle EmptyString).
    cbn [Str.contains] in H. by rewrite orb_false_r in H.
  - cbn [Str.contains Str.lower] in H |- *.
    apply orb_true_iff in H as [H|H]; apply orb_true_iff.
    + left. by apply (prefix_lower needle (String c s)).
    + right. by apply IH.
Qed.

Lemma rfind_dot_app (x t : string) :
  Path.rfind_dot t = None ->
  Path.rfind_dot (x +:+ String "." t) = Some (String.length x).
Proof.
  intros Ht. induction x as [|c x IH].
  - rewrite TailFacts.str_app_nil_l. cbn [Path.rfind_dot]. by rewrite Ht.
  - rewrite TailFacts.str_app_cons. cbn [Path.rfind_dot String.length]. by rewrite IH.
Qed.

Lemma substring_app_prefix (a b : string) :
  substring 0 (String.length a) (a +:+ b) = a.
Proof.
  induction a as [|c a IH].
  - rewrite TailFacts.str_app_nil_l. by destruct b.
  - rewrite TailFacts.str_app_cons. cbn [substring String.length]. by rewrite IH.
Qed.

(** The stem of [base.jsonl] is [base]. *)
Lemma stem_jsonl (p : Path.t) (base : string) :
  Path.name p = base +:+ ".jsonl" -> base <> EmptyString ->
  Path.stem p = base.
Proof.
  intros Hname Hbase. unfold Path.stem.
  rewrite Hname, (rfind_dot_app base "jsonl") by reflexivity.
  rewrite TailFacts.str_length_app.
  assert (Hlen : (0 < String.length base)%nat).
  { destruct base; [done|]. cbn [String.length]. lia. }
  replace (0 <? String.length base)%nat with true
    by (symmetry; apply Nat.ltb_lt; lia).
  replace (String.length base
           <? String.length base + String.length ".jsonl" - 1)%nat
    with true by (symmetry; apply Nat.ltb_lt; cbn [String.length]; lia).
  apply substring_app_prefix.
Qed.

(** On the names the glob yields ([base.jsonl]) the test of
    [session_watcher.py] is the stricter of the two: every file it keeps
    is kept by the test of [clawbeam/session_watcher.py] as well. *)
Theorem root_candidate_is_clawbeam_candidate (p : Path.t) (base : string) :
  Path.name p = base +:+ ".jsonl" ->
  Root.session_watcher.is_candidate p = true ->
  Clawbeam.session_watcher.is_candidate p = true.
Proof.
  intros Hname Hroot.
  unfold Root.session_watcher.is_candidate in Hroot.
  unfold Clawbeam.session_watcher.is_candidate.
  apply negb_true_iff in Hroot. apply negb_true_iff.
  destruct (Str.contains (Path.name p) "-reset") eqn:E; [|done].
  exfalso. rewrite Hname in E. apply contains_before_suffix in E.
  assert (Hbase : base <> EmptyString).
  { intros ->. by vm_compute in E. }
  rewrite (stem_jsonl p base Hname Hbase) in Hroot.
  apply contains_drop_dash, contains_lower in E.
  change (Str.lower "reset") with "reset"%string in E. congruence.
Qed.

Lemma root_candidate_witness :
  Clawbeam.session_watcher.is_candidate Sample.session_a = true.
Proof.
  apply (root_candidate_is_clawbeam_candidate Sample.session_a "a");
    reflexivity.
Defined.

End SessionFacts.

(** ** Invariants of the two state machines over all their entry points *)

Module MachineInvariants.

Lemma chain_snoc from steps mid to :
  Spec.chain from steps mid -> mid <> to ->
  Spec.chain from (steps ++ [(mid, to)]) to.
Proof.
  revert from. induction steps as [|[old new] steps IH]; intros from H Hne.
  - cbn in *. by subst.
  - cbn in *. destruct H as (? & ? & H). split_and!; [done|done|].
    by apply IH.
Qed.

Module Root_.

Import Root.parser Root.state_machine.

Section Facts.

Variable cfg : StateMachineConfig.
Variable on_transition : option observer.

(** What a request does to the state and its entry time: nothing, or a
    change of state after the minimum duration, stamped with the clock
    reading of the request. *)
Lemma try_transition_held now target m :
  let m' := (_try_transition cfg on_transition now target m).1 in
  _idle_task m' = _idle_task m
  /\ _last_activity m' = _last_activity m
  /\ (_state m' = _state m /\ _state_entered_at m' = _state_entered_at m
      \/ _state m' = target
         /\ target <> _state m
         /\ min_state_duration cfg <= now - _state_entered_at m
         /\ _state_entered_at m' = now).
Proof.
  destruct (Spec.root_accepts cfg now target m) eqn:Hacc.
  - pose proof (RootMachine.try_transition_commits cfg on_transition
                  _ _ _ Hacc) as (Hs & He & _).
    cbv zeta.
    assert (Hframe :
      _idle_task (_try_transition cfg on_transition now target m).1
        = _idle_task m
      /\ _last_activity (_try_transition cfg on_transition now target m).1
         = _last_activity m).
    { rewrite (RootMachine.try_transition_accepted cfg on_transition
                 _ _ _ Hacc). cbv zeta.
      destruct on_transition as [f|]; [|done].
      destruct (f (_state m) target) as [|e]; [done|].
      by destruct (Py.is_Exception e). }
    destruct Hframe as [Hi Ha]. split_and!; [done|done|]. right.
    unfold Spec.root_accepts in Hacc.
    apply andb_prop in Hacc as [Hacc Hne].
    apply andb_prop in Hacc as [Hmin _].
    apply negb_true_iff, bool_decide_eq_false in Hne.
    apply negb_true_iff, Z.ltb_ge in Hmin.
    by split_and!.
  - cbv zeta.
    rewrite (RootMachine.try_transition_rejected cfg on_transition) by done.
    split_and!; [done|done|]. by left.
Qed.

(** Anti-flicker in [state_machine.py], over every entry point
    ([handle_event], [set_network_error], [clear_network_error], the idle
    watcher, [stop]): a call either leaves the state and its entry time
    alone, or it changes the state, and then the state it leaves had been
    held for at least [min_state_duration] and the entry time becomes the
    clock reading of the call. *)
Theorem root_state_is_held (m : StateMachine) (c : Spec.root_call) :
  let m' := Spec.root_step cfg on_transition m c in
  _state m' = _state m /\ _state_entered_at m' = _state_entered_at m
  \/ exists now,
       Spec.root_call_time c = Some now
       /\ _state m' <> _state m
       /\ min_state_duration cfg <= now - _state_entered_at m
       /\ _state_entered_at m' = now.
Proof.
  assert (Htry : forall now target m0,
    _state m0 = _state m -> _state_entered_at m0 = _state_entered_at m ->
    let m' := (_try_transition cfg on_transition now target m0).1 in
    _state m' = _state m /\ _state_entered_at m' = _state_entered_at m
    \/ _state m' <> _state m
       /\ min_state_duration cfg <= now - _state_entered_at m
       /\ _state_entered_at m' = now).
  { intros now target m0 Hs He. cbv zeta.
    destruct (try_transition_held now target m0) as (_ & _ & [[H1 H2]|H]).
    - left. by rewrite H1, H2.
    - right. destruct H as (H1 & H2 & H3 & H4).
      rewrite H1, <- Hs, <- He. by split_and!. }
  destruct c as [ta now ev|now|now|tc now|]; cbn [Spec.root_step Spec.root_call_time].
  - unfold handle_event.
    destruct (high_tokens (token_count ev)) as [b|e]; [|by left].
    destruct (if b then _ else _) as [target|]; [|by left].
    destruct (Htry now target
                (_restart_idle_timer (set_last_activity ta m)) eq_refl eq_refl)
      as [H|H]; [by left|right; by exists now].
  - destruct (Htry now LampState.NETWORK_ERROR m eq_refl eq_refl)
      as [H|H]; [by left|right; by exists now].
  - unfold clear_network_error. case_bool_decide; [|by left].
    destruct (Htry now LampState.IDLE m eq_refl eq_refl)
      as [H'|H']; [by left|right; by exists now].
  - unfold _idle_watcher. destruct (pending (_idle_task m)); [|by left].
    destruct (idle_timeout cfg <=? _); [|by left].
    pose proof (Htry now LampState.IDLE (set_idle_task (Some Finished) m)
                  eq_refl eq_refl) as H. cbv zeta in H.
    destruct (_try_transition _ _ _ _ _) as [m' [u|[]]];
      (destruct H as [H|H]; [by left|right; by exists now]).
  - unfold stop. destruct (pending (_idle_task m)); by left.
Qed.

Lemma try_transition_log_invariant now target m :
  Spec.root_log_invariant on_transition m ->
  Spec.root_log_invariant on_transition
    (_try_transition cfg on_transition now target m).1.
Proof.
  intros [Hchain Hnot].
  destruct (Spec.root_accepts cfg now target m) eqn:Hacc;
    [|by rewrite (RootMachine.try_transition_rejected cfg on_transition)].
  rewrite (RootMachine.try_transition_accepted cfg on_transition _ _ _ Hacc).
  cbv zeta.
  assert (Hne : _state m <> target).
  { unfold Spec.root_accepts in Hacc. apply andb_prop in Hacc as [_ Hne].
    apply negb_true_iff, bool_decide_eq_false in Hne. congruence. }
  assert (Hstep : Spec.chain LampState.IDLE
                    (Spec.logged_transitions m ++ [(_state m, target)]) target)
    by by apply chain_snoc.
  unfold Spec.root_log_invariant, Spec.logged_transitions in *.
  destruct on_transition as [f|].
  - destruct (f (_state m) target) as [|e];
      [|destruct (Py.is_Exception e)];
      cbn [fst _state notified logged commit record_call record_log];
      rewrite ?omap_app; cbn [omap Spec.transition_of];
      rewrite ?app_nil_r, Hnot; by split.
  - cbn [fst _state notified logged commit]. rewrite omap_app.
    cbn [omap Spec.transition_of]. by split.
Qed.

Lemma root_step_log_invariant m c :
  Spec.root_log_invariant on_transition m ->
  Spec.root_log_invariant on_transition (Spec.root_step cfg on_transition m c).
Proof.
  intros Hinv. destruct c as [ta now ev|now|now|tc now|]; simpl.
  - unfold handle_event.
    destruct (high_tokens (token_count ev)) as [b|e]; [|done].
    destruct (if b then _ else _) as [target|]; [|done].
    by apply try_transition_log_invariant.
  - by apply try_transition_log_invariant.
  - unfold clear_network_error. case_bool_decide; [|done].
    by apply try_transition_log_invariant.
  - unfold _idle_watcher. destruct (pending (_idle_task m)); [|done].
    destruct (idle_timeout cfg <=? _) eqn:E; [|done].
    pose proof (try_transition_log_invariant now LampState.IDLE
                  (set_idle_task (Some Finished) m) Hinv) as H.
    destruct (_try_transition _ _ _ _ _) as [m' [u|[]]]; exact H.
  - unfold stop. destruct (pending (_idle_task m)); done.
Qed.

(** In [state_machine.py], whatever calls the machine has served
    since its construction and whatever the observer did (returned or
    raised), the transitions on the log form a path from [IDLE] to the
    current state in which every step changes the state, and the observer,
    if there is one, has been called for exactly these transitions, in this
    order; without an observer nothing is called. *)
Theorem root_observer_sees_every_transition (calls : list Spec.root_call)
    (t0 t1 : Z) :
  let m := Spec.root_run cfg on_transition calls (__init__ t0 t1) in
  Spec.chain LampState.IDLE (Spec.logged_transitions m) (_state m)
  /\ notified m = match on_transition with
                  | Some _ => Spec.logged_transitions m
                  | None => []
                  end.
Proof.
  cbv zeta.
  assert (H : forall m, Spec.root_log_invariant on_transition m ->
                Spec.root_log_invariant on_transition
                  (Spec.root_run cfg on_transition calls m)).
  { induction calls as [|c calls' IH]; intros m Hinv; [done|].
    simpl. apply IH. by apply root_step_log_invariant. }
  apply H. split; [done|]. by destruct on_transition.
Qed.

(** The idle timeout of [state_machine.py].  After [handle_event]
    at activity time [t_act] (whatever the event, and whether or not the
    call raised), the watcher it scheduled leaves the machine alone when
    it wakes up less than [idle_timeout] after [t_act]; when it wakes up
    later and the state has been held for the minimum duration, the
    machine is in [IDLE] afterwards. *)
Theorem root_idle_timeout (calls : list Spec.root_call)
    (t0 t1 t_act now1 t_check now : Z) (event : Event) :
  let m := Spec.root_run cfg on_transition calls (__init__ t0 t1) in
  let m1 := (handle_event cfg on_transition t_act now1 event m).1 in
  let m2 := (_idle_watcher cfg on_transition t_check now m1).1 in
  (t_check - t_act < idle_timeout cfg ->
   _state m2 = _state m1 /\ notified m2 = notified m1)
  /\ (idle_timeout cfg <= t_check - t_act ->
      min_state_duration cfg <= now - _state_entered_at m1 ->
      _state m2 = LampState.IDLE).
Proof.
  intros m m1 m2.
  assert (Hkey : Spec.root_key_invariant m1).
  { apply (RootMachine.root_step_key_invariant cfg on_transition m
             (Spec.RootHandleEvent t_act now1 event)).
    apply RootMachine.root_run_key_invariant. exact I. }
  assert (Hm1 : _idle_task m1 = Some Sleeping /\ _last_activity m1 = t_act).
  { subst m1. unfold handle_event.
    destruct (high_tokens (token_count event)) as [b|e]; [|done].
    destruct (if b then _ else _) as [target|]; [|done].
    destruct (try_transition_held now1 target
                (_restart_idle_timer (set_last_activity t_act m)))
      as (Hi & Ha & _).
    by rewrite Hi, Ha. }
  destruct Hm1 as [Htask Hact].
  subst m2. unfold _idle_watcher. rewrite Htask. cbn [pending].
  cbn [_last_activity set_idle_task]. rewrite Hact.
  split.
  - intros Hearly. apply Z.leb_gt in Hearly. by rewrite Hearly.
  - intros Hlate Hmin. apply Z.leb_le in Hlate. rewrite Hlate.
    set (m1' := set_idle_task (Some Finished) m1).
    assert (Hstate : _state (_try_transition cfg on_transition now
                               LampState.IDLE m1').1 = LampState.IDLE).
    { destruct (Spec.root_accepts cfg now LampState.IDLE m1') eqn:Hacc.
      - by pose proof (RootMachine.try_transition_commits cfg on_transition
                         _ _ _ Hacc) as (Hs & _).
      - rewrite (RootMachine.try_transition_rejected cfg on_transition)
          by done.
        rewrite (RootMachine.root_debounce_guard_is_idle cfg) in Hacc
          by exact Hkey.
        cbn [_state _state_entered_at m1' set_idle_task] in Hacc |- *.
        apply andb_false_iff in Hacc as [Hacc|Hacc].
        + apply negb_false_iff, Z.ltb_lt in Hacc. lia.
        + apply negb_false_iff, bool_decide_eq_true in Hacc. done. }
    destruct (_try_transition _ _ _ _ _) as [m' [u|[]]]; exact Hstate.
Qed.

(** A token count that is truthy and no number makes [handle_event]
    raise [TypeError] at the comparison with the threshold: the activity
    time and the idle watcher are already renewed, no transition is
    attempted. *)
Lemma handle_event_type_error (t_act now : Z) (event : Event)
    (m : StateMachine) :
  Py.truthy (token_count event) = true ->
  Spec.is_number (token_count event) = false ->
  handle_event cfg on_transition t_act now event m
  = (_restart_idle_timer (set_last_activity t_act m), Py.Raise Py.TypeError).
Proof.
  intros Ht Hn. unfold handle_event, high_tokens. rewrite Ht.
  by destruct (token_count event).
Qed.

End Facts.

End Root_.

Module Clawbeam_.

Import Clawbeam.parser Clawbeam.state_machine.

Section Facts.

Variable cfg : StateMachineConfig.
Variable on_transition : option observer.

(** What an accepted request leaves behind, field by field. *)
Lemma do_transition_accepted_full now new m :
  Spec.clawbeam_accepts cfg now new m = true ->
  let m' := (_do_transition cfg on_transition now new m).1 in
  _state m' = new
  /\ _state_entered_at m' = now
  /\ _idle_task m'
     = (if bool_decide (new <> LampState.IDLE) && negb (idle_timeout cfg =? 0)
        then Some (Sleeping, new)
        else if idle_pending (_idle_task m) then None else _idle_task m)
  /\ notified m'
     = match on_transition with
       | Some _ => notified m ++ [(_state m, new)]
       | None => notified m
       end.
Proof.
  unfold Spec.clawbeam_accepts, _do_transition. intros H.
  destruct (bool_decide (_state m = new)); [discriminate H|].
  destruct (now - _state_entered_at m <? min_state_duration cfg);
    [discriminate H|].
  assert (Hdeb : match _last_transition_times m !! (_state m, new) with
                 | Some last => now - last <? debounce_window cfg
                 | None => false
                 end = false).
  { destruct (_last_transition_times m !! (_state m, new)) as [last|];
      [|done].
    destruct (now - last <? debounce_window cfg); [discriminate H|done]. }
  rewrite Hdeb.
  destruct on_transition as [f|]; [|done].
  destruct (f (_state m) new); done.
Qed.

Lemma do_transition_held now new m :
  let m' := (_do_transition cfg on_transition now new m).1 in
  _state m' = _state m /\ _state_entered_at m' = _state_entered_at m
  \/ _state m' <> _state m
     /\ min_state_duration cfg <= now - _state_entered_at m
     /\ _state_entered_at m' = now.
Proof.
  cbv zeta. destruct (Spec.clawbeam_accepts cfg now new m) eqn:Hacc.
  - right.
    pose proof (do_transition_accepted_full _ _ _ Hacc) as (Hs & He & _).
    unfold Spec.clawbeam_accepts in Hacc.
    apply andb_prop in Hacc as [Hacc _].
    apply andb_prop in Hacc as [Hne Hmin].
    apply negb_true_iff, bool_decide_eq_false in Hne.
    apply negb_true_iff, Z.ltb_ge in Hmin.
    rewrite Hs, He. split_and!; [congruence|done|done].
  - left.
    by rewrite (ClawbeamMachine.do_transition_rejected cfg on_transition).
Qed.

(** Anti-flicker in [clawbeam/state_machine.py], over every entry
    point: a call either leaves the state and its entry time alone, or it
    changes the state, and then the state it leaves had been held for at
    least [min_state_duration] and the entry time becomes the clock
    reading of the call. *)
Theorem clawbeam_state_is_held (m : StateMachine) (c : Spec.clawbeam_call) :
  let m' := Spec.clawbeam_step cfg on_transition m c in
  _state m' = _state m /\ _state_entered_at m' = _state_entered_at m
  \/ exists now,
       Spec.clawbeam_call_time c = Some now
       /\ _state m' <> _state m
       /\ min_state_duration cfg <= now - _state_entered_at m
       /\ _state_entered_at m' = now.
Proof.
  destruct c as [now ev|now|now|now|];
    cbn [Spec.clawbeam_step Spec.clawbeam_call_time].
  - destruct (do_transition_held now
                (default LampState.IDLE (mapping (event_type ev))) m)
      as [H|H]; [by left|right; by exists now].
  - destruct (do_transition_held now LampState.NETWORK_ERROR m)
      as [H|H]; [by left|right; by exists now].
  - destruct (do_transition_held now LampState.IDLE m)
      as [H|H]; [by left|right; by exists now].
  - unfold _idle_watcher.
    destruct (_idle_task m) as [[[] watched]|]; try by left.
    case_bool_decide as Hw; [|by left].
    match goal with
    | |- context [_do_transition _ _ _ _ ?m0] =>
        pose proof (do_transition_held now LampState.IDLE m0) as H'
    end.
    cbv zeta in H'.
    destruct (_do_transition _ _ _ _ _) as [m' [u|[]]];
      (destruct H' as [H'|H']; [by left|right; by exists now]).
  - unfold stop. destruct (_idle_task m) as [[[] watched]|]; by left.
Qed.

Lemma do_transition_record_invariant now new m :
  Spec.clawbeam_record_invariant on_transition m ->
  Spec.clawbeam_record_invariant on_transition
    (_do_transition cfg on_transition now new m).1.
Proof.
  intros Hinv.
  destruct (Spec.clawbeam_accepts cfg now new m) eqn:Hacc;
    [|by rewrite (ClawbeamMachine.do_transition_rejected cfg on_transition)].
  pose proof (do_transition_accepted_full _ _ _ Hacc) as (Hs & _ & _ & Hn).
  unfold Spec.clawbeam_record_invariant in *. cbv zeta in Hs, Hn.
  rewrite Hn, Hs. destruct on_transition; [|done].
  apply chain_snoc; [done|].
  unfold Spec.clawbeam_accepts in Hacc.
  apply andb_prop in Hacc as [Hacc _]. apply andb_prop in Hacc as [Hne _].
  by apply negb_true_iff, bool_decide_eq_false in Hne.
Qed.

Lemma clawbeam_step_record_invariant m c :
  Spec.clawbeam_record_invariant on_transition m ->
  Spec.clawbeam_record_invariant on_transition
    (Spec.clawbeam_step cfg on_transition m c).
Proof.
  intros Hinv. destruct c as [now ev|now|now|now|]; cbn [Spec.clawbeam_step].
  - by apply do_transition_record_invariant.
  - by apply do_transition_record_invariant.
  - by apply do_transition_record_invariant.
  - unfold _idle_watcher.
    destruct (_idle_task m) as [[[] watched]|]; try done.
    case_bool_decide as Hw; [|done].
    match goal with
    | |- context [_do_transition _ _ _ _ ?m0] =>
        pose proof (do_transition_record_invariant now LampState.IDLE m0 Hinv)
          as H'
    end.
    destruct (_do_transition _ _ _ _ _) as [m' [u|[]]]; exact H'.
  - unfold stop. destruct (_idle_task m) as [[[] watched]|]; done.
Qed.

(** In [clawbeam/state_machine.py], whatever calls the machine has
    served since its construction and whatever the observer did (returned
    or raised), the calls made to the observer form a path from [IDLE] to
    the current state in which every step changes the state: the observer
    has seen every change of state, in order, and nothing else.  Without
    an observer nothing is called. *)
Theorem clawbeam_observer_sees_every_transition
    (calls : list Spec.clawbeam_call) (t0 : Z) :
  let m := Spec.clawbeam_run cfg on_transition calls (__init__ t0) in
  match on_transition with
  | Some _ => Spec.chain LampState.IDLE (notified m) (_state m)
  | None => notified m = []
  end.
Proof.
  cbv zeta.
  assert (H : forall m, Spec.clawbeam_record_invariant on_transition m ->
                Spec.clawbeam_record_invariant on_transition
                  (Spec.clawbeam_run cfg on_transition calls m)).
  { induction calls as [|c calls' IH]; intros m Hinv; [done|].
    simpl. apply IH. by apply clawbeam_step_record_invariant. }
  apply (H (__init__ t0)). unfold Spec.clawbeam_record_invariant.
  by destruct on_transition.
Qed.

(** The idle return of [clawbeam/state_machine.py] counts from the
    last change of state, not from the last event.  After a transition
    into a state other than [IDLE], events that ask for that same state
    leave the machine exactly as it is, watcher included; when the watcher
    wakes up and the guards let the request for [IDLE] through, the
    machine is in [IDLE] afterwards. *)
Theorem clawbeam_idle_return_ignores_repeats (t now : Z) (new : LampState.t)
    (m : StateMachine) (calls : list Spec.clawbeam_call) :
  Spec.clawbeam_accepts cfg t new m = true ->
  new <> LampState.IDLE ->
  idle_timeout cfg <> 0 ->
  Forall (Spec.asks_for new) calls ->
  let m1 := (_do_transition cfg on_transition t new m).1 in
  let m2 := Spec.clawbeam_run cfg on_transition calls m1 in
  m2 = m1
  /\ _idle_task m2 = Some (Sleeping, new)
  /\ (Spec.clawbeam_accepts cfg now LampState.IDLE m1 = true ->
      _state (_idle_watcher cfg on_transition now m2).1 = LampState.IDLE).
Proof.
  intros Hacc Hnew Htimeout Hcalls m1 m2.
  pose proof (do_transition_accepted_full _ _ _ Hacc) as (Hs & _ & Hi & _).
  fold m1 in Hs, Hi.
  rewrite bool_decide_eq_true_2 in Hi by done.
  replace (idle_timeout cfg =? 0) with false in Hi
    by (symmetry; by apply Z.eqb_neq).
  cbn [negb andb] in Hi.
  assert (Hsame : m2 = m1).
  { subst m2. induction Hcalls as [|c calls' Hc _ IH]; [done|].
    cbn [Spec.clawbeam_run foldl]. fold (Spec.clawbeam_run cfg on_transition calls').
    destruct c as [tc ev| | | |]; try done. cbn [Spec.asks_for] in Hc.
    cbn [Spec.clawbeam_step]. unfold handle_event. rewrite Hc.
    unfold _do_transition at 1. rewrite bool_decide_eq_true_2 by done.
    exact IH. }
  rewrite Hsame. split_and!; [done|done|]. intros Hidle.
  unfold _idle_watcher. rewrite Hi, Hs. rewrite bool_decide_eq_true_2 by done.
  match goal with
  | |- context [_do_transition _ _ _ _ ?m0] => set (m1' := m0)
  end.
  assert (Hacc' : Spec.clawbeam_accepts cfg now LampState.IDLE m1' = true).
  { rewrite <- Hidle. unfold Spec.clawbeam_accepts. by rewrite Hs. }
  pose proof (do_transition_accepted_full _ _ _ Hacc') as (Hs' & _).
  destruct (_do_transition cfg on_transition now LampState.IDLE m1')
    as [m' [u|[]]]; exact Hs'.
Qed.

End Facts.

Lemma clawbeam_idle_return_witness :
  let user := Sample.clawbeam_event EventType.USER_INPUT None in
  let m1 := (_do_transition Sample.debounce_only (Some Sample.quiet) 1
               LampState.USER_INPUT (__init__ 0)).1 in
  let m2 := Spec.clawbeam_run Sample.debounce_only (Some Sample.quiet)
              [Spec.ClawbeamHandleEvent 2 user; Spec.ClawbeamHandleEvent 3 user]
              m1 in
  m2 = m1
  /\ _state (_idle_watcher Sample.debounce_only (Some Sample.quiet) 31 m2).1
     = LampState.IDLE.
Proof.
  intros user m1 m2.
  destruct (clawbeam_idle_return_ignores_repeats Sample.debounce_only
              (Some Sample.quiet) 1 31 LampState.USER_INPUT (__init__ 0)
              [Spec.ClawbeamHandleEvent 2 user; Spec.ClawbeamHandleEvent 3 user])
    as (Hsame & _ & Hidle).
  - reflexivity.
  - done.
  - done.
  - repeat constructor.
  - split; [exact Hsame|]. apply Hidle. reflexivity.
Defined.

End Clawbeam_.

End MachineInvariants.

(** ** The classifiers on object records, and what the root machine does
    with their events *)

Module RecordFacts.

Section Decoder.

Variable json_loads : string -> option Py.value.
Variable fromisoformat : string -> option datetime.
Variable str_of : Py.value -> string.
Variable int_of_str : string -> option Z.

Lemma root_classify_returns data role record_type :
  Spec.is_dict (Py.dict_get data "message" (Py.JDict ∅)) = true ->
  exists kind,
    Root.parser.classify (Py.JDict data) role record_type = Py.Ret kind
    /\ (snd kind = Root.parser.Severity.ERROR
        <-> fst kind = EventType.TOOL_RESULT_ERROR)
    /\ snd kind <> Root.parser.Severity.WARNING.
Proof.
  intros Hmsg. unfold Root.parser.classify.
  destruct (String.eqb role "user" || String.eqb record_type "user");
    [by eexists; split; [reflexivity|]|].
  destruct (String.eqb record_type "tool_call"
            || String.eqb record_type "toolcall"
            || String.eqb role "toolcall");
    [by eexists; split; [reflexivity|]|].
  destruct (String.eqb record_type "tool_result"
            || String.eqb record_type "toolresult"
            || String.eqb role "toolresult").
  - unfold Root.parser._detect_error. cbn [Py.get].
    unfold mbind, outcome_bind, mret, outcome_ret. cbn [Py.bind].
    destruct (Py.dict_get data "message" (Py.JDict ∅)) as [| | | | | |msg];
      try done.
    cbn [Py.get Py.bind].
    destruct (Py.dict_get msg "content" (Py.JStr EmptyString));
      cbn [Py.bind]; try (by eexists; split; [reflexivity|]).
    match goal with
    | |- context [if ?b then _ else _] =>
        destruct b; by eexists; split; [reflexivity|]
    end.
  - destruct (String.eqb role "assistant" || String.eqb record_type "assistant");
      by eexists; split; [reflexivity|].
Qed.

Lemma is_empty_false (text : string) :
  text <> EmptyString -> Str.is_empty text = false.
Proof. by destruct text. Qed.

(** What [parser.py] does with an object record, case by case. *)
Lemma root_parse_line_object uuid4_hex now line d :
  Str.strip line <> EmptyString ->
  json_loads (Str.strip line) = Some (Py.JDict d) ->
  match Root.parser.parse_line json_loads fromisoformat str_of uuid4_hex now
          line with
  | Py.Ret (Some e) =>
      Spec.root_malformed d = false
      /\ Root.parser.raw_payload e = Py.JDict d
      /\ Root.parser.token_count e
         = match Py.dict_get d "usage" (Py.JDict ∅) with
           | Py.JDict u =>
               Py.or_ (Py.dict_get u "total_tokens" Py.JNull)
                      (Py.dict_get u "totalTokens" Py.JNull)
           | _ => Py.JNull
           end
      /\ (Root.parser.severity e = Root.parser.Severity.ERROR
          <-> Root.parser.event_type e = EventType.TOOL_RESULT_ERROR)
      /\ Root.parser.severity e <> Root.parser.Severity.WARNING
  | Py.Ret None => False
  | Py.Raise exn => Spec.root_malformed d = true /\ exn = Py.AttributeError
  end.
Proof.
  intros Hne Hdec. unfold Root.parser.parse_line, Spec.root_malformed.
  rewrite (is_empty_false _ Hne), Hdec. cbn [Py.get].
  unfold mbind, outcome_bind, mret, outcome_ret. cbn [Py.bind].
  destruct (Py.dict_get d "message" (Py.JDict ∅)) as [| | | | | |msg] eqn:Hmsg;
    try done.
  cbn [Py.get Py.bind].
  destruct (Py.dict_get msg "role" (Py.JStr EmptyString)) as [| | | |role| |];
    try done.
  cbn [Str.lower_of Py.bind Spec.is_str negb orb].
  destruct (Py.dict_get d "type" (Py.JStr EmptyString)) as [| | | |rt| |];
    try done.
  cbn [Str.lower_of Py.bind Spec.is_str negb].
  destruct (root_classify_returns d (Str.lower role) (Str.lower rt))
    as (kind & Hkind & Hsev & Hwarn); [by rewrite Hmsg|].
  rewrite Hkind. cbn [Py.bind Root.parser.raw_payload Root.parser.token_count
                      Root.parser.severity Root.parser.event_type].
  by split_and!.
Qed.

(** [parse_line] of [parser.py] on a line that decodes to an
    object: it raises, and then [AttributeError], exactly when the
    [message] is present and no object, or the message's [role] is
    present and no text, or the [type] is present and no text; on every
    other object it returns an event, never [None].  The event carries
    the record, its severity is [ERROR] exactly when its kind is
    [TOOL_RESULT_ERROR], and is never [WARNING]. *)
Theorem root_parse_line_on_objects uuid4_hex now line d :
  Str.strip line <> EmptyString ->
  json_loads (Str.strip line) = Some (Py.JDict d) ->
  match Root.parser.parse_line json_loads fromisoformat str_of uuid4_hex now
          line with
  | Py.Ret (Some e) =>
      Spec.root_malformed d = false
      /\ Root.parser.raw_payload e = Py.JDict d
      /\ (Root.parser.severity e = Root.parser.Severity.ERROR
          <-> Root.parser.event_type e = EventType.TOOL_RESULT_ERROR)
      /\ Root.parser.severity e <> Root.parser.Severity.WARNING
  | Py.Ret None => False
  | Py.Raise exn => Spec.root_malformed d = true /\ exn = Py.AttributeError
  end.
Proof.
  intros Hne Hdec.
  pose proof (root_parse_line_object uuid4_hex now line d Hne Hdec) as H.
  destruct (Root.parser.parse_line _ _ _ _ _ _) as [[e|]|exn]; [|done|done].
  destruct H as (? & ? & _ & ? & ?). by split_and!.
Qed.

(** [parse_line] of [clawbeam/parser.py] on a line that decodes to
    an object: it raises, and then [AttributeError], exactly when the
    [type] is ["tool_result"] and the [message] is truthy and no object;
    on every other object it returns an event, never [None], whose
    severity is [ERROR] exactly when its kind is [TOOL_RESULT_ERROR]. *)
Theorem clawbeam_parse_line_on_objects now line d :
  Str.strip line <> EmptyString ->
  json_loads line = Some (Py.JDict d) ->
  match Clawbeam.parser.parse_line json_loads fromisoformat int_of_str now
          line with
  | Py.Ret (Some e) =>
      Spec.clawbeam_malformed d = false
      /\ (Clawbeam.parser.severity e = Clawbeam.parser.Severity.ERROR
          <-> Clawbeam.parser.event_type e = EventType.TOOL_RESULT_ERROR)
  | Py.Ret None => False
  | Py.Raise exn =>
      Spec.clawbeam_malformed d = true /\ exn = Py.AttributeError
  end.
Proof.
  intros Hne Hdec. unfold Clawbeam.parser.parse_line, Spec.clawbeam_malformed.
  assert (Hl : Str.is_empty line = false).
  { destruct line; [|done]. by vm_compute in Hne. }
  rewrite Hl, (is_empty_false _ Hne), Hdec. cbn [orb Py.get].
  unfold mbind, outcome_bind, mret, outcome_ret. cbn [Py.bind].
  set (T := Py.dict_get d "type" Py.JNull).
  set (M := Py.dict_get d "message" (Py.JDict ∅)).
  assert (Hempty : Py.truthy (Py.JDict ∅) = false).
  { cbn [Py.truthy]. by rewrite map_to_list_empty. }
  destruct (Str.eq_lit T "tool_result") eqn:Htr.
  - destruct T as [| | | |kind| |]; try discriminate Htr.
    apply String.eqb_eq in Htr. subst kind.
    unfold Clawbeam.parser._map_type.
    change (Py.truthy (Py.JStr "tool_result")) with true.
    change (Str.eq_lit (Py.JStr "tool_result") "user") with false.
    change (Str.eq_lit (Py.JStr "tool_result") "assistant") with false.
    change (Str.eq_lit (Py.JStr "tool_result") "tool_call") with false.
    change (Str.eq_lit (Py.JStr "tool_result") "tool_result") with true.
    cbn [negb andb]. unfold mbind, outcome_bind, mret, outcome_ret.
    assert (Hor : Py.or_ (Py.or_ M (Py.JDict ∅)) (Py.JDict ∅)
                  = if Py.truthy M then M else Py.JDict ∅).
    { unfold Py.or_. destruct (Py.truthy M) eqn:HM; by rewrite ?HM, ?Hempty. }
    rewrite Hor. destruct (Py.truthy M) eqn:HM.
    + destruct M as [| | | | | |msg]; cbn [Py.get Py.bind];
        try (by split).
      cbn [Spec.is_dict negb andb].
      destruct (Py.dict_get msg "content" (Py.JStr EmptyString));
        cbn [Py.bind Clawbeam.parser.severity Clawbeam.parser.event_type
             fst snd];
        try (by split).
      destruct (Str.startswith _ _);
        cbn [Py.bind Clawbeam.parser.severity Clawbeam.parser.event_type
             fst snd];
        by split.
    + cbn [Py.get Py.bind]. unfold Py.dict_get at 1. rewrite lookup_empty.
      change (Str.startswith (Str.lower EmptyString) "error") with false.
      cbn [Py.bind andb Clawbeam.parser.severity Clawbeam.parser.event_type
           fst snd].
      by split.
  - cbn [andb].
    assert (Hret : exists kind,
      Clawbeam.parser._map_type T (Py.or_ M (Py.JDict ∅)) = Py.Ret kind
      /\ (snd kind = Clawbeam.parser.Severity.ERROR
          <-> fst kind = EventType.TOOL_RESULT_ERROR)).
    { unfold Clawbeam.parser._map_type. rewrite Htr.
      destruct (negb (Py.truthy T)); [by eexists; split; [reflexivity|]|].
      destruct (Str.eq_lit T "user"); [by eexists; split; [reflexivity|]|].
      destruct (Str.eq_lit T "assistant");
        [by eexists; split; [reflexivity|]|].
      destruct (Str.eq_lit T "tool_call");
        by eexists; split; [reflexivity|]. }
    destruct Hret as (kind & -> & Hsev). cbn [Py.bind]. by split.
Qed.

(** [parse_line] of [parser.py] followed by [handle_event] of
    [state_machine.py]: a well-formed record whose [usage.total_tokens]
    is a non-empty text is turned into an event, and [handle_event] of
    that event raises [TypeError] at the comparison with the threshold,
    after renewing the activity time and the idle watcher and before any
    transition. *)
Theorem root_text_token_count_raises (cfg : StateMachineConfig)
    (on_transition : option observer) uuid4_hex now line d u text
    (t_act t_now : Z) (m : Root.state_machine.StateMachine) :
  Str.strip line <> EmptyString ->
  json_loads (Str.strip line) = Some (Py.JDict d) ->
  Spec.root_malformed d = false ->
  d !! "usage"%string = Some (Py.JDict u) ->
  u !! "total_tokens"%string = Some (Py.JStr text) ->
  text <> EmptyString ->
  exists e,
    Root.parser.parse_line json_loads fromisoformat str_of uuid4_hex now line
    = Py.Ret (Some e)
    /\ Root.parser.token_count e = Py.JStr text
    /\ Root.state_machine.handle_event cfg on_transition t_act t_now e m
       = (Root.state_machine._restart_idle_timer
            (Root.state_machine.set_last_activity t_act m),
          Py.Raise Py.TypeError).
Proof.
  intros Hne Hdec Hwell Husage Htokens Htext.
  pose proof (root_parse_line_object uuid4_hex now line d Hne Hdec) as H.
  destruct (Root.parser.parse_line _ _ _ _ _ _) as [[e|]|exn];
    [|done|destruct H; congruence].
  destruct H as (_ & _ & Htc & _).
  assert (Htruthy : Py.truthy (Py.JStr text) = true).
  { cbn [Py.truthy]. apply negb_true_iff, String.eqb_neq. done. }
  assert (He : Root.parser.token_count e = Py.JStr text).
  { rewrite Htc. unfold Py.dict_get. rewrite Husage, Htokens.
    unfold Py.or_. by rewrite Htruthy. }
  exists e. split_and!; [done|done|].
  apply MachineInvariants.Root_.handle_event_type_error; by rewrite He.
Qed.

End Decoder.

Lemma root_parse_line_on_objects_witness :
  match Root.parser.parse_line Sample.json_loads Sample.fromisoformat
          Sample.str_of Sample.uuid4_hex Sample.now Sample.user_line with
  | Py.Ret (Some e) =>
      Root.parser.event_type e = EventType.USER_INPUT
      /\ Root.parser.severity e <> Root.parser.Severity.WARNING
  | _ => False
  end.
Proof.
  pose proof (root_parse_line_on_objects Sample.json_loads
                Sample.fromisoformat Sample.str_of Sample.uuid4_hex
                Sample.now Sample.user_line
                {[ "type"%string := Py.JStr "user" ]}) as H.
  destruct (Root.parser.parse_line _ _ _ _ _ _) as [[e|]|exn] eqn:E.
  - split; [by vm_compute in E; injection E as <-|].
    apply H; [by vm_compute|reflexivity].
  - by vm_compute in E.
  - by vm_compute in E.
Defined.

Lemma clawbeam_parse_line_on_objects_witness :
  match Clawbeam.parser.parse_line Sample.json_loads Sample.fromisoformat
          Sample.int_of_str Sample.now Sample.user_line with
  | Py.Ret (Some e) =>
      Clawbeam.parser.severity e = Clawbeam.parser.Severity.ERROR
      <-> Clawbeam.parser.event_type e = EventType.TOOL_RESULT_ERROR
  | _ => False
  end.
Proof.
  pose proof (clawbeam_parse_line_on_objects Sample.json_loads
                Sample.fromisoformat Sample.int_of_str Sample.now
                Sample.user_line {[ "type"%string := Py.JStr "user" ]}) as H.
  destruct (Clawbeam.parser.parse_line _ _ _ _ _) as [[e|]|exn] eqn:E.
  - apply H; [by vm_compute|reflexivity].
  - by vm_compute in E.
  - by vm_compute in E.
Defined.

Lemma root_text_token_count_witness :
  exists e,
    Root.parser.parse_line Sample.json_loads_tokens Sample.fromisoformat
      Sample.str_of Sample.uuid4_hex Sample.now Sample.text_tokens_line
    = Py.Ret (Some e)
    /\ Root.parser.token_count e = Py.JStr "5000"
    /\ Root.state_machine.handle_event Sample.no_guards (Some Sample.quiet)
         1 1 e (Root.state_machine.__init__ 0 0)
       = (Root.state_machine._restart_idle_timer
            (Root.state_machine.set_last_activity 1
               (Root.state_machine.__init__ 0 0)),
          Py.Raise Py.TypeError).
Proof.
  apply (root_text_token_count_raises Sample.json_loads_tokens
           Sample.fromisoformat Sample.str_of Sample.no_guards
           (Some Sample.quiet) Sample.uuid4_hex Sample.now
           Sample.text_tokens_line Sample.text_tokens_record
           Sample.text_tokens_usage "5000").
  - by vm_compute.
  - reflexivity.
  - reflexivity.
  - reflexivity.
  - reflexivity.
  - done.
Defined.

End RecordFacts.

(** ** The rate limiter and the health probe of [clawbeam/wled_client.py] *)

Module RateLimitFacts.

Import Clawbeam.wled_client.

Lemma clock_after_app t es1 es2 :
  Spec.clock_after t (es1 ++ es2)
  = Spec.clock_after (Spec.clock_after t es1) es2.
Proof. apply foldl_app. Qed.

Lemma request_times_app t es1 es2 :
  Spec.request_times t (es1 ++ es2)
  = Spec.request_times t es1
    ++ Spec.request_times (Spec.clock_after t es1) es2.
Proof.
  revert t. induction es1 as [|e es1 IH]; intros t; [done|].
  destruct e as [d|r|d]; cbn [app Spec.request_times Spec.clock_after foldl];
    rewrite IH; cbn [Spec.duration]; try done.
  by rewrite Z.add_0_r.
Qed.

Lemma request_times_length t es :
  List.length (Spec.request_times t es)
  = List.length (filter (fun e => is_request e = true) es).
Proof.
  revert t. induction es as [|e es IH]; intros t; [done|].
  destruct e as [d|r|d]; cbn [Spec.request_times List.length].
  - rewrite filter_cons_False by done. apply IH.
  - rewrite filter_cons_True by done. cbn [List.length]. by rewrite IH.
  - rewrite filter_cons_False by done. apply IH.
Qed.

Lemma spaced_snoc gap previous times t :
  Spec.spaced gap previous times ->
  default previous (last times) + gap <= t ->
  Spec.spaced gap previous (times ++ [t]).
Proof.
  revert previous. induction times as [|u times IH]; intros previous Hs Ht.
  - cbn in *. done.
  - cbn [app Spec.spaced] in *. destruct Hs as [Hu Hs]. split; [done|].
    apply IH; [done|]. destruct times as [|v times]; [done|].
    change (last (u :: v :: times)) with (last (v :: times)) in Ht.
    destruct (last (v :: times)) eqn:E; [done|].
    by apply last_None in E.
Qed.

Section Device.

Variable device : nat -> request -> response.

Lemma attempted_rate_invariant c0 req c :
  Spec.rate_invariant c0 c ->
  Spec.rate_invariant c0 (Spec.attempted device req c).
Proof.
  unfold Spec.rate_invariant. cbv zeta. intros (Hmin & Hclock & Hsp & Hlast).
  unfold Spec.attempted, send, _rate_limit. cbn [snd].
  destruct (clock c - _last_request_time c <? _min_interval c) eqn:E;
    cbn [sleep set_last_request_time _min_interval clock effects
         _last_request_time].
  - apply Z.ltb_lt in E.
    rewrite <- !app_assoc, !request_times_app, !clock_after_app.
    cbn [app Spec.request_times Spec.clock_after foldl Spec.duration].
    rewrite <- Hclock, last_snoc. cbn [default].
    split_and!; [done|lia|apply spaced_snoc; [done|lia]|done].
  - apply Z.ltb_ge in E.
    rewrite !request_times_app, !clock_after_app.
    cbn [app Spec.request_times Spec.clock_after foldl Spec.duration].
    rewrite <- Hclock, last_snoc. cbn [default].
    split_and!; [done|lia|apply spaced_snoc; [done|lia]|done].
Qed.

Lemma backoff_rate_invariant c0 d c :
  Spec.rate_invariant c0 c ->
  Spec.rate_invariant c0 (sleep (BackoffSleep d) d c).
Proof.
  unfold Spec.rate_invariant. cbv zeta. intros (Hmin & Hclock & Hsp & Hlast).
  cbn [sleep _min_interval clock effects _last_request_time].
  rewrite request_times_app, clock_after_app.
  cbn [Spec.request_times Spec.clock_after foldl Spec.duration].
  rewrite app_nil_r, <- Hclock. by split_and!.
Qed.

Lemma post_loop_rate_invariant c0 attempts u payload c :
  Spec.rate_invariant c0 c ->
  Spec.rate_invariant c0 (_post_loop device attempts u payload c).2.
Proof.
  revert c. induction attempts as [|attempt attempts IH]; intros c Hinv;
    [done|].
  rewrite WledFacts.post_loop_cons. cbv zeta.
  pose proof (attempted_rate_invariant c0 (POST u payload) c Hinv) as H1.
  destruct (succeeded _); [done|]. apply IH.
  destruct (attempt <? MAX_RETRIES); [|done].
  by apply backoff_rate_invariant.
Qed.

Lemma ping_attempted c :
  (ping device c).2
  = set_healthy (ping device c).1 (Spec.attempted device (GET _info_url) c).
Proof.
  unfold ping, Spec.attempted, send. cbn [fst snd].
  by destruct (device _ _).
Qed.

Lemma wled_step_rate_invariant c0 c call :
  Spec.rate_invariant c0 c ->
  Spec.rate_invariant c0 (Spec.wled_step device c call).
Proof.
  intros Hinv. destruct call as [payload|preset_id|]; cbn [Spec.wled_step].
  - by apply post_loop_rate_invariant.
  - by apply post_loop_rate_invariant.
  - rewrite ping_attempted.
    by apply (attempted_rate_invariant c0 (GET _info_url) c).
Qed.

(** The rate limiter of [clawbeam/wled_client.py].  On a client
    with no request behind it, whatever sequence of [apply_state],
    [apply_preset] and [ping] calls is made and whatever the device
    answers, two successive requests are never handed to the HTTP client
    less than [_min_interval] apart on the client's clock, retries
    included, and the first one not less than [_min_interval] after the
    initial [_last_request_time].  The clock is moved by the client's own
    sleeps only. *)
Theorem requests_are_rate_limited (calls : list Spec.wled_call)
    (c0 : WledClient) :
  effects c0 = [] ->
  let c := Spec.wled_run device calls c0 in
  Spec.spaced (_min_interval c0) (_last_request_time c0)
    (Spec.request_times (clock c0) (effects c))
  /\ List.length (Spec.request_times (clock c0) (effects c))
     = List.length (requests c)
  /\ _last_request_time c
     = default (_last_request_time c0)
         (last (Spec.request_times (clock c0) (effects c))).
Proof.
  intros Hfresh. cbv zeta.
  assert (H : forall c, Spec.rate_invariant c0 c ->
                Spec.rate_invariant c0 (Spec.wled_run device calls c)).
  { induction calls as [|call calls' IH]; intros c Hinv; [done|].
    cbn. apply IH. by apply wled_step_rate_invariant. }
  destruct (H c0) as (_ & _ & Hsp & Hlast).
  { unfold Spec.rate_invariant. rewrite Hfresh. by cbn. }
  split_and!; [done|apply request_times_length|done].
Qed.

(** [ping] makes exactly one request, a GET of the info URL, and
    never retries or backs off, whatever the answer; afterwards
    [_healthy] is the value it returns. *)
Theorem ping_is_a_single_probe (c : WledClient) :
  let r := ping device c in
  requests r.2 = requests c ++ [Request (GET _info_url)]
  /\ Spec.visible r.2 = Spec.visible c ++ [Request (GET _info_url)]
  /\ backoffs r.2 = backoffs c
  /\ _healthy r.2 = r.1.
Proof.
  cbv zeta. rewrite ping_attempted.
  destruct (WledFacts.attempted_observed device (GET _info_url) c)
    as (Hr & Hv & _).
  change (requests (set_healthy ?b ?c1)) with (requests c1).
  change (Spec.visible (set_healthy ?b ?c1)) with (Spec.visible c1).
  change (backoffs (set_healthy ?b ?c1)) with (backoffs c1).
  split_and!; [done|done| |done].
  unfold Spec.attempted, send, _rate_limit, backoffs. cbn [snd effects].
  destruct (clock c - _last_request_time c <? _min_interval c);
    cbn [sleep set_last_request_time effects];
    rewrite ?omap_app; cbn [omap backoff_of]; by rewrite ?app_nil_r.
Qed.

End Device.

Lemma requests_are_rate_limited_witness :
  let c := Spec.wled_run (Sample.failing_first 1)
             [Spec.WledApplyState Sample.payload; Spec.WledPing]
             Sample.client in
  Spec.request_times 5000 (effects c) = [5000; 6000; 6200]
  /\ Spec.spaced 200 0 (Spec.request_times 5000 (effects c)).
Proof.
  split; [reflexivity|].
  apply (requests_are_rate_limited (Sample.failing_first 1)
           [Spec.WledApplyState Sample.payload; Spec.WledPing] Sample.client).
  reflexivity.
Defined.

End RateLimitFacts.

(** ** The table of effects of [config.py] and its use in [clawbeam/main.py] *)

Module ConfigFacts.

Import config.

Lemma merge_lookup (base override : gmap string Py.value) (key : string) :
  _merge base override !! key =
  match override !! key with
  | None => base !! key
  | Some (Py.JDict val) =>
      match base !! key with
      | Some (Py.JDict nested) => Some (Py.JDict (_merge nested val))
      | _ => Some (Py.JDict val)
      end
  | Some val => Some val
  end.
Proof.
  unfold _merge at 1. cbn [merge_into]. revert key.
  apply (map_fold_weak_ind (fun acc items => forall key, acc !! key =
    match items !! key with
    | None => base !! key
    | Some (Py.JDict val) =>
        match base !! key with
        | Some (Py.JDict nested) => Some (Py.JDict (_merge nested val))
        | _ => Some (Py.JDict val)
        end
    | Some val => Some val
    end)).
  - intros key. by rewrite lookup_empty.
  - intros k val items acc Hk IH key.
    destruct (decide (key = k)) as [->|Hne].
    + rewrite lookup_insert_eq. pose proof (IH k) as Hacc.
      rewrite Hk in Hacc. rewrite Hacc.
      destruct val as [| | | | | |v]; rewrite ?lookup_insert_eq; try done.
      destruct (base !! k) as [[| | | | | |b]|]; by rewrite lookup_insert_eq.
    + rewrite lookup_insert_ne by done. rewrite <- IH.
      destruct val as [| | | | | |v]; rewrite ?lookup_insert_ne; try done.
      destruct (acc !! k) as [[| | | | | |b]|]; by rewrite lookup_insert_ne.
Qed.

Lemma truthy_dict (d : gmap string Py.value) (key : string) :
  is_Some (d !! key) -> Py.truthy (Py.JDict d) = true.
Proof.
  intros [v Hv]. cbn [Py.truthy].
  destruct (map_to_list d) as [|entry entries] eqn:E; [|done].
  apply map_to_list_empty_iff in E. subst d. by rewrite lookup_empty in Hv.
Qed.

Lemma post_init_empty : __post_init__ ∅ = _default_state_effects.
Proof.
  unfold __post_init__. cbn [Py.truthy]. by rewrite map_to_list_empty.
Qed.

(** Every state has an effect in the default table, an object with the
    key ["on"]. *)
Lemma default_effect (state : LampState.t) :
  exists defaults,
    _default_state_effects !! LampState.value state = Some (Py.JDict defaults)
    /\ is_Some (defaults !! "on"%string).
Proof.
  destruct state; eexists; (split; [vm_compute; reflexivity|]);
    vm_compute; eauto.
Qed.

(** [_merge], key by key.  A key the override does not have keeps
    the entry of the base.  A key the override gives an object for gets
    the merge of the two objects when the base has an object there too,
    and the override's object otherwise.  A key the override gives
    anything else for gets the override's value. *)
Theorem merge_key_by_key (base override : gmap string Py.value)
    (key : string) :
  _merge base override !! key =
  match override !! key with
  | None => base !! key
  | Some (Py.JDict val) =>
      match base !! key with
      | Some (Py.JDict nested) => Some (Py.JDict (_merge nested val))
      | _ => Some (Py.JDict val)
      end
  | Some val => Some val
  end.
Proof. apply merge_lookup. Qed.

Section Device.

Variable device : nat -> Clawbeam.wled_client.request
                  -> Clawbeam.wled_client.response.

(** Overriding part of a state's effect keeps the lamp driven.
    When the [state_effects] of the YAML mapping say nothing about a
    state, or give an object for it, the table [load_config] builds holds
    an object for that state which has every key of the default payload
    (the default payload itself when nothing or an empty object was
    given), and [_apply_effect] posts it: its result and its requests are
    those of [apply_state] on that payload. *)
Theorem overridden_state_is_still_driven (raw override : gmap string Py.value)
    (state : LampState.t) (c : Clawbeam.wled_client.WledClient) :
  raw !! "state_effects"%string = Some (Py.JDict override) ->
  (override !! LampState.value state = None
   \/ exists val, override !! LampState.value state = Some (Py.JDict val)) ->
  exists state_effects defaults payload,
    load_state_effects raw = Py.Ret state_effects
    /\ _default_state_effects !! LampState.value state
       = Some (Py.JDict defaults)
    /\ state_effects !! LampState.value state = Some (Py.JDict payload)
    /\ (forall key, is_Some (defaults !! key) -> is_Some (payload !! key))
    /\ (override !! LampState.value state = None
        \/ override !! LampState.value state = Some (Py.JDict ∅) ->
        payload = defaults)
    /\ main._apply_effect device state_effects (Some c) state
       = ((Clawbeam.wled_client.apply_state device (Py.JDict payload) c).1,
          Some (Clawbeam.wled_client.apply_state device
                  (Py.JDict payload) c).2).
Proof.
  intros Hraw Hentry.
  destruct (default_effect state) as (defaults & Hdef & Hon).
  assert (Hpayload : exists payload,
    _merge _default_state_effects override !! LampState.value state
      = Some (Py.JDict payload)
    /\ (forall key, is_Some (defaults !! key) -> is_Some (payload !! key))
    /\ (override !! LampState.value state = None
        \/ override !! LampState.value state = Some (Py.JDict ∅) ->
        payload = defaults)).
  { rewrite merge_lookup, Hdef.
    destruct Hentry as [Hnone|[val Hval]].
    - rewrite Hnone. exists defaults. split_and!; done.
    - rewrite Hval. exists (_merge defaults val). split_and!; [done| |].
      + intros key Hkey. rewrite merge_lookup.
        destruct (val !! key) as [[| | | | | |v]|]; try done.
        destruct (defaults !! key) as [[| | | | | |b]|]; done.
      + intros [Hnone|Hempty]; [done|]. injection Hempty as ->.
        unfold _merge. cbn [merge_into]. apply map_fold_empty. }
  destruct Hpayload as (payload & Hlook & Hkeys & Hsame).
  exists (_merge _default_state_effects override), defaults, payload.
  split_and!; try done.
  - unfold load_state_effects. by rewrite Hraw, post_init_empty.
  - unfold main._apply_effect, Py.dict_get. rewrite Hlook.
    rewrite (truthy_dict payload "on") by (by apply Hkeys).
    cbn [negb]. by destruct (Clawbeam.wled_client.apply_state _ _ _).
Qed.

(** Overriding a state's effect with a falsy value that is no
    object ([null], [false], [0], an empty text or list) silences the
    state: the table holds that value, and [_apply_effect] reports
    success without touching the client, so no request is made and no
    network error can follow. *)
Theorem falsy_override_silences_state (raw override : gmap string Py.value)
    (state : LampState.t) (val : Py.value)
    (_wled : option Clawbeam.wled_client.WledClient) :
  raw !! "state_effects"%string = Some (Py.JDict override) ->
  override !! LampState.value state = Some val ->
  Spec.is_dict val = false ->
  Py.truthy val = false ->
  exists state_effects,
    load_state_effects raw = Py.Ret state_effects
    /\ state_effects !! LampState.value state = Some val
    /\ main._apply_effect device state_effects _wled state = (true, _wled).
Proof.
  intros Hraw Hval Hdict Hfalsy.
  exists (_merge _default_state_effects override).
  assert (Hlook : _merge _default_state_effects override
                    !! LampState.value state = Some val).
  { rewrite merge_lookup, Hval. by destruct val. }
  split_and!; [|done|].
  - unfold load_state_effects. by rewrite Hraw, post_init_empty.
  - unfold main._apply_effect, Py.dict_get. by rewrite Hlook, Hfalsy.
Qed.

End Device.

Lemma overridden_state_witness :
  exists state_effects defaults payload,
    load_state_effects Sample.dim_idle_raw = Py.Ret state_effects
    /\ _default_state_effects !! LampState.value LampState.IDLE
       = Some (Py.JDict defaults)
    /\ state_effects !! LampState.value LampState.IDLE
       = Some (Py.JDict payload)
    /\ (forall key, is_Some (defaults !! key) -> is_Some (payload !! key))
    /\ (Sample.dim_idle !! LampState.value LampState.IDLE = None
        \/ Sample.dim_idle !! LampState.value LampState.IDLE
           = Some (Py.JDict ∅) ->
        payload = defaults)
    /\ main._apply_effect (Sample.answering 200) state_effects
         (Some Sample.client) LampState.IDLE
       = ((Clawbeam.wled_client.apply_state (Sample.answering 200)
             (Py.JDict payload) Sample.client).1,
          Some (Clawbeam.wled_client.apply_state (Sample.answering 200)
                  (Py.JDict payload) Sample.client).2).
Proof.
  apply (overridden_state_is_still_driven (Sample.answering 200)
           Sample.dim_idle_raw Sample.dim_idle LampState.IDLE Sample.client).
  - reflexivity.
  - right. by eexists.
Defined.

Lemma falsy_override_witness :
  exists state_effects,
    load_state_effects Sample.null_idle_raw = Py.Ret state_effects
    /\ state_effects !! "IDLE"%string = Some Py.JNull
    /\ main._apply_effect (Sample.answering 500) state_effects
         (Some Sample.client) LampState.IDLE
       = (true, Some Sample.client).
Proof.
  apply (falsy_override_silences_state (Sample.answering 500)
           Sample.null_idle_raw Sample.null_idle LampState.IDLE Py.JNull
           (Some Sample.client)); reflexivity.
Defined.

End ConfigFacts.

(** ** The tailers on a file read in text mode *)

Module TextModeFacts.

Section Decoder.

Variable decode : string -> option string.

Lemma read_text_appended (appended : string) (fh : File.handle) :
  File.cursor fh = String.length (File.written fh) ->
  exists fh',
    TextIO.read decode (File.append appended fh)
    = (TextIO.translate_newlines <$> decode appended, fh')
    /\ File.cursor fh' = String.length (File.written fh').
Proof.
  intros Hc. unfold TextIO.read.
  destruct (TailFacts.read_appended appended fh Hc) as [Hdata Hc'].
  destruct (File.read (File.append appended fh)) as [data fh'].
  cbn [fst snd] in Hdata, Hc'. subst data. by exists fh'.
Qed.

Section Drain.

Variable drain : string -> list string * string.

Hypothesis drain_lines :
  forall buffer, Spec.lines_of buffer (drain buffer).1 (drain buffer).2.

Lemma tail_loop_text (polls texts : list string) :
  Forall2 (Spec.reads_as decode) polls texts ->
  forall fh buffer,
    File.cursor fh = String.length (File.written fh) ->
    Spec.has_newline buffer = false ->
    exists lines rest,
      Spec.lines_of (buffer +:+ Spec.joined texts) lines rest
      /\ TextIO.tail_loop decode drain fh buffer polls
         = (lines, TextIO.Stopped rest)
      /\ forall bad more,
           decode bad = None ->
           TextIO.tail_loop decode drain fh buffer (polls ++ bad :: more)
           = (lines, TextIO.UnicodeDecodeError).
Proof.
  induction 1 as [|appended text polls texts Hread _ IH]; intros fh buffer Hc Hb.
  - exists [], buffer. split_and!.
    + unfold Spec.lines_of. cbn [Spec.unlines Spec.joined].
      by rewrite TailFacts.str_app_nil_l, TailFacts.str_app_nil_r.
    + done.
    + intros bad more Hbad. cbn [app TextIO.tail_loop].
      destruct (read_text_appended bad fh Hc) as (fh' & -> & _).
      by rewrite Hbad.
  - cbn [app TextIO.tail_loop Spec.joined].
    destruct (read_text_appended appended fh Hc) as (fh' & -> & Hc').
    rewrite Hread. destruct (Str.is_empty text) eqn:Hempty.
    + destruct text; [|discriminate Hempty].
      rewrite TailFacts.str_app_nil_l. by apply IH.
    + pose proof (drain_lines (buffer +:+ text)) as (Heq1 & Hl1 & Hb1).
      destruct (drain (buffer +:+ text)) as [lines1 buffer1].
      cbn [fst snd] in Heq1, Hl1, Hb1.
      destruct (IH fh' buffer1 Hc' Hb1)
        as (lines2 & rest & (Heq2 & Hl2 & Hb2) & Hrun & Hfail).
      exists (lines1 ++ lines2), rest. split_and!.
      * split_and!; [|by apply Forall_app|done].
        rewrite TailFacts.unlines_app, TailFacts.str_app_assoc, Heq2.
        by rewrite <- TailFacts.str_app_assoc, Heq1, TailFacts.str_app_assoc.
      * by rewrite Hrun.
      * intros bad more Hbad. by rewrite (Hfail bad more Hbad).
Qed.

End Drain.

(** Both tailers on a file read in text mode.  When the bytes of every
    read decode, the lines yielded and the buffer held at the end are the
    reading as lines of the texts the reads returned, that is of the bytes
    appended after the start, decoded read by read, with [CR LF] and [CR]
    turned into [LF]; what the file held before is never yielded.  When
    the bytes of a later read do not decode, the generator raises
    [UnicodeDecodeError] after the lines completed before: what it had
    buffered is lost and nothing more is read. *)
Theorem tail_file_in_text_mode (existing : string)
    (polls texts : list string) :
  Forall2 (Spec.reads_as decode) polls texts ->
  exists lines rest,
    Spec.lines_of (Spec.joined texts) lines rest
    /\ text_mode.root_tail_file decode existing polls
       = (lines, TextIO.Stopped rest)
    /\ text_mode.clawbeam_tail_file decode existing polls
       = (lines, TextIO.Stopped rest)
    /\ forall bad more,
         decode bad = None ->
         text_mode.root_tail_file decode existing (polls ++ bad :: more)
         = (lines, TextIO.UnicodeDecodeError)
         /\ text_mode.clawbeam_tail_file decode existing
              (polls ++ bad :: more)
            = (lines, TextIO.UnicodeDecodeError).
Proof.
  intros Hreads.
  destruct (tail_loop_text Root.session_watcher.drain
              TailFacts.root_drain_lines polls texts Hreads
              (File.seek_end (File.open existing)) EmptyString eq_refl eq_refl)
    as (lines & rest & Hlines & Hroot & Hroot_fail).
  destruct (tail_loop_text Clawbeam.session_watcher.drain
              TailFacts.clawbeam_drain_lines polls texts Hreads
              (File.seek_end (File.open existing)) EmptyString eq_refl eq_refl)
    as (lines' & rest' & Hlines' & Hclaw & Hclaw_fail).
  destruct (TailFacts.lines_of_unique _ _ _ _ _ Hlines Hlines') as [<- <-].
  rewrite TailFacts.str_app_nil_l in Hlines.
  exists lines, rest. split_and!; [done|done|done|].
  intros bad more Hbad. split.
  - by apply Hroot_fail.
  - by apply Hclaw_fail.
Qed.

End Decoder.

Lemma tail_file_in_text_mode_witness :
  exists lines rest,
    Spec.lines_of
      (Spec.joined [Sample.written_line "a"; Sample.written_line "b"])
      lines rest
    /\ text_mode.root_tail_file Sample.utf8_decode "old"
         ["a" +:+ String TextIO.carriage_return
                    (String TextIO.line_feed EmptyString);
          "b" +:+ String TextIO.carriage_return EmptyString]
       = (lines, TextIO.Stopped rest)
    /\ text_mode.clawbeam_tail_file Sample.utf8_decode "old"
         ["a" +:+ String TextIO.carriage_return
                    (String TextIO.line_feed EmptyString);
          "b" +:+ String TextIO.carriage_return EmptyString]
       = (lines, TextIO.Stopped rest)
    /\ forall bad more,
         Sample.utf8_decode bad = None ->
         text_mode.root_tail_file Sample.utf8_decode "old"
           (["a" +:+ String TextIO.carriage_return
                       (String TextIO.line_feed EmptyString);
             "b" +:+ String TextIO.carriage_return EmptyString]
            ++ bad :: more)
         = (lines, TextIO.UnicodeDecodeError)
         /\ text_mode.clawbeam_tail_file Sample.utf8_decode "old"
              (["a" +:+ String TextIO.carriage_return
                          (String TextIO.line_feed EmptyString);
                "b" +:+ String TextIO.carriage_return EmptyString]
               ++ bad :: more)
            = (lines, TextIO.UnicodeDecodeError).
Proof.
  apply (tail_file_in_text_mode Sample.utf8_decode "old").
  repeat constructor.
Defined.

End TextModeFacts.

(** ** Lines the classifiers and the tailers do not handle as documented *)

Module RecordDivergence.

(** C8.  The lines [[1]] and [null] are no records: [json.loads] decodes
    them to a list and to [None], and both classifiers then call [get] on
    that value.  [parse_line] of [parser.py] and of [clawbeam/parser.py]
    raise [AttributeError] on both lines, where they are documented to
    return [None]. *)
Theorem parse_line_raises_on_malformed_record :
  Root.parser.parse_line Sample.json_loads_values Sample.fromisoformat
    Sample.str_of Sample.uuid4_hex Sample.now Sample.array_line
  = Py.Raise Py.AttributeError
  /\ Root.parser.parse_line Sample.json_loads_values Sample.fromisoformat
       Sample.str_of Sample.uuid4_hex Sample.now Sample.null_line
     = Py.Raise Py.AttributeError
  /\ Clawbeam.parser.parse_line Sample.json_loads_values Sample.fromisoformat
       Sample.int_of_str Sample.now Sample.array_line
     = Py.Raise Py.AttributeError
  /\ Clawbeam.parser.parse_line Sample.json_loads_values Sample.fromisoformat
       Sample.int_of_str Sample.now Sample.null_line
     = Py.Raise Py.AttributeError.
Proof. split_and!; vm_compute; reflexivity. Qed.

(** C10.  The two classifiers on the same two records.  The record
    [{"type": "user"}] has neither [id] nor timestamp: [parser.py] gives
    its event a fresh identifier, [clawbeam/parser.py] gives it [None].
    The record with the [id] ["evt-1"]: [clawbeam/parser.py] gives its
    event that identifier, [parser.py] gives it the start of the fresh
    [uuid4] text and never reads the [id]. *)
Theorem event_identifier_diverges :
  (exists e,
     Root.parser.parse_line Sample.json_loads Sample.fromisoformat
       Sample.str_of Sample.uuid4_hex Sample.now Sample.user_line
     = Py.Ret (Some e)
     /\ Root.parser.id e = "0123456789ab"%string)
  /\ (exists e,
       Clawbeam.parser.parse_line Sample.json_loads Sample.fromisoformat
         Sample.int_of_str Sample.now Sample.user_line = Py.Ret (Some e)
       /\ Clawbeam.parser.id e = Py.JNull)
  /\ (exists e,
       Clawbeam.parser.parse_line Sample.json_loads Sample.fromisoformat
         Sample.int_of_str Sample.now Sample.identified_line
       = Py.Ret (Some e)
       /\ Clawbeam.parser.id e = Py.JStr "evt-1")
  /\ (exists e,
       Root.parser.parse_line Sample.json_loads Sample.fromisoformat
         Sample.str_of Sample.uuid4_hex Sample.now Sample.identified_line
       = Py.Ret (Some e)
       /\ Root.parser.id e = "0123456789ab"%string).
Proof.
  split_and!; eexists; (split; [vm_compute; reflexivity|]); done.
Qed.

(** C9.  A line whose two-byte character is cut by the end of a write.
    Written in one piece, the line is yielded by both tailers.  Written in
    two pieces, the first ending with the lead byte C3, the read that
    follows the first write raises [UnicodeDecodeError] in both tailers:
    nothing is buffered and no line is yielded. *)
Theorem tail_file_raises_on_split_character :
  text_mode.root_tail_file Sample.utf8_decode EmptyString
    [Sample.cafe_head +:+ Sample.cafe_tail]
  = ([Sample.cafe_text], TextIO.Stopped EmptyString)
  /\ text_mode.clawbeam_tail_file Sample.utf8_decode EmptyString
       [Sample.cafe_head +:+ Sample.cafe_tail]
     = ([Sample.cafe_text], TextIO.Stopped EmptyString)
  /\ text_mode.root_tail_file Sample.utf8_decode EmptyString
       [Sample.cafe_head; Sample.cafe_tail]
     = ([], TextIO.UnicodeDecodeError)
  /\ text_mode.clawbeam_tail_file Sample.utf8_decode EmptyString
       [Sample.cafe_head; Sample.cafe_tail]
     = ([], TextIO.UnicodeDecodeError).
Proof. split_and!; vm_compute; reflexivity. Qed.

End RecordDivergence.
